(* ===== verification/_CoqProject ===== *)
-Q . S2P
Prelude.v
Values.v
Objects.v
Properties.v
Lifecycle.v
ClassBody.v
Interp.v
Termination.v
Frames.v
Inheritance.v
Threads.v
Independence.v
SelfProperties.v
Construct.v
Integration.v
Exports.v
Car.v
Scenarios.v
