(* ===== verification/Prelude.v ===== *)
(** * Verification of [metaproperties]: declared properties for Python objects

    The program ([src/metaproperties_no_slots.py], published as [objects.py])
    is a small Python utility with two facilities:

    - [self_properties(self, scope, exclude, save_args)] copies the entries of
      a dictionary (typically a constructor's [locals()]) onto an instance as
      attributes with a leading underscore, optionally recording the copied
      values as the tuple [self._args];
    - the class [properties], a context manager whose method [prop] is a
      decorator factory: it turns a function [f] into a [property] whose
      getter is [lambda inst: getattr(inst, '_' + f.__name__, f(inst))] and
      whose setter (absent for read-only properties) writes the backing field
      when the value changes, optionally sets [inst._is_dirty] and optionally
      calls a listener method resolved by name on the instance.

    Both facilities are three lines of control flow around the host
    language's attribute protocol ([getattr], [setattr], data descriptors),
    and a setter's listener is user code that may assign properties again. The
    development therefore models that protocol and a small language of method
    bodies, and ties them together with a fuel-indexed interpreter.

    ** Files

    - [Prelude] (this file): the outcome type and the state-and-exception
      monad [M] every operation lives in, its notation (scope [py_scope]), the
      fuel order [outcome_le] with its [PreOrder] and monotonicity lemmas, the
      triples [keeps] with their rules, their strengthening [total] for
      operations that need no fuel, the agreement [agree] of two operations
      on the states of an invariant, operations that commute with a state
      change ([commutes]), [attempt] (the [try]/[except] at the top of a
      thread) and [finally] (the exit of a [with] statement), the tactics
      and the hint databases of the development.
    - [Values]: Python values ([value]), floats among them ([float], with
      NaN), equality [py_eq] as [==] computes it ([True == 1 == 1.0]), its
      specification [value_equiv] and the proof that it is a decidable
      partial equivalence coarser than Leibniz equality; the comparison of
      items [py_eq_item] (identity, then [==]), truthiness, membership,
      ordering [py_gt] and [str()].
    - [Objects]: the syntax of method bodies ([expr], [stmt], [func]), the
      closures the decorator creates as data ([callable]), [property]
      descriptors, the signature of a constructor that calls
      [self_properties] ([init]), classes, the instance state, and the
      attribute protocol
      [getattr] / [getattr_default] / [setattr] / [delattr] / [call_value],
      written against the interface [Invoke] (how a callable is run).
    - [Properties]: the class [properties] ([__init__], [__enter__],
      [__exit__], [prop] and the decorator it returns), and the bodies of the
      generated closures: [setter_listener] (source lines 73-79),
      [setter_plain] (81-85) and [getter_lambda] (88).
    - [Lifecycle]: the block [with properties(...) as meta:] of a class body
      as a labelled transition relation [step] on configurations (builder,
      class namespace, phase), its executable form [step_fun] / [run_block] /
      [with_properties], and the invariant [wf_class] of the namespaces that
      declarations produce.
    - [ClassBody]: the class body with its names. The state [body_state] is
      the namespace and the builder objects created so far; [exec_with] is
      the statement of source line 101 (a new builder, bound to the target,
      the definitions of the block, [__exit__] on the way out through
      [finally]); [exec_bstmt] is a definition, decorated or not, where the
      decorator expression looks the builder up by its name
      ([lookup_builder]); [class_def] is the class statement.
    - [Interp]: evaluation of method bodies ([eval], [exec], [run_func]) and
      the interpreter [invoke_fuel] that closes the recursion with fuel; fuel
      monotonicity; the behaviour of assignment ([assign]), reading ([read])
      and deletion ([delete]) through a declared property on every branch.
    - [Termination]: a check on the class, [bounded], that the calls below a
      getter or setter nest at most [k] deep, and its soundness. The check
      is [below] under a [policy] (what no body may write on the instance,
      whether the setters may set the flag, the listeners' names), sound
      for every invariant that is [Stable] for the policy; [bounded] is the
      policy [guard].
    - [Frames]: the policies [frame] (a list of attributes is protected,
      invariant [unchanged]) and [keep_flag] (no body writes [_is_dirty],
      invariant: the flag is set).
    - [Inheritance]: a class with its ancestors as the list of their
      namespaces in method resolution order ([mro_lookup]), flattened to the
      one namespace the other files run on ([flatten], [subclass]); the
      check [same_below] that a class and an extension of it bind alike
      the names the calls below a setter look up.
    - [Threads]: several threads assigning through the setters of one
      instance (specification, section 5). A [thread] is a call of a setter
      in progress, at one of the statements of source lines 73-85 ([pc]);
      [thread_step] runs one statement on the shared instance; [pool_step]
      and [run_schedule] interleave the threads by a schedule, a list of
      thread indices; [run_serial] is the reference, one call after the other.
    - [Independence]: threads that run setters without listener on
      different properties; the invariant [indep_inv] that gives the
      instance from the statement each thread is at.
    - [SelfProperties]: the bulk initialiser [self_properties] with both of
      its loops, for every value of [exclude] (a tuple, a string, or a value
      [in] cannot search), and their specification as a fold over the
      filtered scope.
    - [Construct]: a constructor whose body is the call of source lines
      121-122, for any signature ([Objects.init]): [bind_positional] binds
      the arguments of the call to the parameters, [locals_of] is the scope
      the constructor passes, [construct] the constructor's call,
      [instantiate] the call of the class (source line 142), and [clone] the
      class called again on the tuple an instance saved in [_args].
    - [Integration]: theorems about every class a block produces, and about
      a constructor that calls [self_properties] followed by a read.
    - [Exports]: the export list [__all__] of source line 7 and the
      statement [from objects import *] of the example ([import_star]): the
      example imports the two facilities and not [Union].
    - [Car]: the example of the source's closing comment: the body of class
      [Car] as statements ([Car_body]), the class it defines ([Car], which
      binds [meta] to the builder), the constructor and the driver script,
      run through the interpreter.
    - [Scenarios]: the classes of the specification's test scenarios, the
      behaviours the specification does not describe as closed theorems, and
      every general theorem applied at a concrete input.

    ** State and effects

    An operation is a function [state -> outcome exn state A]. The state is
    the instance's [__dict__] (a [gmap string value]) and the text printed so
    far. An outcome is a result with the state after it, a Python exception
    with the state at the point of raising (mutations made before a raise
    persist, as in Python), [OutOfFuel] (the call depth exceeded the fuel; no
    Python behaviour corresponds to it below the recursion limit), or
    [Unmodelled] (the program left the modelled fragment of Python, e.g.
    [str()] of an object). The class is immutable during a run and is a
    parameter of the semantics. The class body runs in the same monad over
    another state ([ClassBody.body_state]); it makes no call, needs no fuel,
    and leaves the model only at a name bound to an object that does not
    exist, which the invariant [body_inv] excludes.

    ** Fuel

    Fuel bounds the depth of nested calls (getter, setter, listener, default
    function), not the number of steps: bodies have no loops, so one unit of
    fuel per call level is enough. [Interp.invoke_mono] shows that a result
    obtained with some fuel is the result with any larger fuel, so every
    theorem that exhibits a fuel shows what the program computes. How much
    fuel is enough is a property of the class: [Termination.bounded] computes
    it from the call graph (6 for the example, where a listener assigns a
    property whose listener reads a third), and a class whose listener
    reassigns its own property has no bound
    ([Scenarios.runaway_listener]); Python ends such a run with
    [RecursionError], which the model does not have.

    ** Threads and schedules

    A setter takes no lock. In [Threads] the unit of interleaving is the
    statement: each of the five statements of the setter with a listener
    (read, compare, write, dirty flag, listener call; three for the setter
    without) is one atomic step, and a schedule names the thread that takes
    each step. Python switches threads between bytecodes, so the model has
    a subset of the real interleavings: the races it exhibits are real, and
    the guarantees it proves ([log_sound], [schedule_work_bound]) are about
    this granularity, with the call of a listener as one step. A schedule is
    fair for the purpose of [fair_schedule_finishes] when it gives every
    thread five turns, the length of the longer setter; the fuel a pool needs
    is the fuel of its deepest setter, whatever the schedule, since a step
    never nests the call of another thread. The pool carries three ghost
    fields that no step reads: the log of listener calls, the record of the
    writes, and the count of steps.

    ** What the theorems show

    - [Values]: [py_eq] is symmetric and transitive, reflexive on every
      value but a NaN, and decides [value_equiv]; the comparison of items
      is an equivalence; equal values have the same truth value and need
      not be Leibniz-equal.
    - [Objects]: the descriptor protocol: what [getattr], [setattr] and
      [delattr] do on each kind of class attribute, errors included;
      monotonicity in the interface.
    - [Properties] and [Interp]: the configuration error of [prop]; read-only
      properties have no setter and refuse assignment leaving the state
      untouched; the setter is a no-op on an equal value; a changing write
      updates the field, sets the dirty flag and notifies the listener with
      (field, old, new), in that order; a missing listener raises after the
      write; the getter evaluates the default function eagerly.
      A default function that touches no attribute makes every read
      terminate with fuel 2. A NaN is a change at every assignment
      ([assign_nan_changes]); an attribute of the instance under the
      listener's name replaces the method of the class
      ([assign_listener_rebound]); a declared property cannot be deleted,
      and deleting its backing field resets it to the default.
    - [Inheritance]: the flattened namespace is the lookup along the
      method resolution order ([flatten_lookup]); a subclass is notified
      through the method it overrides ([override_listener]) and loses a
      property whose name it rebinds; under the check of [Termination], an
      extension that binds alike the names the setters look up
      ([same_below]) runs every script of assignments as the class does
      ([extension_conservative]), proved with the relation [agree] of this
      file.
    - [Lifecycle]: the block ends closed with the builder's references
      dropped on every way out, with the error of the first declaration that
      the configuration check stops; the executable block is a run of the
      transition relation; every configuration reached keeps the namespace
      well-formed (invariant, by induction on the run); when every
      declaration passes the check the block ends without error in the
      namespace the declarations build in order
      ([with_properties_namespace]).
    - [ClassBody]: a definition commutes with [__exit__], so the block runs
      its body as if the builder had been released first
      ([exec_with_closed]); hence the [with] statement implements the block
      of [Lifecycle] over the namespace that binds the target
      ([exec_with_refines]), the naming key has no effect
      ([var_name_irrelevant]), and the builder stays bound after the block
      and declares as before ([builder_stays_bound]). A definition called
      like the builder hides it, and the next decorator raises
      [AttributeError] ([definition_hides_builder]). Every class body
      returns or raises and keeps the invariant [body_inv]: a well-formed
      namespace, every builder released, no dangling name
      ([exec_body_invariant], through the triples [total] of this file), so
      the class of a body that returns is well formed ([class_def_wf]).
    - [Termination]: when the check [bounded] passes with [k] and the
      instance has no attribute named like a listener, every sequence of
      assignments ends with fuel [k] and keeps the instance so; the proof
      goes through triples [keeps Inv m Q] (this file) that give termination
      and an invariant together.
    - [Frames]: when the check [framed] passes for the attributes [X],
      every script of assignments ends and leaves [X] as it was, whatever
      the listeners do ([assignments_frame]); for a property whose
      listener writes no attribute named like the backing field, the field
      holds the value assigned also when the listener raised
      ([assign_stores]), and assigning the value again is silent
      ([assign_again_silent]): the specification's "the same value twice
      notifies once", which the source's own example does not satisfy
      because its listeners write the field. A script of assignments to
      such a property is the program [chain], in which the old value passed
      to the listener is the last value assigned and is not read from the
      instance ([script_is_chain]). When no method body writes
      [_is_dirty], a flag that is set stays set through every script
      ([dirty_never_cleared]) and a changing write through a property with
      auto-dirty ends with the flag set ([assign_sets_flag]).
    - [Threads]: a thread alone is the call of its setter
      ([run_steps_refines]) and a serial schedule is the program that makes
      the assignments one after the other ([serial_refines],
      [serial_assignments]); under the check of [Termination] no schedule runs
      out of fuel and every fair schedule ends every thread (liveness);
      under the check of [Frames] every schedule leaves the protected
      attributes as they were ([schedule_frame]); a
      pool runs at most five statements for each thread (bound, by the
      measure [work]); each thread notifies at most once, of a write it
      made and with the value it assigns, and a thread that wrote and
      returned has notified, so a race can only make the old value stale
      (invariants [log_inv] and [written_inv]). [Independence]: setters
      without listener on different properties do not race, every schedule
      returns and all fair schedules, the serial one among them
      ([sequential_fair]), leave the same instance. [Scenarios] has the
      races themselves: a last
      notification that does not carry the final value, and two
      notifications for one change.
    - [SelfProperties]: the fields written, the order of [_args], agreement of
      the two loops (also when a write or the test of [exclude] raises),
      exclusion of ['self'] and of the excluded names, and the [TypeError]
      of an [exclude] that is not iterable, raised before any write and only
      when the scope has a key other than ['self'].
    - [Construct]: the constructor leaves the argument or the default of
      every parameter that is not excluded in its backing field
      ([construct_stores]); when the arguments are saved and nothing is
      excluded, the class called on [_args] makes an instance with the same
      attributes ([clone_roundtrip]); with an exclusion and no defaults that
      call raises [TypeError] ([clone_excluded]), and with defaults it
      makes another instance ([Scenarios.clone_shifted]).
    - [Integration]: in a well-formed class an assignment through a property
      without listener touches only the backing field and [_is_dirty]; a
      constructor's entries are what the declared properties read; and
      from the class statement on: the class a body defines, called and
      then read through a declared property, gives the argument bound to
      the parameter of that name ([instantiate_then_read]).
    - [Car], [Scenarios]: the printed trace of the example script, the
      specification's scenarios, and the cases where the code and the
      specification part.

    ** Interfaces

    [Objects.Invoke] is the interface between the attribute protocol and
    whatever runs a callable: [getattr], [setattr] and the closures of
    [Properties] are written and proved against it, and [Interp.invoke_fuel]
    is its instance. [Lifecycle.wf_class] and [Lifecycle.backing_free] are
    what [Integration] assumes of a class; the first is what every class
    body establishes ([ClassBody.class_def_wf]), the second is checked on
    the class ([Lifecycle.backing_freeb]). [Termination.Stable] is what the
    call-depth check asks of an invariant; [Termination] and [Frames]
    give its three instances.

    ** Not modelled

    Lists, sets and dictionaries as values, user-defined [__eq__] and
    [__contains__] (an object given as [exclude] leaves the model), the
    digits that [str()] prints for a finite float (formatting one leaves the
    model; floats are compared exactly and never computed with, so there is
    no rounding), [__getattr__] hooks, [__slots__], the computation of the
    method resolution order from several bases (the order is given) and
    [super()], several instances with references between them (an object
    reference is an opaque identity), [del] inside method bodies. Of the
    class body: statements other than [def], decorated [def] and [with]
    (assignments, nested classes) and names looked up in the module's
    globals (the name [properties] itself). A constructor that calls
    [self_properties] is an entry of the namespace of its own kind
    ([Objects.AInit]), given by its signature, since the call is no
    statement of [stmt]; a call of [__init__] through the instance is not
    modelled. Of calls: keyword arguments, [*args]
    and [**kwargs] parameters, and local variables a constructor assigns
    before it calls [self_properties], which [locals()] would hold too. Of
    threads: interleavings below the statement (bytecodes), inside the body
    of a listener or of a default function, and threads that read or that
    run [self_properties]. Of the module header: the import of [Union]
    (line 5) is the name it binds and no more, since annotations are not
    evaluated by anything the model runs. *)

From stdpp Require Import base tactics list.

(** ** Outcomes *)

Inductive outcome (E S A : Type) : Type :=
| Done (a : A) (s : S)
| Raised (e : E) (s : S)
| OutOfFuel
| Unmodelled.

Arguments Done {E S A} a s.
Arguments Raised {E S A} e s.
Arguments OutOfFuel {E S A}.
Arguments Unmodelled {E S A}.

(** ** The monad of operations *)

Definition M (E S A : Type) : Type := S -> outcome E S A.

Section Monad.
Context {E S : Type}.

Definition ret {A} (a : A) : M E S A := fun s => Done a s.

Definition bind {A B} (m : M E S A) (k : A -> M E S B) : M E S B :=
  fun s =>
    match m s with
    | Done a s' => k a s'
    | Raised e s' => Raised e s'
    | OutOfFuel => OutOfFuel
    | Unmodelled => Unmodelled
    end.

Definition raise {A} (e : E) : M E S A := fun s => Raised e s.

Definition out_of_fuel {A} : M E S A := fun _ => OutOfFuel.

Definition unmodelled {A} : M E S A := fun _ => Unmodelled.

Definition get_state : M E S S := fun s => Done s s.

Definition modify (f : S -> S) : M E S unit := fun s => Done tt (f s).

(** [try_except m handles h]: Python's [try: m except <handles>: h]. The
    handler runs in the state the exception was raised in. *)
Definition try_except {A} (m : M E S A) (handles : E -> bool) (h : M E S A)
  : M E S A :=
  fun s =>
    match m s with
    | Raised e s' => if handles e then h s' else Raised e s'
    | r => r
    end.

(** [when b m]: [if b: m]. *)
Definition when (b : bool) (m : M E S unit) : M E S unit :=
  if b then m else ret tt.

(** Monadic left fold: a [for] loop over a list. *)
Fixpoint for_each {A} (f : A -> M E S unit) (l : list A) : M E S unit :=
  match l with
  | [] => ret tt
  | x :: l' => bind (f x) (fun _ => for_each f l')
  end.

(** [attempt m]: the exception of [m], if it raises, as a value. The top
    level of a thread: its exception ends the thread, not the program. *)
Definition attempt {A} (m : M E S A) : M E S (E + A) :=
  fun s =>
    match m s with
    | Done a s' => Done (inr a) s'
    | Raised e s' => Done (inl e) s'
    | OutOfFuel => OutOfFuel
    | Unmodelled => Unmodelled
    end.

(** [finally m h]: [h] runs when [m] returns and when it raises, in the
    state [m] left; the exception of [m] is raised again after it. What a
    [with] statement does with an [__exit__] that returns [None]. *)
Definition finally {A} (m : M E S A) (h : M E S unit) : M E S A :=
  bind (attempt m) (fun r =>
  bind h (fun _ =>
  match r with
  | inl e => raise e
  | inr a => ret a
  end)).

End Monad.

Declare Scope py_scope.
Delimit Scope py_scope with py.

Notation "'let!' x ':=' m 'in' k" := (bind m (fun x => k))
  (at level 10, x name, m at level 100, k at level 200) : py_scope.
Notation "'run!' m 'in' k" := (bind m (fun _ => k))
  (at level 10, m at level 100, k at level 200) : py_scope.

Open Scope py_scope.

(** ** Observations on outcomes *)

Definition final_state {E S A} (r : outcome E S A) : option S :=
  match r with
  | Done _ s | Raised _ s => Some s
  | _ => None
  end.

Definition result_of {E S A} (r : outcome E S A) : option A :=
  match r with
  | Done a _ => Some a
  | _ => None
  end.

Definition raised_of {E S A} (r : outcome E S A) : option E :=
  match r with
  | Raised e _ => Some e
  | _ => None
  end.

Definition terminated {E S A} (r : outcome E S A) : bool :=
  match r with
  | OutOfFuel => false
  | _ => true
  end.

(** [f] applied to the state an outcome ends in. *)
Definition on_state {E S A} (f : S -> S) (r : outcome E S A) : outcome E S A :=
  match r with
  | Done a s => Done a (f s)
  | Raised e s => Raised e (f s)
  | r => r
  end.

(** ** Triples with an invariant

    [keeps Inv m Q]: from a state that satisfies [Inv], [m] does not run out
    of fuel; when it returns, its result satisfies [Q] and the state [Inv];
    when it raises, the state satisfies [Inv]. *)

Definition keeps {E S A} (Inv : S -> Prop) (m : M E S A) (Q : A -> Prop)
  : Prop :=
  forall s, Inv s ->
    match m s with
    | Done a s' => Q a /\ Inv s'
    | Raised _ s' => Inv s'
    | OutOfFuel => False
    | Unmodelled => True
    end.

(** [total Inv m Q]: a triple of an operation that needs no fuel and stays
    inside the model: from a state that satisfies [Inv], [m] returns or
    raises, with [Q] and [Inv] as in [keeps]. *)
Definition total {E S A} (Inv : S -> Prop) (m : M E S A) (Q : A -> Prop)
  : Prop :=
  forall s, Inv s ->
    match m s with
    | Done a s' => Q a /\ Inv s'
    | Raised _ s' => Inv s'
    | _ => False
    end.

(** [commutes f m]: [m] does not see the state change [f]; running it
    after [f] is running it and then applying [f]. *)
Definition commutes {E S A} (f : S -> S) (m : M E S A) : Prop :=
  forall s, m (f s) = on_state f (m s).

(** ** The fuel order

    [outcome_le r r']: [r'] is [r], or [r] ran out of fuel. An interpreter
    with more fuel is above the one with less. *)

Definition outcome_le {E S A} (r r' : outcome E S A) : Prop :=
  r = OutOfFuel \/ r = r'.

Definition m_le {E S A} (m m' : M E S A) : Prop :=
  forall s, outcome_le (m s) (m' s).

Infix "⊑" := m_le (at level 70) : py_scope.

(** ** Tactics and hint databases *)

Create HintDb py discriminated.
Create Rewrite HintDb py_rw.

(** Unfold the monadic combinators. *)
Ltac unfold_m :=
  unfold when, get_state, modify, raise, ret, out_of_fuel, unmodelled,
    try_except, bind in *.

(** Case analysis on the first outcome scrutinised in the goal. *)
Ltac case_outcome :=
  match goal with
  | |- context [match ?r with Done _ _ => _ | _ => _ end] =>
      lazymatch r with
      | context [match _ with Done _ _ => _ | _ => _ end] => fail
      | _ => let H := fresh "Hrun" in destruct r eqn:H
      end
  end.

(** Close a goal of the fuel order by reflexivity or by running out. *)
Ltac solve_le :=
  solve [ by right | by left | eauto with py ].

Section MonadLaws.
Context {E S : Type}.
Implicit Types s : S.

Lemma bind_ret_l {A B} (a : A) (k : A -> M E S B) s :
  bind (ret a) k s = k a s.
Proof. reflexivity. Qed.

Lemma bind_ret_r {A} (m : M E S A) s : bind m ret s = m s.
Proof. unfold bind, ret. by destruct (m s). Qed.

Lemma bind_assoc {A B C} (m : M E S A) (k : A -> M E S B)
    (h : B -> M E S C) s :
  bind (bind m k) h s = bind m (fun a => bind (k a) h) s.
Proof. unfold bind. by destruct (m s). Qed.

Lemma bind_done {A B} (m : M E S A) (k : A -> M E S B) s a s' :
  m s = Done a s' -> bind m k s = k a s'.
Proof. unfold bind. by intros ->. Qed.

Lemma bind_raised {A B} (m : M E S A) (k : A -> M E S B) s e s' :
  m s = Raised e s' -> bind m k s = Raised e s'.
Proof. unfold bind. by intros ->. Qed.

Lemma bind_out_of_fuel {A B} (m : M E S A) (k : A -> M E S B) s :
  m s = OutOfFuel -> bind m k s = OutOfFuel.
Proof. unfold bind. by intros ->. Qed.

(** Inversion of a bind that produced a result. *)
Lemma bind_done_inv {A B} (m : M E S A) (k : A -> M E S B) s b s'' :
  bind m k s = Done b s'' ->
  exists a s', m s = Done a s' /\ k a s' = Done b s''.
Proof. unfold bind. destruct (m s); naive_solver. Qed.

Lemma bind_raised_inv {A B} (m : M E S A) (k : A -> M E S B) s e s'' :
  bind m k s = Raised e s'' ->
  m s = Raised e s'' \/ exists a s', m s = Done a s' /\ k a s' = Raised e s''.
Proof. unfold bind. destruct (m s); naive_solver. Qed.

Lemma try_except_done {A} (m : M E S A) handles h s a s' :
  m s = Done a s' -> try_except m handles h s = Done a s'.
Proof. unfold try_except. by intros ->. Qed.

Lemma try_except_handled {A} (m : M E S A) handles h s e s' :
  m s = Raised e s' -> handles e = true -> try_except m handles h s = h s'.
Proof. unfold try_except. by intros -> ->. Qed.

Lemma try_except_passed {A} (m : M E S A) handles h s e s' :
  m s = Raised e s' -> handles e = false ->
  try_except m handles h s = Raised e s'.
Proof. unfold try_except. by intros -> ->. Qed.

Lemma for_each_app {A} (f : A -> M E S unit) l1 l2 s :
  for_each f (l1 ++ l2) s = bind (for_each f l1) (fun _ => for_each f l2) s.
Proof.
  revert s. induction l1 as [|x l1 IH]; intros s; simpl; [done|].
  unfold bind. by destruct (f x s).
Qed.

End MonadLaws.

(** ** Lists *)

(** Replacing one element of a list changes a sum over it by the
    difference of the two weights. *)
Lemma sum_list_with_insert {A} (f : A -> nat) (l : list A) i x y :
  l !! i = Some x ->
  sum_list_with f (<[i:=y]> l) + f x = sum_list_with f l + f y.
Proof.
  revert i. induction l as [|a l IH]; intros [|i] Hi; simplify_eq/=; [lia|].
  specialize (IH i Hi). lia.
Qed.

Lemma sum_list_with_le {A} (f : A -> nat) (l : list A) n :
  (forall a, f a <= n) -> sum_list_with f l <= n * length l.
Proof.
  intros Hf. induction l as [|a l IH]; simpl; [lia|]. specialize (Hf a). lia.
Qed.

(** How often [i] occurs in a list of indices. *)
Lemma list_insert_middle {A} (l1 l2 : list A) (x y : A) :
  <[length l1 := y]> (l1 ++ x :: l2) = l1 ++ y :: l2.
Proof. by rewrite insert_app_r_alt, Nat.sub_diag by lia. Qed.

Lemma existsb_insert {A} (f : A -> bool) (l : list A) i x y :
  l !! i = Some x -> f x = false ->
  existsb f (<[i:=y]> l) = f y || existsb f l.
Proof.
  revert i. induction l as [|a l IH]; intros [|i]; simpl; try done.
  - by intros [= ->] ->.
  - intros Hi Hx. rewrite (IH i) by done. by destruct (f a), (f y).
Qed.

Definition occurrences (i : nat) (l : list nat) : nat :=
  length (filter (eq i) l).

Lemma occurrences_cons i j l :
  occurrences i (j :: l) =
  (if decide (i = j) then 1 else 0) + occurrences i l.
Proof. unfold occurrences. rewrite filter_cons. by case_decide. Qed.

(** ** The fuel order is a preorder and the combinators are monotone *)

Section FuelOrder.
Context {E S : Type}.

#[export] Instance outcome_le_preorder {A} : PreOrder (@outcome_le E S A).
Proof.
  split; [by right|]. intros x y z [-> | ->] H; [by left|done].
Qed.

#[export] Instance m_le_preorder {A} : PreOrder (@m_le E S A).
Proof.
  split; [by right|]. intros x y z H1 H2 s. etrans; [apply H1|apply H2].
Qed.

Lemma outcome_le_terminated {A} (r r' : outcome E S A) :
  outcome_le r r' -> terminated r = true -> r' = r.
Proof. intros [-> | ->]; [done|auto]. Qed.

Lemma m_le_terminated {A} (m m' : M E S A) s :
  m ⊑ m' -> terminated (m s) = true -> m' s = m s.
Proof. intros H. apply outcome_le_terminated, H. Qed.

Lemma bind_mono {A B} (m m' : M E S A) (k k' : A -> M E S B) :
  m ⊑ m' -> (forall a, k a ⊑ k' a) -> bind m k ⊑ bind m' k'.
Proof.
  intros Hm Hk s. unfold bind.
  destruct (Hm s) as [-> | ->]; [by left|]. destruct (m' s); try by right.
  apply Hk.
Qed.

Lemma try_except_mono {A} (m m' h h' : M E S A) handles :
  m ⊑ m' -> h ⊑ h' -> try_except m handles h ⊑ try_except m' handles h'.
Proof.
  intros Hm Hh s. unfold try_except.
  destruct (Hm s) as [-> | ->]; [by left|]. destruct (m' s); try by right.
  destruct (handles e); [apply Hh|by right].
Qed.

Lemma when_mono b (m m' : M E S unit) : m ⊑ m' -> when b m ⊑ when b m'.
Proof. intros H. by destruct b. Qed.

Lemma for_each_mono {A} (f f' : A -> M E S unit) l :
  (forall a, f a ⊑ f' a) -> for_each f l ⊑ for_each f' l.
Proof.
  intros Hf. induction l as [|x l IH]; simpl; [done|]. by apply bind_mono.
Qed.

Lemma out_of_fuel_le {A} (m : M E S A) : out_of_fuel ⊑ m.
Proof. intros s. by left. Qed.

Lemma attempt_mono {A} (m m' : M E S A) : m ⊑ m' -> attempt m ⊑ attempt m'.
Proof.
  intros Hm s. unfold attempt. destruct (Hm s) as [-> | ->]; [by left|by right].
Qed.

End FuelOrder.

(** ** Rules for triples *)

Section Keeps.
Context {E S : Type} (Inv : S -> Prop).

Lemma keeps_ret {A} (a : A) (Q : A -> Prop) : Q a -> keeps Inv (@ret E S A a) Q.
Proof. by intros Ha s Hs. Qed.

Lemma keeps_raise {A} (e : E) (Q : A -> Prop) : keeps Inv (@raise E S A e) Q.
Proof. by intros s Hs. Qed.

Lemma keeps_unmodelled {A} (Q : A -> Prop) : keeps Inv (@unmodelled E S A) Q.
Proof. by intros s Hs. Qed.

Lemma keeps_get_state : keeps Inv (@get_state E S) Inv.
Proof. by intros s Hs. Qed.

Lemma keeps_modify (f : S -> S) (Q : unit -> Prop) :
  (forall s, Inv s -> Inv (f s)) -> Q tt -> keeps Inv (@modify E S f) Q.
Proof. intros Hf Hq s Hs. simpl. auto. Qed.

Lemma keeps_bind {A B} (m : M E S A) (k : A -> M E S B) Q R :
  keeps Inv m Q -> (forall a, Q a -> keeps Inv (k a) R) ->
  keeps Inv (bind m k) R.
Proof.
  intros Hm Hk s Hs. specialize (Hm s Hs). unfold bind.
  destruct (m s); try done. destruct Hm as [Ha Hs']. by apply Hk.
Qed.

Lemma keeps_weaken {A} (m : M E S A) (Q Q' : A -> Prop) :
  keeps Inv m Q -> (forall a, Q a -> Q' a) -> keeps Inv m Q'.
Proof.
  intros Hm HQ s Hs. specialize (Hm s Hs).
  destruct (m s); [|done..]. destruct Hm. auto.
Qed.

Lemma keeps_try_except {A} (m h : M E S A) handles Q :
  keeps Inv m Q -> keeps Inv h Q -> keeps Inv (try_except m handles h) Q.
Proof.
  intros Hm Hh s Hs. specialize (Hm s Hs). unfold try_except.
  destruct (m s); try done. destruct (handles e); [by apply Hh|done].
Qed.

Lemma keeps_when b (m : M E S unit) Q :
  Q tt -> keeps Inv m Q -> keeps Inv (when b m) Q.
Proof. intros Hq Hm. destruct b; [done|by apply keeps_ret]. Qed.

Lemma keeps_for_each {A} (f : A -> M E S unit) l :
  Forall (fun a => keeps Inv (f a) (fun _ => True)) l ->
  keeps Inv (for_each f l) (fun _ => True).
Proof.
  induction 1; simpl; [by apply keeps_ret|]. by eapply keeps_bind.
Qed.

(** An attempt does not raise. *)
Lemma keeps_attempt {A} (m : M E S A) Q :
  keeps Inv m Q -> keeps Inv (attempt m) (fun _ => True).
Proof.
  intros Hm s Hs. specialize (Hm s Hs). unfold attempt.
  destruct (m s); [by destruct Hm|done..].
Qed.

Lemma attempt_not_raised {A} (m : M E S A) s e s' : attempt m s <> Raised e s'.
Proof. unfold attempt. by destruct (m s). Qed.

(** What a triple says of one run. *)
Lemma keeps_terminated {A} (m : M E S A) Q s :
  keeps Inv m Q -> Inv s ->
  terminated (m s) = true /\
  forall s', final_state (m s) = Some s' -> Inv s'.
Proof.
  intros Hm Hs. specialize (Hm s Hs).
  destruct (m s) as [a s1|e s1| |]; simpl; [destruct Hm as [_ Hm]| |done|];
    (split; [done|]); intros s' ?; by simplify_eq.
Qed.

End Keeps.

(** ** Rules for total triples *)

Section Total.
Context {E S : Type} (Inv : S -> Prop).

Lemma total_keeps {A} (m : M E S A) Q : total Inv m Q -> keeps Inv m Q.
Proof. intros Hm s Hs. specialize (Hm s Hs). by destruct (m s). Qed.

Lemma total_ret {A} (a : A) (Q : A -> Prop) : Q a -> total Inv (@ret E S A a) Q.
Proof. by intros Ha s Hs. Qed.

Lemma total_raise {A} (e : E) (Q : A -> Prop) : total Inv (@raise E S A e) Q.
Proof. by intros s Hs. Qed.

Lemma total_modify (f : S -> S) (Q : unit -> Prop) :
  (forall s, Inv s -> Inv (f s)) -> Q tt -> total Inv (@modify E S f) Q.
Proof. intros Hf Hq s Hs. simpl. auto. Qed.

Lemma total_bind {A B} (m : M E S A) (k : A -> M E S B) Q R :
  total Inv m Q -> (forall a, Q a -> total Inv (k a) R) ->
  total Inv (bind m k) R.
Proof.
  intros Hm Hk s Hs. specialize (Hm s Hs). unfold bind.
  destruct (m s); try done. destruct Hm as [Ha Hs']. by apply Hk.
Qed.

Lemma total_for_each {A} (f : A -> M E S unit) l :
  (forall a, total Inv (f a) (fun _ => True)) ->
  total Inv (for_each f l) (fun _ => True).
Proof.
  intros Hf. induction l; simpl; [by apply total_ret|]. by eapply total_bind.
Qed.

(** What a total triple says of one run. *)
Lemma total_run {A} (m : M E S A) Q s :
  total Inv m Q -> Inv s ->
  exists s', Inv s' /\
    ((exists a, Q a /\ m s = Done a s') \/ exists e, m s = Raised e s').
Proof.
  intros Hm Hs. specialize (Hm s Hs).
  destruct (m s) as [a s'|e s'| |]; [destruct Hm| |done..]; eauto 7.
Qed.

End Total.

(** ** Operations that commute with a state change *)

Section Commutes.
Context {E S : Type} (f : S -> S).

Lemma commutes_ret {A} (a : A) : commutes f (@ret E S A a).
Proof. done. Qed.

Lemma commutes_raise {A} (e : E) : commutes f (@raise E S A e).
Proof. done. Qed.

Lemma commutes_modify (g : S -> S) :
  (forall s, g (f s) = f (g s)) -> commutes f (@modify E S g).
Proof. intros Hg s. unfold modify. simpl. by rewrite Hg. Qed.

Lemma commutes_bind {A B} (m : M E S A) (k : A -> M E S B) :
  commutes f m -> (forall a, commutes f (k a)) -> commutes f (bind m k).
Proof.
  intros Hm Hk s. unfold bind. rewrite Hm.
  destruct (m s); simpl; [apply Hk|done..].
Qed.

Lemma commutes_for_each {A} (g : A -> M E S unit) l :
  (forall a, commutes f (g a)) -> commutes f (for_each g l).
Proof.
  intros Hg. induction l; simpl; [apply commutes_ret|].
  by apply commutes_bind.
Qed.

(** What a [finally] with a handler that cannot raise does. *)
Lemma finally_modify {A} (m : M E S A) s :
  finally m (modify f) s = on_state f (m s).
Proof.
  unfold finally, bind, attempt, modify, raise, ret. by destruct (m s).
Qed.

(** A handler the body commutes with may as well run first. *)
Lemma finally_commutes {A} (m : M E S A) s :
  commutes f m -> finally m (modify f) s = m (f s).
Proof. intros Hm. by rewrite finally_modify, Hm. Qed.

End Commutes.

(** ** Agreement of two operations

    [agree Inv m m']: from every state that satisfies [Inv] the two
    operations have the same outcome. With a triple for one of them,
    agreement goes through the combinators. *)

Definition agree {E S A} (Inv : S -> Prop) (m m' : M E S A) : Prop :=
  forall s, Inv s -> m s = m' s.

Section Agree.
Context {E S : Type} (Inv : S -> Prop).

Lemma agree_refl {A} (m : M E S A) : agree Inv m m.
Proof. by intros s _. Qed.

Lemma agree_bind {A B} (m m' : M E S A) (k k' : A -> M E S B) Q :
  agree Inv m m' -> keeps Inv m' Q ->
  (forall a, Q a -> agree Inv (k a) (k' a)) ->
  agree Inv (bind m k) (bind m' k').
Proof.
  intros Hm Hk Hkk s Hs. unfold bind. rewrite (Hm s Hs).
  specialize (Hk s Hs). destruct (m' s); try done.
  destruct Hk as [Hq Hs']. by apply Hkk.
Qed.

Lemma agree_try_except {A} (m m' h h' : M E S A) handles Q :
  agree Inv m m' -> keeps Inv m' Q -> agree Inv h h' ->
  agree Inv (try_except m handles h) (try_except m' handles h').
Proof.
  intros Hm Hk Hh s Hs. unfold try_except. rewrite (Hm s Hs).
  specialize (Hk s Hs). destruct (m' s); try done.
  destruct (handles e); [by apply Hh|done].
Qed.

Lemma agree_when b (m m' : M E S unit) :
  agree Inv m m' -> agree Inv (when b m) (when b m').
Proof. intros H. destruct b; [done|apply agree_refl]. Qed.

Lemma agree_for_each {A} (f f' : A -> M E S unit) l :
  Forall (fun a => agree Inv (f a) (f' a) /\
                   keeps Inv (f' a) (fun _ => True)) l ->
  agree Inv (for_each f l) (for_each f' l).
Proof.
  induction 1 as [|a l [Ha Hk] _ IH]; simpl; [apply agree_refl|].
  by eapply agree_bind.
Qed.

End Agree.

#[export] Hint Resolve bind_mono try_except_mono when_mono for_each_mono
  out_of_fuel_le : py.
#[export] Hint Resolve agree_refl agree_when : py.
#[export] Hint Resolve keeps_ret keeps_raise keeps_unmodelled keeps_bind
  keeps_try_except keeps_when : py.
#[export] Hint Extern 0 (_ ⊑ _) => reflexivity : py.
#[export] Hint Rewrite @bind_ret_l @bind_ret_r @bind_assoc : py_rw.
