(* ===== verification/Values.v ===== *)
(** * Values: the Python values the utility handles and the operators the
    source applies to them.

    [py_ne] is the [!=] of the setters (source lines 75 and 82), [py_truthy]
    the truth test of [if listener] and [read_only and listener] (64, 70),
    and [py_contains] the [k not in exclude] of [self_properties] (20, 26):
    [py_in] when [exclude] is a tuple, [py_substring] when it is a string.
    [py_gt] and [py_str] are used by the bodies of the example's listeners.
    The relation [value_equiv] specifies [==]; [py_eq_spec] shows that
    [py_eq] decides it, [py_ne_spec] that [py_ne] decides its complement.

    Numbers are [bool], [int] and [float] and compare by their exact value.
    A float NaN is equal to nothing, itself included, so [==] is a partial
    equivalence; the comparison of the items of tuples and the operator
    [in] test identity first ([py_eq_item]), which is an equivalence. *)

From Stdlib Require Import QArith.
From stdpp Require Import base list strings pretty.
From S2P Require Import Prelude.

#[local] Close Scope Q_scope.
#[local] Open Scope Z_scope.
#[local] Set Warnings "-register-all".

(** ** Values *)

(** A [float] is an IEEE 754 binary64 value. The constructors are those of
    the Standard Library's [SpecFloat.spec_float]: zero and infinity with
    their sign, NaN, and a finite value [(-1)^s * m * 2^e]. A NaN carries
    the identity of its object, which the comparison of tuple items looks
    at. The utility never computes with a float, it compares (lines 75 and
    82): the model has the exact values and no rounding. *)
Inductive float : Type :=
| FZero (negative : bool)
| FInf (negative : bool)
| FNan (id : nat)
| FFinite (negative : bool) (m : positive) (e : Z).

#[export] Instance float_eq_dec : EqDecision float.
Proof. solve_decision. Defined.

Inductive value : Type :=
| VNone
| VBool (b : bool)
| VInt (n : Z)
| VFloat (x : float)
| VStr (s : string)
| VTuple (vs : list value)
| VObj (id : nat)
| VMethod (name : string).

(** The nested occurrence under [list] needs an induction principle that
    gives the hypothesis for every component of a tuple. *)
Section ValueInd.
Context (P : value -> Prop).
Context (HNone : P VNone) (HBool : forall b, P (VBool b))
  (HInt : forall n, P (VInt n)) (HFloat : forall x, P (VFloat x))
  (HStr : forall s, P (VStr s))
  (HTuple : forall vs, Forall P vs -> P (VTuple vs))
  (HObj : forall i, P (VObj i)) (HMethod : forall m, P (VMethod m)).

Fixpoint value_ind' (v : value) : P v :=
  match v with
  | VNone => HNone
  | VBool b => HBool b
  | VInt n => HInt n
  | VFloat x => HFloat x
  | VStr s => HStr s
  | VTuple vs =>
      HTuple vs
        ((fix go (l : list value) : Forall P l :=
            match l with
            | [] => Forall_nil_2 P
            | x :: l' => Forall_cons_2 P x l' (value_ind' x) (go l')
            end) vs)
  | VObj i => HObj i
  | VMethod m => HMethod m
  end.

End ValueInd.

#[export] Instance value_eq_dec : EqDecision value.
Proof.
  refine (fix go (a b : value) {struct a} : Decision (a = b) :=
    match a, b with
    | VNone, VNone => left _
    | VBool x, VBool y => cast_if (decide (x = y))
    | VInt x, VInt y => cast_if (decide (x = y))
    | VFloat x, VFloat y => cast_if (decide (x = y))
    | VStr x, VStr y => cast_if (decide (x = y))
    | VTuple xs, VTuple ys =>
        cast_if ((fix gos (l1 l2 : list value) {struct l1}
                    : Decision (l1 = l2) :=
                    match l1, l2 with
                    | [], [] => left _
                    | x :: l1', y :: l2' =>
                        cast_if_and (go x y) (gos l1' l2')
                    | _, _ => right _
                    end) xs ys)
    | VObj x, VObj y => cast_if (decide (x = y))
    | VMethod x, VMethod y => cast_if (decide (x = y))
    | _, _ => right _
    end); clear go; try clear gos; congruence.
Defined.
(** ** Numbers

    [bool] is a subclass of [int], and [int] and [float] compare by value:
    [True == 1 == 1.0] and [False == 0 == 0.0 == -0.0]. A NaN is no number. *)

(** The value of a finite float, exactly. *)
Definition float_value (negative : bool) (m : positive) (e : Z) : Q :=
  let n := if negative then Z.neg m else Z.pos m in
  match e with
  | Z0 => Qmake n 1
  | Zpos p => Qmake (n * Z.pow_pos 2 p) 1
  | Zneg p => Qmake n (Pos.pow 2 p)
  end.

Inductive number : Type :=
| NInf (negative : bool)
| NRat (q : Q).

Definition float_num (x : float) : option number :=
  match x with
  | FZero _ => Some (NRat (inject_Z 0))
  | FInf s => Some (NInf s)
  | FNan _ => None
  | FFinite s m e => Some (NRat (float_value s m e))
  end.

Definition as_num (v : value) : option number :=
  match v with
  | VBool b => Some (NRat (inject_Z (Z.b2z b)))
  | VInt n => Some (NRat (inject_Z n))
  | VFloat x => float_num x
  | _ => None
  end.

Definition is_number (v : value) : bool :=
  match v with
  | VBool _ | VInt _ | VFloat _ => true
  | _ => false
  end.

Definition is_nan (v : value) : bool :=
  match v with
  | VFloat (FNan _) => true
  | _ => false
  end.

Definition num_eqb (x y : number) : bool :=
  match x, y with
  | NInf s, NInf t => Bool.eqb s t
  | NRat p, NRat q => Qeq_bool p q
  | _, _ => false
  end.

(** [x < y]. *)
Definition num_ltb (x y : number) : bool :=
  match x, y with
  | NInf s, NInf t => s && negb t
  | NInf s, NRat _ => s
  | NRat _, NInf t => negb t
  | NRat p, NRat q => negb (Qle_bool q p)
  end.

(** ** Equality as [==] computes it

    Numbers compare by value and a NaN is unequal to everything. Values of
    unrelated types are unequal. An object is equal to itself only; two
    bound methods of the instance are equal when they are the same method.
    Tuples compare item by item, and two items are taken for equal when
    they are the same object or [==]: the identity test shows on a NaN,
    which is an item equal to itself. *)

Definition same_nan (a b : value) : bool :=
  match a, b with
  | VFloat (FNan i), VFloat (FNan j) => Nat.eqb i j
  | _, _ => false
  end.

Fixpoint py_eq (a b : value) : bool :=
  match a, b with
  | VNone, VNone => true
  | VStr s, VStr t => String.eqb s t
  | VTuple xs, VTuple ys =>
      (fix go (l1 l2 : list value) {struct l1} : bool :=
         match l1, l2 with
         | [], [] => true
         | x :: l1', y :: l2' => (same_nan x y || py_eq x y) && go l1' l2'
         | _, _ => false
         end) xs ys
  | VObj i, VObj j => Nat.eqb i j
  | VMethod m, VMethod n => String.eqb m n
  | _, _ =>
      match as_num a, as_num b with
      | Some x, Some y => num_eqb x y
      | _, _ => false
      end
  end.

(** The comparison of two items of a container: identity, then [==]. *)
Definition py_eq_item (a b : value) : bool := same_nan a b || py_eq a b.

(** The item-wise comparison of [py_eq], by name. *)
Fixpoint py_eq_list (l1 l2 : list value) : bool :=
  match l1, l2 with
  | [], [] => true
  | x :: l1', y :: l2' => py_eq_item x y && py_eq_list l1' l2'
  | _, _ => false
  end.

Definition py_ne (a b : value) : bool := negb (py_eq a b).

(** The specification of [==]. *)
Definition num_equiv (x y : number) : Prop :=
  match x, y with
  | NInf s, NInf t => s = t
  | NRat p, NRat q => Qeq p q
  | _, _ => False
  end.

Inductive value_equiv : value -> value -> Prop :=
| ve_none : value_equiv VNone VNone
| ve_num a b x y :
    as_num a = Some x -> as_num b = Some y -> num_equiv x y ->
    value_equiv a b
| ve_str s : value_equiv (VStr s) (VStr s)
| ve_tuple xs ys :
    Forall2 (fun x y => is_nan x = true /\ x = y \/ value_equiv x y) xs ys ->
    value_equiv (VTuple xs) (VTuple ys)
| ve_obj i : value_equiv (VObj i) (VObj i)
| ve_method m : value_equiv (VMethod m) (VMethod m).

Infix "≃" := value_equiv (at level 70) : py_scope.

(** The specification of the comparison of items. *)
Definition item_equiv (a b : value) : Prop :=
  is_nan a = true /\ a = b \/ value_equiv a b.

(** ** Truth value, type test, membership, order, [str] *)

Definition py_truthy (v : value) : bool :=
  match v with
  | VNone => false
  | VBool b => b
  | VInt n => negb (n =? 0)
  | VFloat (FZero _) => false
  | VFloat _ => true
  | VStr s => negb (String.eqb s "")
  | VTuple vs => match vs with [] => false | _ => true end
  | VObj _ | VMethod _ => true
  end.

(** [v in t] for a tuple [t]. *)
Definition py_in (v : value) (t : list value) : bool :=
  existsb (py_eq_item v) t.

(** [sub in s] for two strings: [sub] occurs in [s]. *)
Definition py_substring (sub s : string) : bool :=
  match String.index 0 sub s with
  | Some _ => true
  | None => false
  end.

(** What [v in c] does, by the type of [c]. *)
Inductive membership : Type :=
| Member (b : bool)
| MemberTypeError
| MemberUnmodelled.

(** [v in c] for any [c]: a tuple is searched item by item, a string for a
    substring (and only for a string); [None], numbers and bound methods
    are not iterable; an object answers by its class, which the model does
    not have. *)
Definition py_contains (c v : value) : membership :=
  match c with
  | VTuple t => Member (py_in v t)
  | VStr s =>
      match v with
      | VStr sub => Member (py_substring sub s)
      | _ => MemberTypeError
      end
  | VObj _ => MemberUnmodelled
  | VNone | VBool _ | VInt _ | VFloat _ | VMethod _ => MemberTypeError
  end.

(** The containers [in] searches: tuples and strings. *)
Definition iterable (c : value) : bool :=
  match c with
  | VTuple _ | VStr _ => true
  | _ => false
  end.

(** [a > b]; [None] is Python's [TypeError]. Numbers compare by value and
    no number is greater or smaller than a NaN; strings compare
    lexicographically, tuples by their first differing item. *)
Fixpoint py_gt (a b : value) : option bool :=
  match a, b with
  | VStr s, VStr t => Some (String.ltb t s)
  | VTuple xs, VTuple ys =>
      (fix go (l1 l2 : list value) {struct l1} : option bool :=
         match l1, l2 with
         | [], _ => Some false
         | _ :: _, [] => Some true
         | x :: l1', y :: l2' =>
             if py_eq_item x y then go l1' l2' else py_gt x y
         end) xs ys
  | _, _ =>
      if is_number a && is_number b then
        match as_num a, as_num b with
        | Some x, Some y => Some (num_ltb y x)
        | _, _ => Some false
        end
      else None
  end.

(** [str(v)], for the values whose text does not depend on the run; [None]
    where the model stops (the digits of a finite float; tuples print the
    [repr] of their items, objects and methods their address). *)
Definition py_str (v : value) : option string :=
  match v with
  | VNone => Some "None"%string
  | VBool true => Some "True"%string
  | VBool false => Some "False"%string
  | VInt n => Some (pretty n)
  | VFloat (FNan _) => Some "nan"%string
  | VFloat (FInf false) => Some "inf"%string
  | VFloat (FInf true) => Some "-inf"%string
  | VStr s => Some s
  | _ => None
  end.

(** ** Numbers: [num_eqb] decides [num_equiv], an equivalence *)

Lemma num_eqb_iff x y : num_eqb x y = true <-> num_equiv x y.
Proof.
  destruct x as [s|p], y as [t|q]; simpl; try done.
  - apply Bool.eqb_true_iff.
  - apply Qeq_bool_iff.
Qed.

#[export] Instance num_equiv_equivalence : Equivalence num_equiv.
Proof.
  split.
  - intros [s|p]; simpl; [done|reflexivity].
  - intros [s|p] [t|q]; simpl; by try symmetry.
  - intros [s|p] [t|q] [u|r]; simpl; try done; [congruence|apply Qeq_trans].
Qed.

Lemma as_num_is_number v x : as_num v = Some x -> is_number v = true.
Proof. by destruct v. Qed.

Lemma as_num_not_nan v x : as_num v = Some x -> is_nan v = false.
Proof. by destruct v as [| | |[]| | | |]. Qed.

(** A number that is not a NaN has a value. *)
Lemma as_num_is_Some v :
  is_number v = true -> is_nan v = false -> is_Some (as_num v).
Proof. destruct v as [| | |[]| | | |]; simpl; try done; eauto. Qed.

Lemma same_nan_iff a b : same_nan a b = true <-> is_nan a = true /\ a = b.
Proof.
  destruct a as [| | |[]| | | |], b as [| | |[]| | | |]; simpl;
    try (split; [done|by intros [? ?]]).
  rewrite Nat.eqb_eq. split; [by intros ->|by intros [_ [= ->]]].
Qed.

Lemma same_nan_sym a b : same_nan a b = same_nan b a.
Proof.
  destruct a as [| | |[]| | | |], b as [| | |[]| | | |]; simpl; try done.
  apply Nat.eqb_sym.
Qed.

(** ** [py_eq] decides [value_equiv] *)

Lemma py_eq_tuple xs ys : py_eq (VTuple xs) (VTuple ys) = py_eq_list xs ys.
Proof.
  simpl. revert ys. induction xs as [|x xs IH]; by intros [|y ys].
Qed.

(** With a number on one side, [==] compares values. *)
Lemma py_eq_number a b :
  is_number a = true \/ is_number b = true ->
  py_eq a b = match as_num a, as_num b with
              | Some x, Some y => num_eqb x y
              | _, _ => false
              end.
Proof.
  destruct a, b; simpl; try done; try (by intros [[=]|[=]]);
    intros _; by destruct (float_num _).
Qed.

Lemma py_eq_num a b x y :
  as_num a = Some x -> as_num b = Some y -> py_eq a b = num_eqb x y.
Proof.
  intros Ha Hb. rewrite py_eq_number, Ha, Hb; [done|].
  left. by eapply as_num_is_number.
Qed.

Lemma py_eq_int x y : py_eq (VInt x) (VInt y) = (x =? y).
Proof. simpl. unfold Qeq_bool. simpl. by rewrite !Z.mul_1_r. Qed.

Lemma value_equiv_number a b :
  is_number a = true \/ is_number b = true ->
  value_equiv a b <->
  exists x y, as_num a = Some x /\ as_num b = Some y /\ num_equiv x y.
Proof.
  intros Hn. split.
  - inversion 1; subst; try (by destruct Hn); eauto.
  - intros (x & y & ? & ? & ?). by eapply ve_num.
Qed.

Lemma py_eq_iff_number a b :
  is_number a = true \/ is_number b = true ->
  py_eq a b = true <-> value_equiv a b.
Proof.
  intros Hn. rewrite py_eq_number, value_equiv_number by done.
  destruct (as_num a) as [x|], (as_num b) as [y|];
    try (split; [done|by intros (? & ? & ? & ? & ?)]).
  rewrite num_eqb_iff. split; [eauto|]. by intros (? & ? & [= <-] & [= <-] & ?).
Qed.

Lemma py_eq_list_Forall2 xs ys :
  Forall (fun x => forall y, py_eq x y = true <-> value_equiv x y) xs ->
  py_eq_list xs ys = true <-> Forall2 item_equiv xs ys.
Proof.
  intros H. revert ys. induction H as [|x xs Hx _ IH]; intros [|y ys]; simpl.
  - split; [constructor|done].
  - split; [done|inversion 1].
  - split; [done|inversion 1].
  - unfold py_eq_item, item_equiv.
    by rewrite andb_true_iff, orb_true_iff, same_nan_iff, Hx, IH, Forall2_cons.
Qed.

Lemma py_eq_iff a b : py_eq a b = true <-> value_equiv a b.
Proof.
  revert b. induction a as [|x|x|x|s|xs IH|i|m] using value_ind'; intros b;
    try (by apply py_eq_iff_number; left);
    destruct b as [|y|y|y|t|ys|j|n];
    try (by apply py_eq_iff_number; right);
    try (split; [done|inversion 1; by simplify_eq/=]).
  - split; [constructor|done].
  - simpl. rewrite String.eqb_eq. split; [intros ->; constructor|].
    inversion 1; by simplify_eq/=.
  - rewrite py_eq_tuple, (py_eq_list_Forall2 _ _ IH). split.
    + by constructor.
    + inversion 1; by simplify_eq/=.
  - simpl. rewrite Nat.eqb_eq. split; [intros ->; constructor|].
    inversion 1; by simplify_eq/=.
  - simpl. rewrite String.eqb_eq. split; [intros ->; constructor|].
    inversion 1; by simplify_eq/=.
Qed.

Lemma py_eq_spec a b : reflect (value_equiv a b) (py_eq a b).
Proof. apply iff_reflect. symmetry. apply py_eq_iff. Qed.

Lemma py_eq_item_iff a b : py_eq_item a b = true <-> item_equiv a b.
Proof.
  unfold py_eq_item, item_equiv.
  by rewrite orb_true_iff, same_nan_iff, py_eq_iff.
Qed.

#[export] Instance value_equiv_dec : RelDecision value_equiv.
Proof.
  refine (fun a b => cast_if (decide (py_eq a b = true)));
    abstract (by rewrite <-py_eq_iff).
Defined.

(** ** [==] is a partial equivalence, reflexive except on a NaN *)

Lemma num_eqb_sym x y : num_eqb x y = num_eqb y x.
Proof. apply eq_true_iff_eq. rewrite !num_eqb_iff. by split. Qed.

Lemma py_eq_nan_l a b : is_nan a = true -> py_eq a b = false.
Proof. by destruct a as [| | |[]| | | |], b. Qed.

Lemma same_nan_refl a : is_nan a = true -> same_nan a a = true.
Proof. intros. by apply same_nan_iff. Qed.

Lemma py_eq_list_refl xs :
  Forall (fun x => py_eq_item x x = true) xs -> py_eq_list xs xs = true.
Proof. induction 1; simpl; [done|]. by apply andb_true_iff. Qed.

Lemma py_eq_refl_number a :
  is_number a = true -> is_nan a = false -> py_eq a a = true.
Proof.
  intros Hn Hnan. destruct (as_num_is_Some a Hn Hnan) as [x Hx].
  rewrite (py_eq_num a a x x) by done. by apply num_eqb_iff.
Qed.

Lemma py_eq_refl a : is_nan a = false -> py_eq a a = true.
Proof.
  induction a as [| | | | |xs IH| |] using value_ind'; intros Hn;
    try (by apply py_eq_refl_number).
  - done.
  - apply String.eqb_refl.
  - rewrite py_eq_tuple. apply py_eq_list_refl.
    eapply Forall_impl; [exact IH|]. intros x Hx. unfold py_eq_item.
    destruct (is_nan x) eqn:E; [by rewrite same_nan_refl|].
    rewrite Hx by done. apply orb_true_r.
  - apply Nat.eqb_refl.
  - apply String.eqb_refl.
Qed.

(** A value is equal to itself exactly when it is not a NaN. *)
Lemma py_eq_refl_iff a : py_eq a a = true <-> is_nan a = false.
Proof.
  split; [|apply py_eq_refl]. destruct (is_nan a) eqn:E; [|done].
  by rewrite py_eq_nan_l.
Qed.

(** An item is always equal to itself. *)
Lemma py_eq_item_refl a : py_eq_item a a = true.
Proof.
  unfold py_eq_item. destruct (is_nan a) eqn:E; [by rewrite same_nan_refl|].
  rewrite py_eq_refl by done. apply orb_true_r.
Qed.

Lemma py_eq_list_sym xs ys :
  Forall (fun x => forall y, py_eq x y = py_eq y x) xs ->
  py_eq_list xs ys = py_eq_list ys xs.
Proof.
  intros H. revert ys. induction H as [|x xs Hx _ IH]; intros [|y ys];
    simpl; try done. unfold py_eq_item. by rewrite Hx, IH, same_nan_sym.
Qed.

Lemma py_eq_sym_number a b :
  is_number a = true \/ is_number b = true -> py_eq a b = py_eq b a.
Proof.
  intros H. rewrite (py_eq_number a b), (py_eq_number b a) by tauto.
  destruct (as_num a), (as_num b); try done. apply num_eqb_sym.
Qed.

Lemma py_eq_sym a b : py_eq a b = py_eq b a.
Proof.
  revert b. induction a as [|x|x|x|s|xs IH|i|m] using value_ind'; intros b;
    try (by apply py_eq_sym_number; left);
    destruct b; try (by apply py_eq_sym_number; right); try done;
    try (simpl; first [apply String.eqb_sym|apply Nat.eqb_sym]).
  rewrite !py_eq_tuple. by apply py_eq_list_sym.
Qed.

#[export] Instance value_equiv_symmetric : Symmetric value_equiv.
Proof. intros a b. rewrite <-!py_eq_iff. by rewrite py_eq_sym. Qed.

Lemma value_equiv_not_nan a b : value_equiv a b -> is_nan a = false.
Proof.
  intros H%py_eq_iff. destruct (is_nan a) eqn:E; [|done].
  by rewrite py_eq_nan_l in H.
Qed.

#[export] Instance item_equiv_symmetric : Symmetric item_equiv.
Proof. intros a b [[? ->]|?]; [by left|right; by symmetry]. Qed.

Lemma item_equiv_trans_with (x : value) :
  (forall y z, value_equiv x y -> value_equiv y z -> value_equiv x z) ->
  forall y z, item_equiv x y -> item_equiv y z -> item_equiv x z.
Proof.
  intros Hx y z [[Hn ->]|Hxy] [[Hn' ->]|Hyz]; try (by left).
  - by right.
  - symmetry in Hxy. apply value_equiv_not_nan in Hxy. congruence.
  - right. eauto.
Qed.

Lemma value_equiv_trans_number a b c :
  is_number a = true ->
  value_equiv a b -> value_equiv b c -> value_equiv a c.
Proof.
  intros Hn Hab Hbc.
  apply value_equiv_number in Hab as (x & y & Hx & Hy & Hxy); [|by left].
  apply value_equiv_number in Hbc as (y' & z & Hy' & Hz & Hyz);
    [|left; by eapply as_num_is_number].
  simplify_eq. eapply ve_num; [done..|by etrans].
Qed.

Lemma Forall2_item_equiv_trans xs ys zs :
  Forall (fun x => forall y z,
    value_equiv x y -> value_equiv y z -> value_equiv x z) xs ->
  Forall2 item_equiv xs ys -> Forall2 item_equiv ys zs ->
  Forall2 item_equiv xs zs.
Proof.
  intros H. revert ys zs. induction H as [|x xs Hx _ IH]; intros ys zs H1 H2;
    inversion H1; simplify_eq; inversion H2; simplify_eq; constructor.
  - by eapply (item_equiv_trans_with x).
  - eauto.
Qed.

Lemma value_equiv_trans a b c :
  value_equiv a b -> value_equiv b c -> value_equiv a c.
Proof.
  revert b c. induction a as [|x|x|x|s|xs IH|i|m] using value_ind';
    intros b c Hab Hbc;
    try (by eapply value_equiv_trans_number);
    inversion Hab; simplify_eq/=; inversion Hbc; simplify_eq/=; try done.
  constructor. by eapply Forall2_item_equiv_trans.
Qed.

#[export] Instance value_equiv_transitive : Transitive value_equiv.
Proof. exact value_equiv_trans. Qed.

#[export] Instance value_equiv_per : RelationClasses.PER value_equiv.
Proof. split; apply _. Qed.

Lemma value_equiv_refl_iff a : value_equiv a a <-> is_nan a = false.
Proof. rewrite <-py_eq_iff. apply py_eq_refl_iff. Qed.

Lemma py_eq_trans a b c :
  py_eq a b = true -> py_eq b c = true -> py_eq a c = true.
Proof. rewrite !py_eq_iff. apply value_equiv_trans. Qed.

(** The comparison of items is an equivalence. *)
#[export] Instance item_equiv_equivalence : Equivalence item_equiv.
Proof.
  split.
  - intros a. apply py_eq_item_iff, py_eq_item_refl.
  - apply _.
  - intros a b c. apply item_equiv_trans_with. intros ??. apply value_equiv_trans.
Qed.

Lemma py_ne_false_iff a b : py_ne a b = false <-> value_equiv a b.
Proof. unfold py_ne. rewrite negb_false_iff. apply py_eq_iff. Qed.

Lemma py_ne_same a : is_nan a = false -> py_ne a a = false.
Proof. intros. by apply py_ne_false_iff, value_equiv_refl_iff. Qed.

(** A NaN differs from every value, on either side of [!=]. *)
Lemma py_ne_nan a b :
  is_nan a = true \/ is_nan b = true -> py_ne a b = true.
Proof.
  unfold py_ne. intros [H|H]; [|rewrite py_eq_sym]; by rewrite py_eq_nan_l.
Qed.

(** The [!=] of the setters holds exactly when the two values are not
    related by the specification of [==]: numbers of the same value (a
    [bool] counts as 0 or 1, a NaN is no number), the same string, tuples
    whose items are the same object or equal, the same object, the same
    method, or both [None]. *)
Theorem py_ne_spec a b : reflect (~ value_equiv a b) (py_ne a b).
Proof.
  unfold py_ne. destruct (py_eq_spec a b); constructor; [by intros []|done].
Qed.


(** [py_eq] as a function respects [value_equiv] in both arguments. *)
#[export] Instance py_eq_proper :
  Proper (value_equiv ==> value_equiv ==> eq) py_eq.
Proof.
  intros a a' Ha b b' Hb. apply eq_true_iff_eq. rewrite !py_eq_iff. split.
  - intros H. etrans; [by symmetry|]. by etrans.
  - intros H. etrans; [done|]. etrans; [done|]. by symmetry.
Qed.

#[export] Instance py_ne_proper :
  Proper (value_equiv ==> value_equiv ==> eq) py_ne.
Proof. intros a a' Ha b b' Hb. unfold py_ne. f_equal. by apply py_eq_proper. Qed.

(** Equal values are the same item to every other. *)
Lemma py_eq_item_equiv a a' x :
  value_equiv a a' -> py_eq_item a x = py_eq_item a' x.
Proof.
  intros Ha. apply eq_true_iff_eq. rewrite !py_eq_item_iff.
  assert (item_equiv a a') as Hi by by right.
  split; intros H; [symmetry in Hi|]; by etrans.
Qed.

#[export] Instance py_in_proper t : Proper (value_equiv ==> eq) (fun v => py_in v t).
Proof.
  intros a a' Ha. unfold py_in. induction t as [|x t IH]; simpl; [done|].
  by rewrite IH, (py_eq_item_equiv a a').
Qed.

(** The truth value of a number: it is not zero. *)
Lemma py_truthy_num v x :
  as_num v = Some x -> py_truthy v = negb (num_eqb x (NRat (inject_Z 0))).
Proof.
  destruct v as [|[]|n|[s|s|i|s m e]| | | |]; simpl; intros; simplify_eq;
    try done.
  - unfold num_eqb, Qeq_bool. simpl. by rewrite Z.mul_1_r.
  - unfold num_eqb, Qeq_bool, float_value. symmetry. apply negb_true_iff, Z.eqb_neq.
    destruct e, s; simpl; rewrite ?Z.pow_pos_fold; try done;
      pose proof (Z.pow_pos_nonneg 2 (Z.pos p)); lia.
Qed.

Lemma num_eqb_proper x y z : num_equiv x y -> num_eqb x z = num_eqb y z.
Proof.
  intros H. apply eq_true_iff_eq. rewrite !num_eqb_iff.
  split; intros; [symmetry in H|]; by etrans.
Qed.

(** Truthiness cannot tell equal values apart. *)
#[export] Instance py_truthy_proper : Proper (value_equiv ==> eq) py_truthy.
Proof.
  intros a b H. destruct H as [|a b x y Ha Hb Hxy| |xs ys H| |]; try done.
  - rewrite (py_truthy_num _ _ Ha), (py_truthy_num _ _ Hb).
    by rewrite (num_eqb_proper x y).
  - by destruct H.
Qed.

(** Two values the setter takes for equal have the same truth value:
    keeping the old one is not observable by an [if]. *)
Theorem unchanged_same_truth a b :
  py_ne a b = false -> py_truthy a = py_truthy b.
Proof. intros H%py_ne_false_iff. by apply py_truthy_proper. Qed.

Lemma unchanged_same_truth_witness :
  py_truthy (VBool true) = py_truthy (VInt 1).
Proof. apply unchanged_same_truth. reflexivity. Defined.

(** [str] does: [True == 1], and they print differently. *)
Lemma py_str_not_proper :
  value_equiv (VBool true) (VInt 1) /\
  py_str (VBool true) <> py_str (VInt 1) /\
  VBool true <> VInt 1.
Proof. split; [by apply py_eq_iff|done]. Qed.

Lemma py_in_spec v t : py_in v t = true <-> Exists (item_equiv v) t.
Proof.
  unfold py_in. rewrite existsb_exists, Exists_exists.
  setoid_rewrite py_eq_item_iff. setoid_rewrite list_elem_of_In. done.
Qed.

(** [sub in s] holds exactly when [sub] is the text of [s] at some offset. *)
Lemma py_substring_spec sub s :
  py_substring sub s = true <->
  exists m, String.substring m (String.length sub) s = sub.
Proof.
  unfold py_substring. destruct (String.index 0 sub s) as [m|] eqn:Hi.
  - split; [|done]. intros _. exists m. by eapply String.index_correct1.
  - split; [done|]. intros [m Hm]. destruct sub as [|a sub].
    + apply String.index_correct4 in Hi. lia.
    + by destruct (String.index_correct3 0 m _ _ Hi); [|lia|].
Qed.

Lemma py_substring_refl s : py_substring s s = true.
Proof.
  apply py_substring_spec. exists 0%nat. induction s as [|a s IH]; [done|].
  simpl. by rewrite IH.
Qed.

(** A string in a container that is searched gives a truth value. *)
Lemma py_contains_iterable c s :
  iterable c = true -> exists b, py_contains c (VStr s) = Member b.
Proof. destruct c; try done; simpl; eauto. Qed.

(** On strings [==] is Leibniz equality: the key test of [self_properties]. *)
Lemma py_eq_str s t : py_eq (VStr s) (VStr t) = bool_decide (s = t).
Proof.
  simpl. destruct (String.eqb_spec s t);
    [by rewrite bool_decide_true|by rewrite bool_decide_false].
Qed.

(** A string is the same item as another exactly when [==] holds. *)
Lemma py_eq_item_str s v : py_eq_item (VStr s) v = py_eq (VStr s) v.
Proof. done. Qed.
