(* ===== verification/Objects.v ===== *)
(** * Objects: method bodies, closures, property descriptors, classes, the
    instance, and the attribute protocol of the host language.

    The source never touches an instance except through [getattr] and
    [setattr] (lines 21, 27, 74, 76, 78, 79, 82, 83, 85, 88), and both go
    through the class first: a [property] found in the class is a data
    descriptor and takes precedence over the instance's [__dict__]. This
    file gives that protocol, parameterised by the interface [Invoke] that
    says how a callable is run; [Interp] implements the interface.
    [delattr] is the third operation of the protocol: the source gives its
    properties no deleter (line 90). *)

From stdpp Require Import base list strings gmap.
From S2P Require Import Prelude Values.

(** ** Exceptions *)

Inductive exn : Type :=
| AttributeError (name : string)
| ValueError (msg : string)
| TypeError (msg : string)
| NameError (name : string).

#[export] Instance exn_eq_dec : EqDecision exn.
Proof. solve_decision. Defined.

Definition is_AttributeError (e : exn) : bool :=
  match e with AttributeError _ => true | _ => false end.

(** ** Method bodies

    The bodies of the functions the utility is given: the decorated default
    functions and the listeners. [EAttr n] is [self.n], [SSetAttr n e] is
    [self.n = e]; [EStr e] is the formatting of a value inside an f-string
    and [ECat] the concatenation of its pieces. *)

Inductive expr : Type :=
| EConst (v : value)
| EVar (x : string)
| EAttr (name : string)
| EGt (e1 e2 : expr)
| EStr (e : expr)
| ECat (e1 e2 : expr).

Inductive stmt : Type :=
| SPass
| SExpr (e : expr)
| SSetAttr (name : string) (e : expr)
| SIf (e : expr) (s1 s2 : stmt)
| SSeq (s1 s2 : stmt)
| SPrint (e : expr)
| SReturn (e : expr).

(** A [def]: [__name__], [__doc__], the parameters after [self], the body. *)
Record func : Type := Func {
  f_name : string;
  f_doc : option string;
  f_params : list string;
  f_body : stmt
}.

(** ** Callables

    Besides plain functions, the three closures [prop] creates, as data: the
    getter [lambda inst: getattr(inst, field, f(inst))] (line 88), the setter
    with a listener (lines 73-79) and the setter without (lines 81-85), each
    with the variables it captures. *)
Inductive callable : Type :=
| CFunc (f : func)
| CGetter (field : string) (f : func)
| CSetterListener (field listener_name : string) (auto_dirty : bool)
| CSetterPlain (field : string) (auto_dirty : bool).

(** [property(fget, fset, fdel, doc)]. *)
Record property : Type := Property {
  fget : option callable;
  fset : option callable;
  fdel : option callable;
  doc : option string
}.

(** ** Constructors

    The constructor of the source's example is
    [def __init__(self, brand, max_speed=200): self_properties(self, locals())]
    (lines 121-122). Its body is no statement of [stmt]: such a constructor
    is given by its signature and by the exclusion and [save_args] it
    passes. *)

(** A parameter after [self]: its name, and its default when it has one. *)
Record param : Type := Param {
  p_name : string;
  p_default : option value
}.

(** [def __init__(self, params):
       self_properties(self, locals(), exclude, save_args)]. *)
Record init : Type := Init {
  i_params : list param;
  i_exclude : value;
  i_save_args : bool
}.

Inductive class_attr : Type :=
| AProperty (p : property)
| AFunction (f : func)
| AInit (c : init)
| AValue (v : value).

#[export] Instance param_eq_dec : EqDecision param.
Proof. solve_decision. Defined.
#[export] Instance init_eq_dec : EqDecision init.
Proof. solve_decision. Defined.
#[export] Instance expr_eq_dec : EqDecision expr.
Proof. solve_decision. Defined.
#[export] Instance stmt_eq_dec : EqDecision stmt.
Proof. solve_decision. Defined.
#[export] Instance func_eq_dec : EqDecision func.
Proof. solve_decision. Defined.
#[export] Instance callable_eq_dec : EqDecision callable.
Proof. solve_decision. Defined.
#[export] Instance property_eq_dec : EqDecision property.
Proof. solve_decision. Defined.
#[export] Instance class_attr_eq_dec : EqDecision class_attr.
Proof. solve_decision. Defined.

(** ** The instance

    Its [__dict__], and what the run has printed (oldest line first). *)
Record state : Type := State {
  attrs : gmap string value;
  output : list string
}.

Definition set_attr (name : string) (v : value) (s : state) : state :=
  {| attrs := <[name := v]> (attrs s); output := output s |}.

Definition del_attr (name : string) (s : state) : state :=
  {| attrs := delete name (attrs s); output := output s |}.

Definition print_line (l : string) (s : state) : state :=
  {| attrs := attrs s; output := output s ++ [l] |}.

Definition empty_state : state := {| attrs := ∅; output := [] |}.

(** Operations of the development. *)
Abbreviation Py := (M exn state).

(** ** The interface to the interpreter: how a callable is run on the
    instance with the given arguments (the instance itself excluded). *)
Class Invoke : Type := invoke : callable -> list value -> Py value.

(** One interpreter is below another when it gives the same outcomes
    wherever it has enough fuel. *)
Definition invoke_le (I J : Invoke) : Prop :=
  forall c args, @invoke I c args ⊑ @invoke J c args.

(** ** The attribute protocol *)

Section Protocol.
Context (cls : gmap string class_attr) {I : Invoke}.

(** [getattr(inst, name)]: a property of the class first (its getter, or
    [AttributeError] when it has none), then the instance's [__dict__], then
    the other class attributes (a function or a constructor becomes a bound
    method), then [AttributeError]. *)
Definition getattr (name : string) : Py value :=
  match cls !! name with
  | Some (AProperty p) =>
      match fget p with
      | Some g => invoke g []
      | None => raise (AttributeError name)
      end
  | c =>
      let! s := get_state in
      match attrs s !! name with
      | Some v => ret v
      | None =>
          match c with
          | Some (AFunction _) | Some (AInit _) => ret (VMethod name)
          | Some (AValue v) => ret v
          | _ => raise (AttributeError name)
          end
      end
  end.

(** [getattr(inst, name, default)]: the default replaces an
    [AttributeError], wherever in the lookup it was raised. *)
Definition getattr_default (name : string) (default : value) : Py value :=
  try_except (getattr name) is_AttributeError (ret default).

(** [setattr(inst, name, v)]: a property of the class first (its setter, or
    [AttributeError] when it has none), else the instance's [__dict__]. *)
Definition setattr (name : string) (v : value) : Py unit :=
  match cls !! name with
  | Some (AProperty p) =>
      match fset p with
      | Some f => run! invoke f [v] in ret tt
      | None => raise (AttributeError name)
      end
  | _ => modify (set_attr name v)
  end.

(** [delattr(inst, name)]: a property of the class first (its deleter, or
    [AttributeError] when it has none), else the entry of the instance's
    [__dict__], and [AttributeError] when it has none. *)
Definition delattr (name : string) : Py unit :=
  match cls !! name with
  | Some (AProperty p) =>
      match fdel p with
      | Some d => run! invoke d [] in ret tt
      | None => raise (AttributeError name)
      end
  | _ =>
      let! s := get_state in
      match attrs s !! name with
      | Some _ => modify (del_attr name)
      | None => raise (AttributeError name)
      end
  end.

(** Calling the value an attribute lookup returned. A bound method runs the
    class's function; anything else is not callable. A call of [__init__]
    through the instance is not modelled. *)
Definition call_value (v : value) (args : list value) : Py value :=
  match v with
  | VMethod m =>
      match cls !! m with
      | Some (AFunction f) => invoke (CFunc f) args
      | _ => unmodelled
      end
  | _ => raise (TypeError "object is not callable")
  end.

End Protocol.

(** ** Class shapes used in statements *)

(** [name] is not a property of the class: reads and writes of it go to the
    instance's [__dict__]. *)
Definition plain_attr (cls : gmap string class_attr) (name : string) : bool :=
  match cls !! name with
  | Some (AProperty _) => false
  | _ => true
  end.

(** ** Lemmas: the protocol on names that are not properties *)

Section ProtocolFacts.
Context (cls : gmap string class_attr) {I : Invoke}.
Implicit Types (s : state) (v : value) (name : string).

Lemma plain_attr_lookup name :
  plain_attr cls name = true ->
  forall p, cls !! name <> Some (AProperty p).
Proof. unfold plain_attr. intros H p Hp. by rewrite Hp in H. Qed.

Lemma setattr_plain name v s :
  plain_attr cls name = true ->
  setattr cls name v s = Done tt (set_attr name v s).
Proof.
  unfold plain_attr, setattr. by destruct (cls !! name) as [[]|].
Qed.

Lemma getattr_plain_present name v s :
  plain_attr cls name = true -> attrs s !! name = Some v ->
  getattr cls name s = Done v s.
Proof.
  unfold plain_attr, getattr. intros Hp Hv.
  destruct (cls !! name) as [[]|]; try done; unfold_m; by rewrite Hv.
Qed.

Lemma getattr_absent name s :
  cls !! name = None -> attrs s !! name = None ->
  getattr cls name s = Raised (AttributeError name) s.
Proof. unfold getattr. intros -> Hv. unfold_m. by rewrite Hv. Qed.

Lemma getattr_default_plain_present name v d s :
  plain_attr cls name = true -> attrs s !! name = Some v ->
  getattr_default cls name d s = Done v s.
Proof.
  intros. unfold getattr_default.
  erewrite try_except_done; [done|]. by apply getattr_plain_present.
Qed.

Lemma getattr_default_absent name d s :
  cls !! name = None -> attrs s !! name = None ->
  getattr_default cls name d s = Done d s.
Proof.
  intros. unfold getattr_default.
  erewrite try_except_handled; [|by apply getattr_absent|done]. done.
Qed.

(** The backing-field read of the setters: on a name the class does not
    define, [getattr(inst, name, d)] is the dictionary entry or [d]. *)
Lemma getattr_default_undefined name d s :
  cls !! name = None ->
  getattr_default cls name d s = Done (default d (attrs s !! name)) s.
Proof.
  intros Hc. destruct (attrs s !! name) as [v|] eqn:Hv; simpl.
  - apply getattr_default_plain_present; [|done].
    unfold plain_attr. by rewrite Hc.
  - by apply getattr_default_absent.
Qed.

(** Deleting an entry of the instance's [__dict__]. *)
Lemma delattr_plain name v s :
  plain_attr cls name = true -> attrs s !! name = Some v ->
  delattr cls name s = Done tt (del_attr name s).
Proof.
  unfold plain_attr, delattr. intros Hp Hv.
  destruct (cls !! name) as [[]|]; try done; unfold_m; by rewrite Hv.
Qed.

Lemma delattr_plain_absent name s :
  plain_attr cls name = true -> attrs s !! name = None ->
  delattr cls name s = Raised (AttributeError name) s.
Proof.
  unfold plain_attr, delattr. intros Hp Hv.
  destruct (cls !! name) as [[]|]; try done; unfold_m; by rewrite Hv.
Qed.

Lemma del_attr_lookup name s : attrs (del_attr name s) !! name = None.
Proof. apply lookup_delete_eq. Qed.

Lemma del_attr_lookup_ne name name' s :
  name <> name' -> attrs (del_attr name s) !! name' = attrs s !! name'.
Proof. intros. by apply lookup_delete_ne. Qed.

Lemma set_attr_lookup name v s : attrs (set_attr name v s) !! name = Some v.
Proof. apply lookup_insert_eq. Qed.

Lemma set_attr_lookup_ne name name' v s :
  name <> name' -> attrs (set_attr name v s) !! name' = attrs s !! name'.
Proof. intros. by apply lookup_insert_ne. Qed.

Lemma set_attr_output name v s : output (set_attr name v s) = output s.
Proof. done. Qed.

End ProtocolFacts.

#[export] Hint Rewrite set_attr_lookup set_attr_output : py_rw.

(** ** Monotonicity of the protocol in the interpreter *)

Section ProtocolMono.
Context (cls : gmap string class_attr) (I J : Invoke) (HIJ : invoke_le I J).

Lemma getattr_mono name : @getattr cls I name ⊑ @getattr cls J name.
Proof.
  unfold getattr. destruct (cls !! name) as [[p| | |]|]; try reflexivity.
  destruct (fget p); [apply HIJ|reflexivity].
Qed.

Lemma getattr_default_mono name d :
  @getattr_default cls I name d ⊑ @getattr_default cls J name d.
Proof. apply try_except_mono; [apply getattr_mono|reflexivity]. Qed.

Lemma setattr_mono name v : @setattr cls I name v ⊑ @setattr cls J name v.
Proof.
  unfold setattr. destruct (cls !! name) as [[p| | |]|]; try reflexivity.
  destruct (fset p); [|reflexivity]. apply bind_mono; [apply HIJ|reflexivity].
Qed.

Lemma delattr_mono name : @delattr cls I name ⊑ @delattr cls J name.
Proof.
  unfold delattr. destruct (cls !! name) as [[p| | |]|]; try reflexivity.
  destruct (fdel p); [|reflexivity]. apply bind_mono; [apply HIJ|reflexivity].
Qed.

Lemma call_value_mono v args :
  @call_value cls I v args ⊑ @call_value cls J v args.
Proof.
  unfold call_value. destruct v; try reflexivity.
  destruct (cls !! name) as [[]|]; try reflexivity. apply HIJ.
Qed.

End ProtocolMono.

#[export] Hint Resolve getattr_mono getattr_default_mono setattr_mono
  delattr_mono call_value_mono : py.
