(* ===== verification/Properties.v ===== *)
(** * Properties: the class [properties] of the source (lines 29-94).

    [__init__], [__enter__], [__exit__] and [prop] are the four methods of
    the class. [prop] returns the inner function [decorator]; its result on
    a function [f] is either the [ValueError] of line 65 or the [property]
    of lines 87-92. The closures that property holds are data ([callable]);
    their bodies are [setter_listener] (lines 73-79), [setter_plain]
    (lines 81-85) and [getter_lambda] (line 88), written against the
    attribute protocol of [Objects]. *)

From stdpp Require Import base list strings gmap.
From S2P Require Import Prelude Values Objects.

(** ** The builder

    The state of a [properties] object. The source stores the scope and the
    variable name and never reads them; [Scope] is whatever the caller
    passes ([locals()] of the class body in the example). *)
Record properties (Scope : Type) : Type := Properties {
  _scope : option Scope;
  _var : option string;
  _auto_dirty : bool
}.

Arguments Properties {Scope} _ _ _.
Arguments _scope {Scope} _.
Arguments _var {Scope} _.
Arguments _auto_dirty {Scope} _.

Section Builder.
Context {Scope : Type}.
Implicit Types self : properties Scope.

(** Lines 34-38. *)
Definition __init__ (scope : Scope) (var_name : string) (auto_dirty : bool)
  : properties Scope :=
  {| _scope := Some scope; _var := Some var_name; _auto_dirty := auto_dirty |}.

(** Lines 40-41. *)
Definition __enter__ self : properties Scope := self.

(** Lines 43-47: the references are dropped, [_auto_dirty] stays. *)
Definition __exit__ self : properties Scope :=
  {| _scope := None; _var := None; _auto_dirty := _auto_dirty self |}.

End Builder.

(** ** The decorator *)

(** Line 62: [field = '_' + f.__name__]. *)
Definition field_of (f : func) : string := "_" +:+ f_name f.

(** Line 71: [listener if isinstance(listener, str) else '_changed']. *)
Definition listener_name_of (listener : value) : string :=
  match listener with
  | VStr s => s
  | _ => "_changed"
  end.

(** Line 65: the message of the configuration error. *)
Definition config_error (field : string) : exn :=
  ValueError ("property " +:+ field +:+
              " cannot be read_only and observable at the same time.").

(** Lines 67-85: which setter the property gets. *)
Definition make_setter (read_only : bool) (listener : value)
    (auto_dirty : bool) (field : string) : option callable :=
  if read_only then None
  else if py_truthy listener
       then Some (CSetterListener field (listener_name_of listener) auto_dirty)
       else Some (CSetterPlain field auto_dirty).

(** Lines 60-92: [decorator(f)], with the variables it captures from
    [prop] as parameters. *)
Definition decorator (read_only : bool) (listener : value)
    (auto_dirty : bool) (f : func) : exn + property :=
  let field := field_of f in
  if read_only && py_truthy listener then inl (config_error field)
  else inr {| fget := Some (CGetter field f);
              fset := make_setter read_only listener auto_dirty field;
              fdel := None;
              doc := f_doc f |}.

(** Lines 49-94: [self.prop(read_only, listener, auto_dirty)]. *)
Definition prop {Scope} (self : properties Scope) (read_only : bool)
    (listener : value) (auto_dirty : bool) : func -> exn + property :=
  let auto_dirty := _auto_dirty self || auto_dirty in
  decorator read_only listener auto_dirty.

(** ** The class body

    [@meta.prop(...) def f(self): ...] binds [f.__name__] in the class to
    the decorator's result; a plain [def] binds it to the function. *)
Definition def_prop {Scope} (meta : properties Scope) (read_only : bool)
    (listener : value) (auto_dirty : bool) (f : func)
    (cls : gmap string class_attr) : exn + gmap string class_attr :=
  match prop meta read_only listener auto_dirty f with
  | inl e => inl e
  | inr p => inr (<[f_name f := AProperty p]> cls)
  end.

Definition def_method (f : func) (cls : gmap string class_attr)
  : gmap string class_attr :=
  <[f_name f := AFunction f]> cls.

(** ** The generated closures *)

Section Closures.
Context (cls : gmap string class_attr) {I : Invoke}.

(** Line 78 / 85: [inst._is_dirty = True]. *)
Definition mark_dirty (auto_dirty : bool) : Py unit :=
  when auto_dirty (setattr cls "_is_dirty" (VBool true)).

(** Lines 73-79. *)
Definition setter_listener (field listener_name : string) (auto_dirty : bool)
    (new : value) : Py value :=
  let! old := getattr_default cls field VNone in
  if py_ne old new then
    run! setattr cls field new in
    run! mark_dirty auto_dirty in
    let! l := getattr cls listener_name in
    run! call_value cls l [VStr field; old; new] in
    ret VNone
  else ret VNone.

(** Lines 81-85. *)
Definition setter_plain (field : string) (auto_dirty : bool) (new : value)
  : Py value :=
  let! cur := getattr_default cls field VNone in
  if py_ne cur new then
    run! setattr cls field new in
    run! mark_dirty auto_dirty in
    ret VNone
  else ret VNone.

(** Line 88: [lambda inst: getattr(inst, field, f(inst))]. The arguments of
    a call are evaluated before the call: [f(inst)] runs first, whether or
    not the field is there. *)
Definition getter_lambda (field : string) (f : func) : Py value :=
  let! d := invoke (CFunc f) [] in
  getattr_default cls field d.

End Closures.

(** ** Well-formed declarations

    What [prop] guarantees of a property it returned for [f]. *)
Definition declared_by (f : func) (p : property) : Prop :=
  fget p = Some (CGetter (field_of f) f) /\
  fdel p = None /\
  doc p = f_doc f /\
  match fset p with
  | None => True
  | Some (CSetterListener field _ _) | Some (CSetterPlain field _) =>
      field = field_of f
  | Some _ => False
  end.

Definition is_read_only (p : property) : bool :=
  match fset p with None => true | Some _ => false end.

(** The state after the dirty flag was written. *)
Definition set_dirty (auto_dirty : bool) (s : state) : state :=
  if auto_dirty then set_attr "_is_dirty" (VBool true) s else s.

Definition is_dirty (s : state) : Prop :=
  attrs s !! "_is_dirty" = Some (VBool true).

(** The value a setter compares against: the backing field, or [None]. *)
Definition current (field : string) (s : state) : value :=
  default VNone (attrs s !! field).

Lemma lookup_set_dirty b name s :
  name <> "_is_dirty" -> attrs (set_dirty b s) !! name = attrs s !! name.
Proof. intros. destruct b; [by apply set_attr_lookup_ne|done]. Qed.

Lemma current_set_dirty b field s :
  field <> "_is_dirty" -> current field (set_dirty b s) = current field s.
Proof. intros. unfold current. by rewrite lookup_set_dirty. Qed.

Lemma current_set_attr field v s : current field (set_attr field v s) = v.
Proof. unfold current. by rewrite set_attr_lookup. Qed.

Lemma set_dirty_is_dirty s : is_dirty (set_dirty true s).
Proof. apply set_attr_lookup. Qed.

(** ** Theorems: declaration *)

Section Declaration.
Context {Scope : Type}.
Implicit Types (self : properties Scope) (f : func) (p : property).

(** C6. A declaration that asks for a read-only property and gives a listener
    that Python counts as true fails with the [ValueError] of line 65, at
    declaration time, whatever the other arguments. *)
Theorem prop_config_error self listener auto_dirty f :
  py_truthy listener = true ->
  prop self true listener auto_dirty f = inl (config_error (field_of f)).
Proof. intros H. unfold prop, decorator. by rewrite H. Qed.

Lemma prop_ok_iff self read_only listener auto_dirty f :
  (exists p, prop self read_only listener auto_dirty f = inr p) <->
  read_only && py_truthy listener = false.
Proof.
  unfold prop, decorator.
  destruct (read_only && py_truthy listener);
    (split; [|done || eauto]); [by intros [? ?]|done].
Qed.

(** A property that [prop] returns has a setter exactly when
    [read_only] is false: read-only properties have none. *)
Theorem prop_read_only_iff self read_only listener auto_dirty f p :
  prop self read_only listener auto_dirty f = inr p ->
  is_read_only p = read_only.
Proof.
  unfold prop, decorator, is_read_only, make_setter.
  destruct read_only, (py_truthy listener); simpl; by intros [= <-].
Qed.

Lemma prop_declared_by self read_only listener auto_dirty f p :
  prop self read_only listener auto_dirty f = inr p -> declared_by f p.
Proof.
  unfold prop, decorator, declared_by, make_setter.
  destruct read_only, (py_truthy listener); simpl; intros [= <-]; simpl; auto.
Qed.

(** A read-only declaration installs no setter. *)
Lemma prop_read_only_fset self listener auto_dirty f p :
  prop self true listener auto_dirty f = inr p -> fset p = None.
Proof.
  unfold prop, decorator, make_setter.
  destruct (py_truthy listener); simpl; by intros [= <-].
Qed.

(** The setter [prop] installs, by cases on the listener. *)
Lemma prop_setter self listener auto_dirty f p :
  prop self false listener auto_dirty f = inr p ->
  fset p = Some (if py_truthy listener
                 then CSetterListener (field_of f) (listener_name_of listener)
                        (_auto_dirty self || auto_dirty)
                 else CSetterPlain (field_of f)
                        (_auto_dirty self || auto_dirty)).
Proof.
  unfold prop, decorator, make_setter. simpl.
  intros [= <-]. simpl. by destruct (py_truthy listener).
Qed.

(** [prop] reads only [_auto_dirty], which [__exit__] keeps. *)
Lemma prop_after_exit self read_only listener auto_dirty f :
  prop (__exit__ self) read_only listener auto_dirty f =
  prop (__enter__ self) read_only listener auto_dirty f.
Proof. reflexivity. Qed.

(** The configuration check tests the listener's truth value, not its
    presence: a read-only declaration with a listener that Python counts as
    false ([False], [""], [0], [()]) is accepted, and the listener is
    dropped. *)
Theorem prop_read_only_falsy_listener self listener auto_dirty f :
  py_truthy listener = false ->
  prop self true listener auto_dirty f =
  inr {| fget := Some (CGetter (field_of f) f); fset := None;
         fdel := None; doc := f_doc f |}.
Proof. intros H. unfold prop, decorator. by rewrite H. Qed.

Lemma exit_idempotent self : __exit__ (__exit__ self) = __exit__ self.
Proof. reflexivity. Qed.

Lemma exit_releases self :
  _scope (__exit__ self) = None /\ _var (__exit__ self) = None.
Proof. done. Qed.

End Declaration.

(** ** Theorems: the closures, against any interpreter

    The backing field is assumed not to be an attribute of the class
    ([cls !! field = None]): it is named ['_' + name] and lives in the
    instance. *)

Section ClosureFacts.
Context (cls : gmap string class_attr) {I : Invoke}.
Implicit Types (s : state) (field lname : string) (new old : value).

Lemma mark_dirty_plain auto_dirty s :
  plain_attr cls "_is_dirty" = true ->
  mark_dirty cls auto_dirty s = Done tt (set_dirty auto_dirty s).
Proof.
  intros H. unfold mark_dirty, set_dirty. destruct auto_dirty; [|done].
  by apply setattr_plain.
Qed.

Lemma setter_plain_unfold field auto_dirty new s :
  cls !! field = None ->
  setter_plain cls field auto_dirty new s =
  if py_ne (current field s) new
  then (run! mark_dirty cls auto_dirty in ret VNone) (set_attr field new s)
  else Done VNone s.
Proof.
  intros Hc. unfold setter_plain.
  erewrite bind_done by by apply getattr_default_undefined.
  fold (current field s). destruct (py_ne _ _); [|done].
  erewrite bind_done; [done|]. apply setattr_plain.
  unfold plain_attr. by rewrite Hc.
Qed.

Lemma setter_listener_unfold field lname auto_dirty new s :
  cls !! field = None ->
  setter_listener cls field lname auto_dirty new s =
  if py_ne (current field s) new
  then (run! mark_dirty cls auto_dirty in
        let! l := getattr cls lname in
        run! call_value cls l [VStr field; current field s; new] in
        ret VNone) (set_attr field new s)
  else Done VNone s.
Proof.
  intros Hc. unfold setter_listener.
  erewrite bind_done by by apply getattr_default_undefined.
  fold (current field s). destruct (py_ne _ _); [|done].
  erewrite bind_done; [done|]. apply setattr_plain.
  unfold plain_attr. by rewrite Hc.
Qed.

(** The setter without listener, on both branches. *)
Lemma setter_plain_spec field auto_dirty new s :
  cls !! field = None -> plain_attr cls "_is_dirty" = true ->
  setter_plain cls field auto_dirty new s =
  Done VNone (if py_ne (current field s) new
              then set_dirty auto_dirty (set_attr field new s) else s).
Proof.
  intros Hc Hd. rewrite setter_plain_unfold by done.
  destruct (py_ne _ _); [|done]. by erewrite bind_done by by apply mark_dirty_plain.
Qed.

(** The setter with a listener, when the value changes and the listener is
    a method of the class that the instance does not shadow: the field is
    written, then the flag, then the method runs on (field, old, new). *)
Lemma setter_listener_notifies field lname auto_dirty new s lf :
  cls !! field = None -> plain_attr cls "_is_dirty" = true ->
  cls !! lname = Some (AFunction lf) ->
  attrs (set_dirty auto_dirty (set_attr field new s)) !! lname = None ->
  py_ne (current field s) new = true ->
  setter_listener cls field lname auto_dirty new s =
  (run! invoke (CFunc lf) [VStr field; current field s; new] in ret VNone)
    (set_dirty auto_dirty (set_attr field new s)).
Proof.
  intros Hc Hd Hl Hs Hne. rewrite setter_listener_unfold, Hne by done.
  erewrite bind_done by by apply mark_dirty_plain.
  unfold getattr, call_value. rewrite Hl. unfold_m. by rewrite Hs, Hl.
Qed.

(** The same write when nothing answers to the listener's name: the
    [AttributeError] is raised after the field and the flag were written. *)
Lemma setter_listener_missing field lname auto_dirty new s :
  cls !! field = None -> plain_attr cls "_is_dirty" = true ->
  cls !! lname = None ->
  attrs (set_dirty auto_dirty (set_attr field new s)) !! lname = None ->
  py_ne (current field s) new = true ->
  setter_listener cls field lname auto_dirty new s =
  Raised (AttributeError lname) (set_dirty auto_dirty (set_attr field new s)).
Proof.
  intros Hc Hd Hl Hs Hne. rewrite setter_listener_unfold, Hne by done.
  erewrite bind_done by by apply mark_dirty_plain.
  erewrite bind_raised; [done|]. by apply getattr_absent.
Qed.

(** The same write when the instance has an attribute of the listener's
    name: that attribute is what is called, whatever the class binds the
    name to, unless it binds it to a property. *)
Lemma setter_listener_shadowed field lname auto_dirty new s v :
  cls !! field = None -> plain_attr cls "_is_dirty" = true ->
  plain_attr cls lname = true ->
  attrs (set_dirty auto_dirty (set_attr field new s)) !! lname = Some v ->
  py_ne (current field s) new = true ->
  setter_listener cls field lname auto_dirty new s =
  (run! call_value cls v [VStr field; current field s; new] in ret VNone)
    (set_dirty auto_dirty (set_attr field new s)).
Proof.
  intros Hc Hd Hl Hs Hne. rewrite setter_listener_unfold, Hne by done.
  erewrite bind_done by by apply mark_dirty_plain.
  erewrite bind_done; [done|]. by apply getattr_plain_present.
Qed.

(** The getter: the default function runs first; its exception is the
    getter's, its state is where the field is looked up. *)
Lemma getter_lambda_raised field f s e s' :
  invoke (CFunc f) [] s = Raised e s' ->
  getter_lambda cls field f s = Raised e s'.
Proof. intros H. unfold getter_lambda. by erewrite bind_raised. Qed.

Lemma getter_lambda_done field f s d s' :
  cls !! field = None -> invoke (CFunc f) [] s = Done d s' ->
  getter_lambda cls field f s = Done (default d (attrs s' !! field)) s'.
Proof.
  intros Hc H. unfold getter_lambda. erewrite bind_done by done.
  by apply getattr_default_undefined.
Qed.

End ClosureFacts.

(** ** Monotonicity of the closures in the interpreter *)

Section ClosureMono.
Context (cls : gmap string class_attr) (I J : Invoke) (HIJ : invoke_le I J).

Lemma mark_dirty_mono b : @mark_dirty cls I b ⊑ @mark_dirty cls J b.
Proof. apply when_mono. by apply setattr_mono. Qed.

Lemma setter_listener_mono field lname b new :
  @setter_listener cls I field lname b new ⊑
  @setter_listener cls J field lname b new.
Proof.
  unfold setter_listener. apply bind_mono; [by apply getattr_default_mono|].
  intros old. destruct (py_ne old new); [|reflexivity].
  repeat (apply bind_mono; [|intros ?]);
    auto using setattr_mono, mark_dirty_mono, getattr_mono, call_value_mono.
  reflexivity.
Qed.

Lemma setter_plain_mono field b new :
  @setter_plain cls I field b new ⊑ @setter_plain cls J field b new.
Proof.
  unfold setter_plain. apply bind_mono; [by apply getattr_default_mono|].
  intros old. destruct (py_ne old new); [|reflexivity].
  repeat (apply bind_mono; [|intros ?]);
    auto using setattr_mono, mark_dirty_mono.
  reflexivity.
Qed.

Lemma getter_lambda_mono field f :
  @getter_lambda cls I field f ⊑ @getter_lambda cls J field f.
Proof.
  unfold getter_lambda. apply bind_mono; [apply HIJ|].
  intros d. by apply getattr_default_mono.
Qed.

End ClosureMono.

#[export] Hint Resolve mark_dirty_mono setter_listener_mono setter_plain_mono
  getter_lambda_mono : py.
