(* ===== verification/Lifecycle.v ===== *)
(** * Lifecycle: the [with properties(...) as meta:] block of a class body.

    The builder is a scoped resource (source lines 34-47): [__init__] and
    [__enter__] open it, the decorated definitions of the block are
    evaluated in order, each binding its name in the class namespace or
    aborting the block with the [ValueError] of line 65, and [__exit__] runs
    on every way out. [step] is this lifecycle as a labelled transition
    relation on configurations, [step_fun] and [run_block] its executable
    form; [wf_class] is the invariant of the namespaces that declarations
    produce: every property of such a namespace came out of [prop] for a
    function of that name. The builder is a component of the configuration
    here; [ClassBody] has it as an object bound to the target of the
    [with] statement and shows that its statement implements this block. *)

From stdpp Require Import base list strings gmap.
From S2P Require Import Prelude Values Objects Properties.

(** ** Declarations of a class body *)

Inductive decl : Type :=
| DProp (read_only : bool) (listener : value) (auto_dirty : bool) (f : func)
| DDef (f : func).

Section Lifecycle.
Context {Scope : Type}.
Implicit Types (meta : properties Scope) (ns : gmap string class_attr).

(** One declaration under the builder [meta]. *)
Definition declare meta (d : decl) ns : exn + gmap string class_attr :=
  match d with
  | DProp read_only listener auto_dirty f =>
      def_prop meta read_only listener auto_dirty f ns
  | DDef f => inr (def_method f ns)
  end.

(** The declarations of a block, in order, stopping at the first error. *)
Fixpoint declare_all meta (ds : list decl) ns
  : exn + gmap string class_attr :=
  match ds with
  | [] => inr ns
  | d :: ds' =>
      match declare meta d ns with
      | inl e => inl e
      | inr ns' => declare_all meta ds' ns'
      end
  end.

(** ** The lifecycle as a transition system *)

Inductive phase : Type := Open | Failed (e : exn) | Closed (r : option exn).

(** A configuration: the builder, the namespace, the phase. *)
Record config : Type := Config {
  c_meta : properties Scope;
  c_ns : gmap string class_attr;
  c_phase : phase
}.

Inductive label : Type :=
| LDeclare (d : decl)
| LExit.

(** [__init__] then [__enter__]: the configuration the block starts in. *)
Definition enter (scope : Scope) (var_name : string) (auto_dirty : bool) ns
  : config :=
  {| c_meta := __enter__ (__init__ scope var_name auto_dirty);
     c_ns := ns; c_phase := Open |}.

Inductive step : config -> label -> config -> Prop :=
| step_declare meta ns d ns' :
    declare meta d ns = inr ns' ->
    step (Config meta ns Open) (LDeclare d) (Config meta ns' Open)
| step_error meta ns d e :
    declare meta d ns = inl e ->
    step (Config meta ns Open) (LDeclare d) (Config meta ns (Failed e))
| step_exit meta ns :
    step (Config meta ns Open) LExit (Config (__exit__ meta) ns (Closed None))
| step_exit_failed meta ns e :
    step (Config meta ns (Failed e)) LExit
      (Config (__exit__ meta) ns (Closed (Some e))).

(** The executable form: [None] when the label is not enabled. *)
Definition step_fun (c : config) (l : label) : option config :=
  match c_phase c, l with
  | Open, LDeclare d =>
      match declare (c_meta c) d (c_ns c) with
      | inr ns' => Some (Config (c_meta c) ns' Open)
      | inl e => Some (Config (c_meta c) (c_ns c) (Failed e))
      end
  | Open, LExit => Some (Config (__exit__ (c_meta c)) (c_ns c) (Closed None))
  | Failed e, LExit =>
      Some (Config (__exit__ (c_meta c)) (c_ns c) (Closed (Some e)))
  | _, _ => None
  end.

(** The whole block: the declarations until one fails, then the exit. *)
Fixpoint run_block (c : config) (ds : list decl) : config :=
  match ds with
  | [] => default c (step_fun c LExit)
  | d :: ds' =>
      match step_fun c (LDeclare d) with
      | Some c' =>
          match c_phase c' with
          | Open => run_block c' ds'
          | _ => default c' (step_fun c' LExit)
          end
      | None => c
      end
  end.

(** [with properties(scope, var_name, auto_dirty) as meta: ds]. *)
Definition with_properties (scope : Scope) (var_name : string)
    (auto_dirty : bool) (ds : list decl) ns : config :=
  run_block (enter scope var_name auto_dirty ns) ds.

Inductive steps : config -> list label -> config -> Prop :=
| steps_nil c : steps c [] c
| steps_cons c l c' ls c'' :
    step c l c' -> steps c' ls c'' -> steps c (l :: ls) c''.

(** A sequence of labels, run from [c]; [None] when one is not enabled. *)
Definition run_labels (c : config) (ls : list label) : option config :=
  foldl (fun r l => r ≫= fun c => step_fun c l) (Some c) ls.

(** The builder holds its references exactly until the block is left. *)
Definition holds_references (c : config) : Prop :=
  match c_phase c with
  | Closed _ => _scope (c_meta c) = None /\ _var (c_meta c) = None
  | _ => is_Some (_scope (c_meta c)) /\ is_Some (_var (c_meta c))
  end.

End Lifecycle.

(** A declaration that line 64 lets through. *)
Definition decl_ok (d : decl) : bool :=
  match d with
  | DProp read_only listener _ _ => negb (read_only && py_truthy listener)
  | DDef _ => true
  end.


(** ** Namespaces that declarations produce *)

(** The property [p] came out of [prop] for a function called [name]. *)
Definition from_prop (name : string) (p : property) : Prop :=
  exists (meta : properties unit) read_only listener auto_dirty f,
    f_name f = name /\ prop meta read_only listener auto_dirty f = inr p.

Definition wf_class (ns : gmap string class_attr) : Prop :=
  forall name p, ns !! name = Some (AProperty p) -> from_prop name p.

(** The three setters a declaration of [f] can install (lines 67-85). *)
Inductive setter_view (f : func) (p : property) : Prop :=
| view_read_only : fset p = None -> setter_view f p
| view_plain auto_dirty :
    fset p = Some (CSetterPlain (field_of f) auto_dirty) -> setter_view f p
| view_listener lname auto_dirty :
    fset p = Some (CSetterListener (field_of f) lname auto_dirty) ->
    setter_view f p.

(** The backing field of every property is free in the class. *)
Definition backing_free (ns : gmap string class_attr) : Prop :=
  forall name p, ns !! name = Some (AProperty p) -> ns !! ("_" +:+ name) = None.

Definition backing_freeb (ns : gmap string class_attr) : bool :=
  forallb (fun kv =>
    match kv.2, ns !! ("_" +:+ kv.1) with
    | AProperty _, Some _ => false
    | _, _ => true
    end) (map_to_list ns).

(** ** Lemmas *)

Section Facts.
Context {Scope : Type}.
Implicit Types (meta : properties Scope) (ns : gmap string class_attr)
  (c : config (Scope := Scope)).

(** [prop] does not look at the scope: a builder of any scope type gives
    the property a builder over [unit] with the same default gives. *)
Lemma prop_scope_irrelevant meta read_only listener auto_dirty f :
  prop meta read_only listener auto_dirty f =
  prop (Properties (Some tt) None (_auto_dirty meta)) read_only listener
    auto_dirty f.
Proof. done. Qed.

Lemma def_prop_inv meta read_only listener auto_dirty f ns ns' :
  def_prop meta read_only listener auto_dirty f ns = inr ns' ->
  exists p, prop meta read_only listener auto_dirty f = inr p /\
            ns' = <[f_name f := AProperty p]> ns.
Proof.
  unfold def_prop. destruct (prop _ _ _ _ _); [done|].
  intros [= <-]. eauto.
Qed.

(** Binding a name to anything but a property keeps a namespace well
    formed. *)
Lemma wf_class_insert name a ns :
  wf_class ns -> (forall p, a <> AProperty p) -> wf_class (<[name := a]> ns).
Proof.
  intros Hwf Ha n p. destruct (decide (name = n)) as [<-|Hne].
  - rewrite lookup_insert_eq. intros [= ->]. by destruct (Ha p).
  - rewrite lookup_insert_ne by done. apply Hwf.
Qed.

Lemma def_method_wf f ns : wf_class ns -> wf_class (def_method f ns).
Proof. intros Hwf. by apply wf_class_insert. Qed.

Lemma declare_wf meta d ns ns' :
  wf_class ns -> declare meta d ns = inr ns' -> wf_class ns'.
Proof.
  intros Hwf Hd. destruct d as [ro l ad f|f]; simpl in Hd;
    [|injection Hd as <-; by apply def_method_wf].
  apply def_prop_inv in Hd as (q & Hq & ->). intros name p.
  destruct (decide (f_name f = name)) as [<-|Hne].
  - rewrite lookup_insert_eq. intros [= <-].
    rewrite prop_scope_irrelevant in Hq. by repeat eexists.
  - rewrite lookup_insert_ne by done. apply Hwf.
Qed.

Lemma declare_all_wf meta ds ns ns' :
  wf_class ns -> declare_all meta ds ns = inr ns' -> wf_class ns'.
Proof.
  revert ns. induction ds as [|d ds IH]; simpl; intros ns Hwf.
  - by intros [= <-].
  - destruct (declare meta d ns) eqn:Hd; [done|]. eauto using declare_wf.
Qed.

Lemma step_fun_sound c l c' : step_fun c l = Some c' -> step c l c'.
Proof.
  destruct c as [meta ns ph]. unfold step_fun. simpl.
  destruct ph, l; try done.
  - destruct (declare meta d ns) eqn:Hd; intros [= <-]; by constructor.
  - intros [= <-]. constructor.
  - intros [= <-]. constructor.
Qed.

Lemma step_fun_complete c l c' : step c l c' -> step_fun c l = Some c'.
Proof.
  destruct 1; unfold step_fun; simpl; try done.
  - by rewrite H.
  - by rewrite H.
Qed.

(** The lifecycle is deterministic. *)
Lemma step_deterministic c l c1 c2 : step c l c1 -> step c l c2 -> c1 = c2.
Proof.
  intros H1%step_fun_complete H2%step_fun_complete. congruence.
Qed.

Lemma step_wf c l c' : step c l c' -> wf_class (c_ns c) -> wf_class (c_ns c').
Proof. destruct 1; simpl; eauto using declare_wf. Qed.

Lemma steps_wf c ls c' :
  steps c ls c' -> wf_class (c_ns c) -> wf_class (c_ns c').
Proof. induction 1; eauto using step_wf. Qed.

Lemma wf_class_empty : wf_class ∅.
Proof. intros name p. by rewrite lookup_empty. Qed.

(** What a well-formed class knows of a property it binds: the function it
    was declared for, its getter and which of the three setters it has. *)
Lemma from_prop_view name p :
  from_prop name p ->
  exists f, f_name f = name /\ fget p = Some (CGetter (field_of f) f) /\
            setter_view f p.
Proof.
  intros (meta & ro & l & ad & f & Hname & Hp). exists f.
  split; [done|]. split; [by apply prop_declared_by in Hp as [? _]|].
  destruct ro.
  - apply view_read_only. by eapply prop_read_only_fset.
  - apply prop_setter in Hp.
    destruct (py_truthy l); [by eapply view_listener|by eapply view_plain].
Qed.

Lemma wf_class_view ns name p :
  wf_class ns -> backing_free ns -> ns !! name = Some (AProperty p) ->
  exists f, ns !! f_name f = Some (AProperty p) /\ ns !! field_of f = None /\
            f_name f = name /\ fget p = Some (CGetter (field_of f) f) /\
            setter_view f p.
Proof.
  intros Hwf Hfree Hp.
  destruct (from_prop_view name p (Hwf _ _ Hp)) as (f & <- & Hg & Hv).
  exists f. split_and!; try done. by eapply Hfree.
Qed.

Lemma backing_freeb_spec ns : backing_freeb ns = true <-> backing_free ns.
Proof.
  unfold backing_freeb, backing_free. rewrite forallb_forall. split.
  - intros H name p Hp.
    specialize (H (name, AProperty p)). simpl in H.
    destruct (ns !! ("_" +:+ name)); [|done].
    by discriminate H; apply list_elem_of_In, elem_of_map_to_list.
  - intros H [name a] Hin%list_elem_of_In%elem_of_map_to_list. simpl.
    destruct a as [p| | |]; [by rewrite (H name p)|done..].
Qed.

(** A declaration fails exactly when it is not [decl_ok], with the error of
    line 65, and succeeds otherwise. *)
Lemma declare_ok meta d ns :
  decl_ok d = true -> exists ns', declare meta d ns = inr ns'.
Proof.
  destruct d as [ro l ad f|f]; simpl; [|by eauto].
  unfold def_prop, prop, decorator. intros ->%negb_true_iff. eauto.
Qed.




(** One unfolding of [run_block] from an open configuration. *)
Lemma run_block_cons_ok meta ns d ds ns' :
  declare meta d ns = inr ns' ->
  run_block (Config meta ns Open) (d :: ds) =
  run_block (Config meta ns' Open) ds.
Proof. intros Hd. simpl. unfold step_fun. simpl. by rewrite Hd. Qed.

Lemma run_block_cons_error meta ns d ds e :
  declare meta d ns = inl e ->
  run_block (Config meta ns Open) (d :: ds) =
  Config (__exit__ meta) ns (Closed (Some e)).
Proof. intros Hd. simpl. unfold step_fun. simpl. by rewrite Hd. Qed.

Lemma run_block_wf meta ns ds :
  wf_class ns -> wf_class (c_ns (run_block (Config meta ns Open) ds)).
Proof.
  revert ns. induction ds as [|d ds IH]; intros ns Hwf; [done|].
  destruct (declare meta d ns) as [e|ns'] eqn:Hd.
  - by rewrite (run_block_cons_error _ _ _ _ _ Hd).
  - rewrite (run_block_cons_ok _ _ _ _ _ Hd). eauto using declare_wf.
Qed.

Lemma run_labels_sound c ls c' : run_labels c ls = Some c' -> steps c ls c'.
Proof.
  unfold run_labels. revert c. induction ls as [|l ls IH]; intros c; simpl.
  - intros [= <-]. constructor.
  - destruct (step_fun c l) as [c1|] eqn:Hc.
    + intros H. eapply steps_cons; [by apply step_fun_sound|by apply IH].
    + intros H. exfalso. clear -H. by induction ls.
Qed.

Lemma run_block_meta meta ns ds :
  c_meta (run_block (Config meta ns Open) ds) = __exit__ meta.
Proof.
  revert ns. induction ds as [|d ds IH]; intros ns; [done|].
  destruct (declare meta d ns) as [e|ns'] eqn:Hd.
  - by rewrite (run_block_cons_error _ _ _ _ _ Hd).
  - by rewrite (run_block_cons_ok _ _ _ _ _ Hd).
Qed.

Lemma step_holds_references c l c' :
  step c l c' -> holds_references c -> holds_references c'.
Proof. by destruct 1. Qed.

Lemma closed_terminal c l c' r : c_phase c = Closed r -> ~ step c l c'.
Proof. by destruct 2. Qed.

End Facts.

(** ** Theorems *)

Section Theorems.
Context {Scope : Type}.
Implicit Types (meta : properties Scope) (ns : gmap string class_attr)
  (c : config (Scope := Scope)) (scope : Scope).


(** The class a block produces: when every declaration passes line 64
    the block ends without error in the namespace the declarations build in
    order, a later declaration of a name replacing an earlier one. *)
Theorem with_properties_namespace scope var_name auto_dirty ds ns :
  forallb decl_ok ds = true ->
  exists ns',
    declare_all (__init__ scope var_name auto_dirty) ds ns = inr ns' /\
    with_properties scope var_name auto_dirty ds ns =
    Config (__exit__ (__init__ scope var_name auto_dirty)) ns' (Closed None).
Proof.
  unfold with_properties, enter. generalize (__init__ scope var_name auto_dirty).
  intros meta. unfold __enter__.
  revert ns. induction ds as [|d ds IH]; intros ns; simpl forallb.
  - intros _. by exists ns.
  - intros [Hok Hrest]%andb_prop.
    destruct (declare_ok meta d ns Hok) as [ns' Hd].
    rewrite (run_block_cons_ok _ _ _ _ _ Hd). simpl. rewrite Hd. by apply IH.
Qed.

(** The executable block is a run of the transition relation: it takes
    the declarations up to the first that fails, then the exit. *)
Theorem run_block_steps meta ns ds :
  exists k, steps (Config meta ns Open)
              ((LDeclare <$> take k ds) ++ [LExit])
              (run_block (Config meta ns Open) ds).
Proof.
  revert ns. induction ds as [|d ds IH]; intros ns.
  - exists 0. simpl. eauto using steps, step.
  - destruct (declare meta d ns) as [e|ns'] eqn:Hd.
    + exists 1. rewrite (run_block_cons_error _ _ _ _ _ Hd). simpl.
      rewrite ?take_0. simpl. eauto using steps, step.
    + destruct (IH ns') as [k Hk]. exists (S k).
      rewrite (run_block_cons_ok _ _ _ _ _ Hd). simpl.
      eauto using steps, step.
Qed.

(** C14. Invariant of the lifecycle, by induction on the run: from the
    configuration a [with] statement starts in, over a well-formed
    namespace, every configuration reached has a well-formed namespace
    (each property in it is the result of [prop] on a function of the name
    it is bound to) and a builder that holds its references until the exit
    and not after. *)
Theorem lifecycle_invariant scope var_name auto_dirty ns ls c :
  wf_class ns ->
  steps (enter scope var_name auto_dirty ns) ls c ->
  wf_class (c_ns c) /\ holds_references c.
Proof.
  intros Hwf Hsteps.
  assert (wf_class (c_ns (enter scope var_name auto_dirty ns)) /\
          holds_references (enter scope var_name auto_dirty ns)) as Hinit
    by (split; [done|split; by eexists]).
  revert Hinit. clear Hwf. induction Hsteps; [done|].
  intros [Hwf Hrel]. eauto using step_wf, step_holds_references.
Qed.

(** Leaving the block does not disable the builder: whatever the block
    declared and however it ended, a declaration made with the builder it
    leaves behind gives the same result as one made inside the block.
    [__exit__] drops the references, which [prop] never reads, and keeps
    [_auto_dirty]. *)
Theorem prop_after_block scope var_name auto_dirty ds ns read_only listener
    b f :
  prop (c_meta (with_properties scope var_name auto_dirty ds ns))
    read_only listener b f =
  prop (__enter__ (__init__ scope var_name auto_dirty)) read_only listener
    b f.
Proof.
  unfold with_properties, enter. rewrite run_block_meta.
  apply prop_after_exit.
Qed.

End Theorems.
