(* ===== verification/ClassBody.v ===== *)
(** * ClassBody: the statements of a class body and the names they bind.

    [Lifecycle] takes the builder of a [with] block as a component of the
    configuration. In the source it is an object that the [with] statement
    binds to a name of the class namespace (line 101,
    [with properties(locals(), 'meta') as meta:]), and every decorator
    expression [@meta.prop(...)] looks that name up again (lines 103, 107,
    111, 116). This file models the class body with these names: a store of
    builder objects, the namespace that binds names to properties, functions
    and objects, and the statements [def], decorated [def] and [with]; the
    constructor that calls [self_properties] is a [def] of its own kind
    ([BInit]).

    The lemmas relate the two levels ([exec_with_refines]) and show what the
    names add: the builder stays bound when the block is left and declares
    as before, a definition called like the builder hides it, and the naming
    key the builder is constructed with has no effect at all. *)

From stdpp Require Import base list strings gmap.
From S2P Require Import Prelude Values Objects Properties Lifecycle.

(** ** The state of a class body *)

(** What [locals()] returns in a class body: a reference to the namespace
    under construction. The builder stores it and never follows it. *)
Inductive locals_ref : Type := ClassLocals.

(** The namespace, and the builder objects created so far: the object
    [VObj i] is the [i]-th of them. *)
Record body_state : Type := BodyState {
  b_ns : gmap string class_attr;
  b_objs : list (properties locals_ref)
}.

Abbreviation Body := (M exn body_state).

(** ** Statements *)

(** [@builder.prop(read_only, listener, auto_dirty) def f(self): ...],
    [def f(self, ...): ...], and the constructor
    [def __init__(self, ...): self_properties(self, locals(), ...)]. *)
Inductive bstmt : Type :=
| BProp (builder : string) (read_only : bool) (listener : value)
    (auto_dirty : bool) (f : func)
| BDef (f : func)
| BInit (c : init).

(** A statement at the top of the class body:
    [with properties(locals(), var_name, auto_dirty) as target: body], or a
    definition. *)
Inductive cstmt : Type :=
| CStmt (b : bstmt)
| CWith (var_name : string) (auto_dirty : bool) (target : string)
    (body : list bstmt).

(** ** Operations *)

Definition bind_name (name : string) (a : class_attr) (st : body_state)
  : body_state :=
  {| b_ns := <[name := a]> (b_ns st); b_objs := b_objs st |}.

(** The identity the next object gets. *)
Definition fresh (st : body_state) : nat := length (b_objs st).

(** [properties(...)]: a new object; the result is its identity. *)
Definition new_builder (meta : properties locals_ref) : Body nat :=
  let! st := get_state in
  run! modify (fun st =>
         {| b_ns := b_ns st; b_objs := b_objs st ++ [meta] |}) in
  ret (fresh st).

(** [builder.prop]: the name is looked up in the namespace; what it is
    bound to has the method [prop] only when it is a builder. *)
Definition lookup_builder (builder : string) : Body (properties locals_ref) :=
  let! st := get_state in
  match b_ns st !! builder with
  | Some (AValue (VObj i)) =>
      match b_objs st !! i with
      | Some meta => ret meta
      | None => unmodelled
      end
  | Some _ => raise (AttributeError "prop")
  | None => raise (NameError builder)
  end.

(** The name a definition binds: [f.__name__]. *)
Definition binds (b : bstmt) : string :=
  match b with
  | BProp _ _ _ _ f | BDef f => f_name f
  | BInit _ => "__init__"
  end.

(** The object a definition evaluates to: the decorator expression first,
    then the decorator applied to the function. *)
Definition eval_bstmt (b : bstmt) : Body class_attr :=
  match b with
  | BProp builder read_only listener auto_dirty f =>
      let! meta := lookup_builder builder in
      match prop meta read_only listener auto_dirty f with
      | inl e => raise e
      | inr p => ret (AProperty p)
      end
  | BDef f => ret (AFunction f)
  | BInit c => ret (AInit c)
  end.

(** A definition: evaluate, then bind. *)
Definition exec_bstmt (b : bstmt) : Body unit :=
  let! a := eval_bstmt b in
  modify (bind_name (binds b) a).

(** [__exit__] on the object [i] (lines 43-47). *)
Definition close (i : nat) (st : body_state) : body_state :=
  {| b_ns := b_ns st; b_objs := alter __exit__ i (b_objs st) |}.

(** [__enter__] on the object [i] (lines 40-41): the result is the object
    itself. *)
Definition enter_builder (i : nat) : Body value :=
  run! modify (fun st =>
         {| b_ns := b_ns st; b_objs := alter __enter__ i (b_objs st) |}) in
  ret (VObj i).

(** [with properties(locals(), var_name, auto_dirty) as target: body]: the
    builder is created and entered, the target is bound to what
    [__enter__] returned, and [__exit__] runs when the body returns and
    when it raises; it returns [None], so the exception goes on. The target
    stays bound. *)
Definition exec_with (var_name : string) (auto_dirty : bool)
    (target : string) (body : list bstmt) : Body unit :=
  let! i := new_builder (__init__ ClassLocals var_name auto_dirty) in
  let! v := enter_builder i in
  run! modify (bind_name target (AValue v)) in
  finally (for_each exec_bstmt body) (modify (close i)).

Definition exec_cstmt (c : cstmt) : Body unit :=
  match c with
  | CStmt b => exec_bstmt b
  | CWith var_name auto_dirty target body =>
      exec_with var_name auto_dirty target body
  end.

Definition exec_body (body : list cstmt) : Body unit :=
  for_each exec_cstmt body.

Definition new_body : body_state := {| b_ns := ∅; b_objs := [] |}.

(** [class C: body]: the namespace the body leaves, or the exception that
    ends it. *)
Definition class_def (body : list cstmt)
  : outcome exn (gmap string class_attr) unit :=
  match exec_body body new_body with
  | Done _ st => Done tt (b_ns st)
  | Raised e st => Raised e (b_ns st)
  | OutOfFuel => OutOfFuel
  | Unmodelled => Unmodelled
  end.

(** ** Specification *)

(** The state a [with] block runs its body in. *)
Definition entered (var_name : string) (auto_dirty : bool) (target : string)
    (st : body_state) : body_state :=
  bind_name target (AValue (VObj (fresh st)))
    {| b_ns := b_ns st;
       b_objs := b_objs st ++ [__init__ ClassLocals var_name auto_dirty] |}.

(** The declaration of [Lifecycle] a definition stands for in a block whose
    builder is bound to [target]. *)
Definition decl_of (target : string) (b : bstmt) : option decl :=
  match b with
  | BProp builder read_only listener auto_dirty f =>
      if decide (builder = target)
      then Some (DProp read_only listener auto_dirty f) else None
  | BDef f => Some (DDef f)
  | BInit _ => None
  end.

(** How a closed configuration of [Lifecycle] ends the [with] statement,
    with the builder stored after the objects [objs]. *)
Definition block_outcome (objs : list (properties locals_ref))
    (c : config (Scope := locals_ref)) : outcome exn body_state unit :=
  let st := {| b_ns := c_ns c; b_objs := objs ++ [c_meta c] |} in
  match c_phase c with
  | Closed None => Done tt st
  | Closed (Some e) => Raised e st
  | _ => Unmodelled
  end.

Definition released (meta : properties locals_ref) : Prop :=
  _scope meta = None /\ _var meta = None.

(** The invariant between the statements of a class body: the namespace is
    one that declarations produce, every builder has been released, and the
    objects the namespace binds exist. *)
Definition body_inv (st : body_state) : Prop :=
  wf_class (b_ns st) /\
  Forall released (b_objs st) /\
  forall name i, b_ns st !! name = Some (AValue (VObj i)) -> i < fresh st.

(** A definition [b] may bind its name to [a]: a function, a constructor,
    or a property that came out of [prop] for a function of that name. *)
Definition may_bind (b : bstmt) (a : class_attr) : Prop :=
  (forall i, a <> AValue (VObj i)) /\
  (forall p, a = AProperty p -> from_prop (binds b) p).

(** A name is bound to an object that does not exist. *)
Definition dangling (st : body_state) : Prop :=
  exists name i, b_ns st !! name = Some (AValue (VObj i)) /\
                 b_objs st !! i = None.

(** How a lookup, an evaluation and a definition end: with [Q] when they
    return, in the state they started in when they raise, and outside the
    model only from a state with a dangling name. *)
Definition ends {A} (m : Body A) (st : body_state)
    (Q : A -> body_state -> Prop) : Prop :=
  match m st with
  | Done a st' => Q a st'
  | Raised _ st' => st' = st
  | OutOfFuel => False
  | Unmodelled => dangling st
  end.

(** ** Lemmas *)

Lemma alter_snoc {A} (f : A -> A) (l : list A) x :
  alter f (length l) (l ++ [x]) = l ++ [f x].
Proof.
  replace (length l) with (length l + 0) by lia. by rewrite alter_app_r.
Qed.

Lemma exec_with_unfold var_name auto_dirty target body st :
  exec_with var_name auto_dirty target body st =
  finally (for_each exec_bstmt body) (modify (close (fresh st)))
    (entered var_name auto_dirty target st).
Proof.
  unfold exec_with, new_builder, enter_builder, bind, get_state, modify, ret.
  unfold entered, bind_name, fresh. simpl. by rewrite alter_snoc.
Qed.

(** Where the block leaves the builder does not depend on the key. *)
Lemma close_entered var_name auto_dirty target st :
  close (fresh st) (entered var_name auto_dirty target st) =
  {| b_ns := <[target := AValue (VObj (fresh st))]> (b_ns st);
     b_objs := b_objs st ++ [Properties None None auto_dirty] |}.
Proof. unfold close, entered, fresh. simpl. by rewrite alter_snoc. Qed.

Lemma lookup_builder_bound builder i meta st :
  b_ns st !! builder = Some (AValue (VObj i)) -> b_objs st !! i = Some meta ->
  lookup_builder builder st = Done meta st.
Proof.
  intros Hn Ho. unfold lookup_builder, bind, get_state. by rewrite Hn, Ho.
Qed.


Lemma lookup_builder_ends builder st :
  ends (lookup_builder builder) st (fun _ st' => st' = st).
Proof.
  unfold ends, lookup_builder, bind, get_state. simpl.
  destruct (b_ns st !! builder) as [[| | |[]]|] eqn:Hn; try done.
  destruct (b_objs st !! _) eqn:Ho; [done|]. by exists builder, id.
Qed.

(** Evaluation gives a property, a function or a constructor, never an
    object, and changes nothing. *)
Lemma eval_bstmt_ends b st :
  ends (eval_bstmt b) st (fun a st' => st' = st /\ may_bind b a).
Proof.
  destruct b as [builder ro l ad f|f|c]; [|done..].
  pose proof (lookup_builder_ends builder st) as H. revert H.
  unfold ends. simpl. unfold bind.
  destruct (lookup_builder builder st) as [meta ?| | |]; try done. intros ->.
  destruct (prop _ _ _ _ _) as [e|p] eqn:Hp; [done|].
  split; [done|]. split; [done|]. intros ? [= <-].
  rewrite prop_scope_irrelevant in Hp. by repeat eexists.
Qed.

Lemma exec_bstmt_ends b st :
  ends (exec_bstmt b) st (fun _ st' =>
    exists a, may_bind b a /\ st' = bind_name (binds b) a st).
Proof.
  pose proof (eval_bstmt_ends b st) as H. revert H.
  unfold ends, exec_bstmt, bind, modify.
  destruct (eval_bstmt b st) as [a st'|e st'| |]; try done.
  intros [-> Ha]. eauto.
Qed.

Lemma ends_weaken {A} (m : Body A) st (Q Q' : A -> body_state -> Prop) :
  ends m st Q -> (forall a st', Q a st' -> Q' a st') -> ends m st Q'.
Proof. unfold ends. destruct (m st); auto. Qed.

(** ** The builder may as well be released first *)

(** A definition does not see whether a builder has been released: [prop]
    reads [_auto_dirty] only, which [__exit__] keeps. *)
Lemma eval_bstmt_close i b : commutes (close i) (eval_bstmt b).
Proof.
  destruct b as [builder ro l ad f|f|c]; [|done..]. intros st.
  unfold eval_bstmt, lookup_builder, bind, get_state. simpl.
  destruct (b_ns st !! builder) as [[| | |[]]|]; try done.
  rewrite list_lookup_alter.
  case_decide; simplify_eq; destruct (b_objs st !! _) as [meta|]; try done;
    unfold prop; simpl; by destruct (decorator _ _ _ _).
Qed.

Lemma exec_bstmt_close i b : commutes (close i) (exec_bstmt b).
Proof.
  apply commutes_bind; [apply eval_bstmt_close|].
  intros a. by apply commutes_modify.
Qed.

(** The block runs its body as if [__exit__] had come before it. *)
Lemma exec_with_closed var_name auto_dirty target body st :
  exec_with var_name auto_dirty target body st =
  for_each exec_bstmt body
    (close (fresh st) (entered var_name auto_dirty target st)).
Proof.
  rewrite exec_with_unfold.
  apply finally_commutes, commutes_for_each, exec_bstmt_close.
Qed.

(** ** The invariant *)

Lemma body_inv_new : body_inv new_body.
Proof.
  split_and!; [apply wf_class_empty|constructor|].
  intros name i. simpl. by rewrite lookup_empty.
Qed.

Lemma body_inv_bind b a st :
  body_inv st -> may_bind b a -> body_inv (bind_name (binds b) a st).
Proof.
  intros (Hwf & Hrel & Hb) [Ha Hp]. split_and!; [|done|]; simpl.
  - intros n p. destruct (decide (binds b = n)) as [<-|Hne].
    + rewrite lookup_insert_eq. intros [= ->]. eauto.
    + rewrite lookup_insert_ne by done. apply Hwf.
  - intros n i. destruct (decide (binds b = n)) as [<-|Hne].
    + rewrite lookup_insert_eq. intros [= ->]. by destruct (Ha i).
    + rewrite lookup_insert_ne by done. apply Hb.
Qed.

(** The builder of a block is new, and released when the block is left. *)
Lemma body_inv_entered var_name auto_dirty target st :
  body_inv st ->
  body_inv (close (fresh st) (entered var_name auto_dirty target st)).
Proof.
  intros (Hwf & Hrel & Hb). rewrite close_entered.
  split_and!; simpl.
  - by apply wf_class_insert.
  - apply Forall_app. split; [done|]. by repeat constructor.
  - intros n i. unfold fresh. simpl. rewrite length_app. simpl.
    destruct (decide (target = n)) as [<-|Hne].
    + rewrite lookup_insert_eq. intros [= <-]. unfold fresh. lia.
    + rewrite lookup_insert_ne by done. intros Hn%Hb. unfold fresh in Hn. lia.
Qed.

(** From the invariant, an operation that [ends] is total. *)
Lemma ends_total {A} (m : Body A) (Q : A -> Prop) :
  (forall st, body_inv st -> ends m st (fun a st' => Q a /\ body_inv st')) ->
  total body_inv m Q.
Proof.
  intros H st Hst. specialize (H st Hst). unfold ends in H.
  destruct (m st); [done|by subst|done|].
  destruct H as (name & i & Hn%Hst & Ho%lookup_ge_None).
  unfold fresh in Hn. lia.
Qed.

Lemma exec_bstmt_total b : total body_inv (exec_bstmt b) (fun _ => True).
Proof.
  apply ends_total. intros st Hst.
  eapply ends_weaken; [apply exec_bstmt_ends|].
  intros _ st' (a & Ha & ->). eauto using body_inv_bind.
Qed.

Lemma exec_with_total var_name auto_dirty target body :
  total body_inv (exec_with var_name auto_dirty target body) (fun _ => True).
Proof.
  intros st Hst. rewrite exec_with_closed.
  apply (total_for_each body_inv); [apply exec_bstmt_total|].
  by apply body_inv_entered.
Qed.

Lemma exec_body_total body :
  total body_inv (exec_body body) (fun _ => True).
Proof.
  apply total_for_each. intros [b|v ad t bs];
    [apply exec_bstmt_total|apply exec_with_total].
Qed.

(** ** Definitions that leave a name alone *)

Lemma exec_bstmt_frame t b st :
  binds b <> t ->
  ends (exec_bstmt b) st (fun _ st' =>
    b_ns st' !! t = b_ns st !! t /\ b_objs st' = b_objs st).
Proof.
  intros Hne. eapply ends_weaken; [apply exec_bstmt_ends|].
  intros _ st' (a & _ & ->). simpl. by rewrite lookup_insert_ne.
Qed.

Lemma for_each_frame t body st st' :
  Forall (fun b => binds b <> t) body ->
  final_state (for_each exec_bstmt body st) = Some st' ->
  b_ns st' !! t = b_ns st !! t /\ b_objs st' = b_objs st.
Proof.
  intros Hb. revert st. induction Hb as [|b body Hne _ IH]; intros st; simpl.
  { by intros [= <-]. }
  pose proof (exec_bstmt_frame t b st Hne) as H. revert H.
  unfold ends, bind. destruct (exec_bstmt b st) as [[] st1|e st1| |]; try done.
  - intros [Hn Ho] [-> ->]%IH. by rewrite Hn, Ho.
  - by intros -> [= <-].
Qed.

(** ** The block and the lifecycle *)

Section Refines.
Context (target : string) (meta : properties locals_ref).
Context (objs : list (properties locals_ref)).
Implicit Types (ns : gmap string class_attr) (b : bstmt) (d : decl).

(** The state of the body, the builder being the last object. *)
Abbreviation at_ns ns := {| b_ns := ns; b_objs := objs ++ [__exit__ meta] |}.

(** A definition through the target is the declaration it stands for. *)
Lemma exec_bstmt_declare b d ns :
  decl_of target b = Some d ->
  ns !! target = Some (AValue (VObj (length objs))) ->
  exec_bstmt b (at_ns ns) =
  match declare meta d ns with
  | inl e => Raised e (at_ns ns)
  | inr ns' => Done tt (at_ns ns')
  end.
Proof.
  intros Hd Ht. destruct b as [builder ro l ad f|f|c]; simpl in Hd.
  - case_decide; [subst|done]. injection Hd as <-.
    unfold exec_bstmt, eval_bstmt, bind.
    erewrite lookup_builder_bound by (done || by apply list_lookup_middle).
    simpl. unfold def_prop. rewrite prop_after_exit.
    by destruct (prop _ _ _ _ _).
  - by injection Hd as <-.
  - done.
Qed.

Lemma declare_binds b d ns ns' t :
  decl_of target b = Some d -> declare meta d ns = inr ns' ->
  binds b <> t -> ns' !! t = ns !! t.
Proof.
  intros Hd Hns Hne. destruct b as [builder ro l ad f|f|c]; simpl in Hd.
  - case_decide; [subst|done]. injection Hd as <-.
    apply def_prop_inv in Hns as (p & _ & ->). by rewrite lookup_insert_ne.
  - injection Hd as <-. injection Hns as <-. unfold def_method.
    by rewrite lookup_insert_ne.
  - done.
Qed.

Lemma for_each_run_block body ds ns :
  Forall2 (fun b d => decl_of target b = Some d) body ds ->
  Forall (fun b => binds b <> target) body ->
  ns !! target = Some (AValue (VObj (length objs))) ->
  for_each exec_bstmt body (at_ns ns) =
  block_outcome objs (run_block (Config meta ns Open) ds).
Proof.
  intros Hds. revert ns.
  induction Hds as [|b d body ds Hd _ IH]; intros ns Hb Ht; [done|].
  apply Forall_cons in Hb as [Hne Hb]. simpl for_each. unfold bind.
  rewrite (exec_bstmt_declare b d ns Hd Ht).
  destruct (declare meta d ns) as [e|ns'] eqn:Hns.
  - by rewrite (run_block_cons_error _ _ _ _ _ Hns).
  - rewrite (run_block_cons_ok _ _ _ _ _ Hns). apply IH; [done|].
    by rewrite (declare_binds b d ns ns' target Hd Hns).
Qed.

End Refines.

(** ** Theorems *)

(** The class of a body that returns is one that declarations produce. *)
Corollary class_def_wf body :
  match class_def body with
  | Done _ cls => wf_class cls
  | Raised _ _ => True
  | _ => False
  end.
Proof.
  pose proof (exec_body_total body new_body body_inv_new) as H.
  unfold class_def. destruct (exec_body body new_body); try done.
  by destruct H as (_ & ? & _).
Qed.

(** C15. The [with] statement implements the lifecycle. When every
    decorator of the block goes through the target and no definition of
    the block is called like the target, the statement ends as the block
    of [Lifecycle] does over the namespace that binds the target: with its
    namespace, with the builder it leaves stored as the new object, and
    with its exception when a declaration fails. *)
Theorem exec_with_refines var_name auto_dirty target body ds st :
  mapM (decl_of target) body = Some ds ->
  Forall (fun b => binds b <> target) body ->
  exec_with var_name auto_dirty target body st =
  block_outcome (b_objs st)
    (with_properties ClassLocals var_name auto_dirty ds
       (<[target := AValue (VObj (fresh st))]> (b_ns st))).
Proof.
  intros Hds%mapM_Some_1 Hb. rewrite exec_with_closed, close_entered.
  apply (for_each_run_block target
           (__init__ ClassLocals var_name auto_dirty)); [done..|].
  apply lookup_insert_eq.
Qed.

(** C24. The invariant of the class body. From a state in which the
    namespace is well formed, every builder is released and every object
    the namespace binds exists, a class body returns or raises, whatever
    it declares, and leaves such a state: no block leaves its builder open
    and no lookup meets an object that does not exist. *)
Theorem exec_body_invariant body st :
  body_inv st ->
  exists st', body_inv st' /\
    (exec_body body st = Done tt st' \/
     exists e, exec_body body st = Raised e st').
Proof.
  intros Hst.
  destruct (total_run _ _ _ st (exec_body_total body) Hst)
    as (st' & Hst' & [([] & _ & H)|H]); eauto.
Qed.

(** C21. The builder outlives its block. When no definition of the block
    is called like the target, the target is still bound when the block
    has returned, to the object the block created; that object has dropped
    its references, and a decorator that goes through the target after the
    block declares what it would have declared inside. *)
Theorem builder_stays_bound var_name auto_dirty target body st st'
    read_only listener b f :
  Forall (fun b => binds b <> target) body ->
  exec_with var_name auto_dirty target body st = Done tt st' ->
  b_ns st' !! target = Some (AValue (VObj (fresh st))) /\
  b_objs st' !! fresh st = Some (Properties None None auto_dirty) /\
  exec_bstmt (BProp target read_only listener b f) st' =
    match prop (__init__ ClassLocals var_name auto_dirty)
            read_only listener b f with
    | inl e => Raised e st'
    | inr p => Done tt (bind_name (f_name f) (AProperty p) st')
    end.
Proof.
  intros Hb Hrun. rewrite exec_with_closed, close_entered in Hrun.
  destruct (for_each_frame target body _ st' Hb (f_equal final_state Hrun))
    as [Hn Ho].
  simpl in Hn, Ho. rewrite lookup_insert_eq in Hn.
  assert (b_objs st' !! fresh st = Some (Properties None None auto_dirty))
    as Hm by (rewrite Ho; by apply list_lookup_middle).
  split_and!; [done..|]. unfold exec_bstmt, eval_bstmt, bind.
  rewrite (lookup_builder_bound _ _ _ _ Hn Hm). unfold prop. simpl.
  by destruct (decorator _ _ _ _).
Qed.


(** C32. The naming key has no effect. The block stores the key in the
    builder (line 37) and clears it on the way out (line 47); nothing
    reads it in between, so two blocks that differ in the key only end
    alike: result, exception, namespace and objects. *)
Theorem var_name_irrelevant var_name var_name' auto_dirty target body st :
  exec_with var_name auto_dirty target body st =
  exec_with var_name' auto_dirty target body st.
Proof. by rewrite !exec_with_closed, !close_entered. Qed.
