(* ===== verification/Interp.v ===== *)
(** * Interp: running method bodies and closing the recursion with fuel.

    [eval], [exec] and [run_func] give the meaning of the bodies of the
    functions the utility is handed (the decorated default functions and the
    listeners); [run_callable] dispatches a callable to its body, the three
    closures of [prop] to [getter_lambda], [setter_listener] and
    [setter_plain]. [invoke_fuel] implements the interface [Invoke] with a
    bound on the depth of nested calls. [read], [assign] and [delete] are
    attribute access, assignment and deletion as client code performs them
    ([inst.name], [inst.name = v] and [del inst.name]). *)

From stdpp Require Import base list strings gmap.
From S2P Require Import Prelude Values Objects Properties.

(** ** Bodies *)

Section Bodies.
Context (cls : gmap string class_attr) {I : Invoke}.
Implicit Types env : gmap string value.

Fixpoint eval env (e : expr) : Py value :=
  match e with
  | EConst v => ret v
  | EVar x =>
      match env !! x with
      | Some v => ret v
      | None => raise (NameError x)
      end
  | EAttr name => getattr cls name
  | EGt e1 e2 =>
      let! a := eval env e1 in
      let! b := eval env e2 in
      match py_gt a b with
      | Some r => ret (VBool r)
      | None => raise (TypeError "'>' not supported")
      end
  | EStr e1 =>
      let! v := eval env e1 in
      match py_str v with
      | Some t => ret (VStr t)
      | None => unmodelled
      end
  | ECat e1 e2 =>
      let! a := eval env e1 in
      let! b := eval env e2 in
      match a, b with
      | VStr t1, VStr t2 => ret (VStr (t1 +:+ t2))
      | _, _ => unmodelled
      end
  end.

(** The result of a statement is [Some v] when it executed [return v]. *)
Fixpoint exec env (c : stmt) : Py (option value) :=
  match c with
  | SPass => ret None
  | SExpr e => run! eval env e in ret None
  | SSetAttr name e =>
      let! v := eval env e in
      run! setattr cls name v in
      ret None
  | SIf e c1 c2 =>
      let! t := eval env e in
      if py_truthy t then exec env c1 else exec env c2
  | SSeq c1 c2 =>
      let! r := exec env c1 in
      match r with
      | Some v => ret (Some v)
      | None => exec env c2
      end
  | SPrint e =>
      let! v := eval env e in
      match py_str v with
      | Some l => run! modify (print_line l) in ret None
      | None => unmodelled
      end
  | SReturn e => let! v := eval env e in ret (Some v)
  end.

(** Binding the arguments of a call to the parameters after [self]. *)
Definition bind_args (params : list string) (args : list value)
  : option (gmap string value) :=
  if decide (length params = length args)
  then Some (list_to_map (zip params args))
  else None.

(** A call of a [def]: a function that falls off its end returns [None]. *)
Definition run_func (f : func) (args : list value) : Py value :=
  match bind_args (f_params f) args with
  | Some env => let! r := exec env (f_body f) in ret (default VNone r)
  | None => raise (TypeError "wrong number of arguments")
  end.

Definition run_callable (c : callable) (args : list value) : Py value :=
  match c, args with
  | CFunc f, _ => run_func f args
  | CGetter field f, [] => getter_lambda cls field f
  | CSetterListener field lname auto_dirty, [new] =>
      setter_listener cls field lname auto_dirty new
  | CSetterPlain field auto_dirty, [new] =>
      setter_plain cls field auto_dirty new
  | _, _ => raise (TypeError "wrong number of arguments")
  end.

End Bodies.

(** ** The interpreter *)

Fixpoint invoke_fuel (cls : gmap string class_attr) (n : nat)
    (c : callable) (args : list value) {struct n} : Py value :=
  match n with
  | O => out_of_fuel
  | S n' => @run_callable cls (invoke_fuel cls n') c args
  end.

(** [inst.name] and [inst.name = v], with call depth at most [n]. *)
Definition read (cls : gmap string class_attr) (n : nat) (name : string)
  : Py value :=
  @getattr cls (invoke_fuel cls n) name.

Definition assign (cls : gmap string class_attr) (n : nat) (name : string)
    (v : value) : Py unit :=
  @setattr cls (invoke_fuel cls n) name v.

Definition delete (cls : gmap string class_attr) (n : nat) (name : string)
  : Py unit :=
  @delattr cls (invoke_fuel cls n) name.

(** ** Monotonicity: bodies *)

Section BodiesMono.
Context (cls : gmap string class_attr) (I J : Invoke) (HIJ : invoke_le I J).

Lemma eval_mono env e : @eval cls I env e ⊑ @eval cls J env e.
Proof.
  induction e; simpl; try reflexivity; auto using getattr_mono;
    repeat (apply bind_mono; [done|intros ?]); reflexivity.
Qed.

Lemma exec_mono env c : @exec cls I env c ⊑ @exec cls J env c.
Proof.
  induction c; simpl; try reflexivity;
    repeat (apply bind_mono; [by auto using eval_mono, setattr_mono|intros ?]);
    try reflexivity.
  - by destruct (py_truthy _).
  - by destruct a.
Qed.

Lemma run_func_mono f args : @run_func cls I f args ⊑ @run_func cls J f args.
Proof.
  unfold run_func. destruct (bind_args _ _); [|reflexivity].
  apply bind_mono; [apply exec_mono|reflexivity].
Qed.

Lemma run_callable_mono c args :
  @run_callable cls I c args ⊑ @run_callable cls J c args.
Proof.
  destruct c, args as [|? [|? ?]]; simpl;
    auto using run_func_mono, getter_lambda_mono, setter_listener_mono,
      setter_plain_mono; reflexivity.
Qed.

End BodiesMono.

(** ** Monotonicity: fuel *)

Lemma invoke_fuel_S cls n :
  invoke_le (invoke_fuel cls n) (invoke_fuel cls (S n)).
Proof.
  induction n as [|n IH]; intros c args; [apply out_of_fuel_le|].
  change (@run_callable cls (invoke_fuel cls n) c args ⊑
          @run_callable cls (invoke_fuel cls (S n)) c args).
  by apply run_callable_mono.
Qed.

Lemma invoke_fuel_le cls n m :
  n <= m -> invoke_le (invoke_fuel cls n) (invoke_fuel cls m).
Proof.
  induction 1 as [|m _ IH]; intros c args; [reflexivity|].
  etrans; [apply IH|apply invoke_fuel_S].
Qed.


Lemma read_mono cls n m name s :
  n <= m -> terminated (read cls n name s) = true ->
  read cls m name s = read cls n name s.
Proof.
  intros Hnm Ht. apply m_le_terminated; [|done].
  by apply getattr_mono, invoke_fuel_le.
Qed.

Lemma assign_mono cls n m name v s :
  n <= m -> terminated (assign cls n name v s) = true ->
  assign cls m name v s = assign cls n name v s.
Proof.
  intros Hnm Ht. apply m_le_terminated; [|done].
  by apply setattr_mono, invoke_fuel_le.
Qed.

(** ** Bodies that do not touch attributes

    A body without [self.x] and [self.x = e] never calls back into the
    interpreter: it needs no fuel and cannot run out of it. *)

Fixpoint attr_free_expr (e : expr) : bool :=
  match e with
  | EConst _ | EVar _ => true
  | EAttr _ => false
  | EGt e1 e2 | ECat e1 e2 => attr_free_expr e1 && attr_free_expr e2
  | EStr e1 => attr_free_expr e1
  end.

Fixpoint attr_free (c : stmt) : bool :=
  match c with
  | SPass => true
  | SExpr e | SPrint e | SReturn e => attr_free_expr e
  | SSetAttr _ _ => false
  | SIf e c1 c2 => attr_free_expr e && attr_free c1 && attr_free c2
  | SSeq c1 c2 => attr_free c1 && attr_free c2
  end.

Section AttrFree.
Context (cls : gmap string class_attr) (I : Invoke).

Lemma bind_terminated {A B} (m : Py A) (k : A -> Py B) s :
  terminated (m s) = true ->
  (forall a s', terminated (k a s') = true) ->
  terminated (bind m k s) = true.
Proof. intros Hm Hk. unfold bind. destruct (m s); auto. Qed.

Lemma eval_attr_free_terminated env e s :
  attr_free_expr e = true -> terminated (@eval cls I env e s) = true.
Proof.
  revert s. induction e; simpl; intros s He; try done;
    repeat match goal with
    | H : _ && _ = true |- _ => apply andb_true_iff in H as [??]
    | |- terminated (bind _ _ _) = true => apply bind_terminated; [by auto|]
    | |- forall _, _ => intros ?
    end; auto; by repeat case_match.
Qed.

Lemma exec_attr_free_terminated env c s :
  attr_free c = true -> terminated (@exec cls I env c s) = true.
Proof.
  revert s. induction c; simpl; intros s Hc; try done;
    repeat match goal with
    | H : _ && _ = true |- _ => apply andb_true_iff in H as [??]
    | |- terminated (bind _ _ _) = true =>
        apply bind_terminated; [by auto using eval_attr_free_terminated|]
    | |- forall _, _ => intros ?
    end; auto; repeat case_match; auto.
Qed.

Lemma run_func_attr_free_terminated f args s :
  attr_free (f_body f) = true ->
  terminated (@run_func cls I f args s) = true.
Proof.
  intros Hf. unfold run_func. destruct (bind_args _ _); [|done].
  apply bind_terminated; [by apply exec_attr_free_terminated|done].
Qed.

End AttrFree.

(** ** Assignment and reading through a declared property

    The hypotheses shared by the theorems below: [name] is bound in the
    class to the property [p], whose backing field is not an attribute of
    the class, and the class has no property called [_is_dirty]. *)

Section Declared.
Context (cls : gmap string class_attr) (f : func) (p : property).
Context (Hbound : cls !! f_name f = Some (AProperty p)).
Context (Hfield : cls !! field_of f = None).
Implicit Types (s : state) (new : value) (n : nat).

Lemma assign_unfold n c new s :
  fset p = Some c ->
  assign cls n (f_name f) new s =
  (run! invoke_fuel cls n c [new] in ret tt) s.
Proof. intros Hc. unfold assign, setattr. by rewrite Hbound, Hc. Qed.

Lemma read_unfold n s :
  fget p = Some (CGetter (field_of f) f) ->
  read cls (S n) (f_name f) s =
  @getter_lambda cls (invoke_fuel cls n) (field_of f) f s.
Proof. intros Hg. unfold read, getattr. by rewrite Hbound, Hg. Qed.

(** The getter when the default function returns [d]. *)
Lemma read_getter_done n s d s' :
  fget p = Some (CGetter (field_of f) f) ->
  invoke_fuel cls n (CFunc f) [] s = Done d s' ->
  read cls (S n) (f_name f) s = Done (default d (attrs s' !! field_of f)) s'.
Proof. intros Hg Hf. rewrite (read_unfold _ _ Hg). by apply getter_lambda_done. Qed.

(** The property has no setter: assignment raises and changes nothing. *)
Lemma assign_no_setter n new s :
  fset p = None ->
  assign cls n (f_name f) new s = Raised (AttributeError (f_name f)) s.
Proof. intros Hc. unfold assign, setattr. by rewrite Hbound, Hc. Qed.

(** The property's setter is the one without listener. *)
Lemma assign_setter_plain n auto_dirty new s :
  fset p = Some (CSetterPlain (field_of f) auto_dirty) ->
  plain_attr cls "_is_dirty" = true ->
  assign cls (S n) (f_name f) new s =
  Done tt (if py_ne (current (field_of f) s) new
           then set_dirty auto_dirty (set_attr (field_of f) new s) else s).
Proof.
  intros Hc Hd. rewrite (assign_unfold _ _ _ _ Hc). simpl.
  by erewrite bind_done by by apply setter_plain_spec.
Qed.

(** The property's setter is the one with a listener, and the value is
    equal to the current one. *)
Lemma assign_setter_listener_equal n lname auto_dirty new s :
  fset p = Some (CSetterListener (field_of f) lname auto_dirty) ->
  py_ne (current (field_of f) s) new = false ->
  assign cls (S n) (f_name f) new s = Done tt s.
Proof.
  intros Hc He. rewrite (assign_unfold _ _ _ _ Hc). simpl.
  unfold bind. by rewrite setter_listener_unfold, He.
Qed.

(** The same setter when the value changes and the listener is a method. *)
Lemma assign_setter_listener_changed n lname auto_dirty new s lf :
  fset p = Some (CSetterListener (field_of f) lname auto_dirty) ->
  plain_attr cls "_is_dirty" = true ->
  cls !! lname = Some (AFunction lf) ->
  attrs (set_dirty auto_dirty (set_attr (field_of f) new s)) !! lname = None ->
  py_ne (current (field_of f) s) new = true ->
  assign cls (S (S n)) (f_name f) new s =
  (run! @run_func cls (invoke_fuel cls n) lf
          [VStr (field_of f); current (field_of f) s; new] in ret tt)
    (set_dirty auto_dirty (set_attr (field_of f) new s)).
Proof.
  intros Hc Hd Hl Hs Hne. rewrite (assign_unfold _ _ _ _ Hc).
  change (invoke_fuel cls (S (S n)) ?c ?a)
    with (@run_callable cls (invoke_fuel cls (S n)) c a). simpl.
  unfold bind at 1.
  rewrite (setter_listener_notifies _ _ _ _ _ _ lf) by done.
  unfold bind, invoke. simpl. by case_outcome.
Qed.

(** The same setter when the instance has an attribute of the listener's
    name. *)
Lemma assign_setter_listener_shadowed n lname auto_dirty new s v :
  fset p = Some (CSetterListener (field_of f) lname auto_dirty) ->
  plain_attr cls "_is_dirty" = true ->
  plain_attr cls lname = true ->
  attrs (set_dirty auto_dirty (set_attr (field_of f) new s)) !! lname
    = Some v ->
  py_ne (current (field_of f) s) new = true ->
  assign cls (S n) (f_name f) new s =
  (run! @call_value cls (invoke_fuel cls n) v
          [VStr (field_of f); current (field_of f) s; new] in ret tt)
    (set_dirty auto_dirty (set_attr (field_of f) new s)).
Proof.
  intros Hc Hd Hl Hs Hne. rewrite (assign_unfold _ _ _ _ Hc). simpl.
  unfold bind at 1. rewrite (setter_listener_shadowed _ _ _ _ _ _ v) by done.
  unfold bind. by case_outcome.
Qed.

(** The same setter when nothing answers to the listener's name. *)
Lemma assign_setter_listener_missing n lname auto_dirty new s :
  fset p = Some (CSetterListener (field_of f) lname auto_dirty) ->
  plain_attr cls "_is_dirty" = true ->
  cls !! lname = None ->
  attrs (set_dirty auto_dirty (set_attr (field_of f) new s)) !! lname = None ->
  py_ne (current (field_of f) s) new = true ->
  assign cls (S n) (f_name f) new s =
  Raised (AttributeError lname)
    (set_dirty auto_dirty (set_attr (field_of f) new s)).
Proof.
  intros Hc Hd Hl Hs Hne. rewrite (assign_unfold _ _ _ _ Hc). simpl.
  by erewrite bind_raised by by apply setter_listener_missing.
Qed.

End Declared.

(** ** The contract of [prop]

    The theorems of this section are about a property [p] that the source's
    [prop] returned for the function [f] and that the class binds to
    [f]'s name, as a class body does. The backing field
    ['_' + f.__name__] is not an attribute of the class. *)

Section Contract.
Context {Scope : Type} (meta : properties Scope).
Context (cls : gmap string class_attr) (f : func) (p : property).
Context (listener : value) (auto_dirty : bool).
Context (Hbound : cls !! f_name f = Some (AProperty p)).
Context (Hfield : cls !! field_of f = None).
Implicit Types (s : state) (new : value) (n : nat).

(** C1. Assigning a value equal (in Python's sense) to the current one, the
    backing field or [None] when it is missing, is a no-op: nothing is
    written, the dirty flag is not set, no listener runs. *)
Theorem assign_equal_noop n new s :
  prop meta false listener auto_dirty f = inr p ->
  py_eq (current (field_of f) s) new = true ->
  assign cls (S n) (f_name f) new s = Done tt s.
Proof.
  intros Hp%prop_setter He.
  assert (py_ne (current (field_of f) s) new = false) as Hne
    by by unfold py_ne; rewrite He.
  destruct (py_truthy listener).
  - by eapply assign_setter_listener_equal.
  - rewrite (assign_unfold _ _ _ Hbound _ _ _ _ Hp). simpl.
    unfold bind. by rewrite setter_plain_unfold, Hne.
Qed.

(** C3. Without listener, assigning a different value writes the backing
    field, then sets [_is_dirty] when auto-dirty is on (by the builder's
    default or by the declaration), and does nothing else. *)
Theorem assign_plain_changed n new s :
  prop meta false listener auto_dirty f = inr p ->
  py_truthy listener = false ->
  plain_attr cls "_is_dirty" = true ->
  py_ne (current (field_of f) s) new = true ->
  assign cls (S n) (f_name f) new s =
  Done tt (set_dirty (_auto_dirty meta || auto_dirty)
             (set_attr (field_of f) new s)).
Proof.
  intros Hp%prop_setter Hl Hd Hne. rewrite Hl in Hp.
  erewrite assign_setter_plain by done. by rewrite Hne.
Qed.

(** C2. With a listener that is a method [lf] of the class, assigning a
    different value writes the backing field, then the dirty flag, then
    calls [lf(field, old, new)] in that state; the assignment's outcome is
    the call's. The method is looked up when the assignment runs. *)
Theorem assign_notifies n new s lf :
  prop meta false listener auto_dirty f = inr p ->
  py_truthy listener = true ->
  plain_attr cls "_is_dirty" = true ->
  cls !! listener_name_of listener = Some (AFunction lf) ->
  attrs (set_dirty (_auto_dirty meta || auto_dirty)
           (set_attr (field_of f) new s)) !! listener_name_of listener
    = None ->
  py_ne (current (field_of f) s) new = true ->
  assign cls (S (S n)) (f_name f) new s =
  (run! @run_func cls (invoke_fuel cls n) lf
          [VStr (field_of f); current (field_of f) s; new] in ret tt)
    (set_dirty (_auto_dirty meta || auto_dirty)
       (set_attr (field_of f) new s)).
Proof.
  intros Hp%prop_setter Hl Hd Hlf Hs Hne. rewrite Hl in Hp.
  by eapply assign_setter_listener_changed.
Qed.

(** C8. When nothing on the instance or the class answers to the listener's
    name, the assignment raises [AttributeError] after the backing field and
    the dirty flag were written: the write is not rolled back. *)
Theorem assign_listener_missing n new s :
  prop meta false listener auto_dirty f = inr p ->
  py_truthy listener = true ->
  plain_attr cls "_is_dirty" = true ->
  cls !! listener_name_of listener = None ->
  attrs (set_dirty (_auto_dirty meta || auto_dirty)
           (set_attr (field_of f) new s)) !! listener_name_of listener
    = None ->
  py_ne (current (field_of f) s) new = true ->
  assign cls (S n) (f_name f) new s =
  Raised (AttributeError (listener_name_of listener))
    (set_dirty (_auto_dirty meta || auto_dirty)
       (set_attr (field_of f) new s)).
Proof.
  intros Hp%prop_setter Hl Hd Hlf Hs Hne. rewrite Hl in Hp.
  by eapply assign_setter_listener_missing.
Qed.

(** C33. The listener is resolved on the instance when the assignment runs:
    an attribute of the instance under the listener's name replaces the
    method of the class. When it holds a bound method [m] of the class,
    that method is notified, with the same three arguments; a value that
    is not callable makes the assignment raise [TypeError], after the
    write. *)
Theorem assign_listener_rebound n new s v :
  prop meta false listener auto_dirty f = inr p ->
  py_truthy listener = true ->
  plain_attr cls "_is_dirty" = true ->
  plain_attr cls (listener_name_of listener) = true ->
  attrs (set_dirty (_auto_dirty meta || auto_dirty)
           (set_attr (field_of f) new s)) !! listener_name_of listener
    = Some v ->
  py_ne (current (field_of f) s) new = true ->
  assign cls (S (S n)) (f_name f) new s =
  (run! match v with
        | VMethod m =>
            match cls !! m with
            | Some (AFunction lf) =>
                @run_func cls (invoke_fuel cls n) lf
                  [VStr (field_of f); current (field_of f) s; new]
            | _ => unmodelled
            end
        | _ => raise (TypeError "object is not callable")
        end in ret tt)
    (set_dirty (_auto_dirty meta || auto_dirty)
       (set_attr (field_of f) new s)).
Proof.
  intros Hp%prop_setter Hl Hd Hpl Hs Hne. rewrite Hl in Hp.
  erewrite assign_setter_listener_shadowed by done.
  unfold call_value. by destruct v.
Qed.

(** C5. Assigning to a property declared read-only raises [AttributeError]
    and leaves the instance as it was, whatever the fuel. *)
Theorem assign_read_only n new s :
  prop meta true listener auto_dirty f = inr p ->
  assign cls n (f_name f) new s = Raised (AttributeError (f_name f)) s.
Proof.
  intros Hp%prop_read_only_fset. by apply (assign_no_setter _ _ p Hbound).
Qed.

(** C7. Reading a declared property runs the default function first; when
    it returns [d], the result is the backing field if the instance has
    one, else [d]. *)
Theorem read_declared read_only n s d s' :
  prop meta read_only listener auto_dirty f = inr p ->
  invoke_fuel cls n (CFunc f) [] s = Done d s' ->
  read cls (S n) (f_name f) s =
  Done (default d (attrs s' !! field_of f)) s'.
Proof.
  intros (Hg & _)%prop_declared_by Hf. by eapply read_getter_done.
Qed.

(** C11. The default function is evaluated on every read, also when the
    backing field is set: if it raises, the read raises, and the field's
    value is not returned. *)
Theorem read_default_raises read_only n s e s' :
  prop meta read_only listener auto_dirty f = inr p ->
  invoke_fuel cls n (CFunc f) [] s = Raised e s' ->
  read cls (S n) (f_name f) s = Raised e s'.
Proof.
  intros (Hg & _)%prop_declared_by Hf.
  rewrite (read_unfold _ _ _ Hbound _ _ Hg).
  by apply getter_lambda_raised.
Qed.

(** Assigning twice in a row through a setter without listener is
    assigning once, unless the value is a NaN: the second assignment finds
    the value it wants to write. *)
Theorem assign_twice n new s :
  prop meta false listener auto_dirty f = inr p ->
  py_truthy listener = false ->
  plain_attr cls "_is_dirty" = true ->
  field_of f <> "_is_dirty" ->
  is_nan new = false ->
  (run! assign cls (S n) (f_name f) new in
   assign cls (S n) (f_name f) new) s =
  assign cls (S n) (f_name f) new s.
Proof.
  intros Hp%prop_setter Hl Hd Hne Hnan. rewrite Hl in Hp.
  unfold bind. rewrite (assign_setter_plain _ _ _ Hbound Hfield _ _ _ _ Hp Hd).
  rewrite (assign_setter_plain _ _ _ Hbound Hfield _ _ _ _ Hp Hd).
  destruct (py_ne (current (field_of f) s) new) eqn:E; [|by rewrite E].
  by rewrite current_set_dirty, current_set_attr, py_ne_same by done.
Qed.

(** C34. A NaN is a change every time. Assigning a NaN through a setter
    without listener writes the backing field and sets the dirty flag in
    every state, also when the field already holds that very object: [!=]
    holds of a NaN and itself. The same value assigned twice has its
    effects twice. *)
Theorem assign_nan_changes n i s :
  prop meta false listener auto_dirty f = inr p ->
  py_truthy listener = false ->
  plain_attr cls "_is_dirty" = true ->
  assign cls (S n) (f_name f) (VFloat (FNan i)) s =
  Done tt (set_dirty (_auto_dirty meta || auto_dirty)
             (set_attr (field_of f) (VFloat (FNan i)) s)).
Proof.
  intros Hp%prop_setter Hl Hd. rewrite Hl in Hp.
  erewrite assign_setter_plain by done. by rewrite py_ne_nan by by right.
Qed.

(** C37. Assignment followed by a read gives back the object assigned or a
    value equal to it, in Python's sense, when the default function returns
    normally without changing the instance, and the assignment was not of
    [None] to a missing field (which is a no-op, so that the read gives the
    default). The value read may differ from the one assigned in type:
    assigning [1] over [True] reads [True]. A NaN reads back as the same
    object, which is not equal to itself. *)
Theorem assign_read_roundtrip n new s d :
  prop meta false listener auto_dirty f = inr p ->
  py_truthy listener = false ->
  plain_attr cls "_is_dirty" = true ->
  field_of f <> "_is_dirty" ->
  (forall s, invoke_fuel cls n (CFunc f) [] s = Done d s) ->
  is_Some (attrs s !! field_of f) \/ py_eq VNone new = false ->
  exists v s',
    (run! assign cls (S n) (f_name f) new in
     read cls (S n) (f_name f)) s = Done v s' /\
    (v = new \/ value_equiv v new).
Proof.
  intros Hp Hl Hd Hne Hf Hs.
  pose proof (prop_setter _ _ _ _ _ Hp) as Hc. rewrite Hl in Hc.
  apply prop_declared_by in Hp as (Hg & _).
  unfold bind. rewrite (assign_setter_plain _ _ _ Hbound Hfield _ _ _ _ Hc Hd).
  erewrite read_getter_done by done. do 2 eexists. split; [done|].
  destruct (py_ne (current (field_of f) s) new) eqn:E.
  - rewrite lookup_set_dirty, set_attr_lookup by done. by left.
  - right. apply py_ne_false_iff in E. unfold current in E.
    destruct (attrs s !! field_of f); [done|].
    destruct Hs as [[? [=]]|Hs]. apply py_eq_iff in E. simpl in E, Hs. congruence.
Qed.

(** A declared property cannot be deleted: the source passes [None]
    for the deleter (line 90), so [del inst.name] raises [AttributeError]
    and leaves the instance as it was, whatever the declaration. *)
Theorem delete_declared read_only n s :
  prop meta read_only listener auto_dirty f = inr p ->
  delete cls n (f_name f) s = Raised (AttributeError (f_name f)) s.
Proof.
  intros (_ & Hd & _)%prop_declared_by. unfold delete, delattr.
  by rewrite Hbound, Hd.
Qed.

(** Deleting the backing field resets the property: the next read
    gives the default function's result again, and the setter compares
    the next assignment against [None]. *)
Theorem delete_backing_field read_only n s v d :
  prop meta read_only listener auto_dirty f = inr p ->
  attrs s !! field_of f = Some v ->
  (forall s, invoke_fuel cls n (CFunc f) [] s = Done d s) ->
  (run! delete cls n (field_of f) in read cls (S n) (f_name f)) s =
  Done d (del_attr (field_of f) s) /\
  current (field_of f) (del_attr (field_of f) s) = VNone.
Proof.
  intros (Hg & _)%prop_declared_by Hv Hf. split.
  - unfold delete. erewrite bind_done; cycle 1.
    { eapply delattr_plain; [|done]. unfold plain_attr. by rewrite Hfield. }
    erewrite read_getter_done by done. by rewrite del_attr_lookup.
  - unfold current. by rewrite del_attr_lookup.
Qed.

(** The dirty flag: a value-changing write through a setter with
    auto-dirty sets [_is_dirty] to [True], and no write through it clears a
    flag that is set. *)
Theorem assign_dirty n new s :
  prop meta false listener auto_dirty f = inr p ->
  py_truthy listener = false ->
  plain_attr cls "_is_dirty" = true ->
  field_of f <> "_is_dirty" ->
  exists s', assign cls (S n) (f_name f) new s = Done tt s' /\
    (is_dirty s -> is_dirty s') /\
    (_auto_dirty meta || auto_dirty = true ->
     py_ne (current (field_of f) s) new = true -> is_dirty s').
Proof.
  intros Hp%prop_setter Hl Hd Hne. rewrite Hl in Hp.
  rewrite (assign_setter_plain _ _ _ Hbound Hfield _ _ _ _ Hp Hd).
  eexists. split; [done|]. unfold is_dirty.
  destruct (py_ne _ _), (_auto_dirty meta || auto_dirty); simpl;
    rewrite ?lookup_insert_eq, ?lookup_insert_ne by done; naive_solver.
Qed.

(** Reading a declared property whose default function does not touch
    attributes terminates with fuel 2: the getter and the default function
    are the only calls. *)
Theorem read_terminates read_only n s :
  prop meta read_only listener auto_dirty f = inr p ->
  attr_free (f_body f) = true ->
  terminated (read cls (S (S n)) (f_name f) s) = true.
Proof.
  intros (Hg & _)%prop_declared_by Hf.
  rewrite (read_unfold _ _ _ Hbound _ _ Hg). unfold getter_lambda.
  apply bind_terminated.
  - by apply run_func_attr_free_terminated.
  - intros d s'. by rewrite getattr_default_undefined.
Qed.

End Contract.
