(* ===== verification/Termination.v ===== *)
(** * Termination: a bound on the depth of calls, checked on the class.

    A setter's listener is a method that may assign properties again, whose
    setters have listeners of their own; a getter runs a default function
    that may read properties. [bounded cls L k c] checks on the class alone
    that the calls below [c] nest at most [k] deep: it follows every
    attribute read and write of a body to the getter or setter the class
    binds, and every setter to its listener.

    A listener is looked up on the instance first (source line 79), so the
    check is sound only while the instance does not shadow the listeners'
    names. [L] lists these names; [no_shadow L] is the invariant that the
    instance has no attribute among them, and the check refuses bodies that
    write to one. The soundness theorem gives termination and the invariant
    together, so that it applies to any sequence of assignments.

    The check is [below cls pol k], for a [policy] that says what is
    protected on the instance: the names no body may write, whether the
    setters may set the dirty flag, and the listeners' names. Its soundness
    is proved once, for every invariant that is [Stable] for the policy: one
    that rules out shadowing and that the permitted writes and a printed
    line preserve. [bounded] is the check under the policy [guard], which
    protects the listeners' names; [Frames] protects more. *)

From stdpp Require Import base list strings gmap.
From S2P Require Import Prelude Values Objects Properties Interp.

(** ** The check *)

(** The instance has no attribute named like a listener. *)
Definition no_shadow (L : list string) (s : state) : Prop :=
  Forall (fun l => attrs s !! l = None) L.

Definition no_shadowb (L : list string) (s : state) : bool :=
  forallb (fun l => match attrs s !! l with None => true | _ => false end) L.

(** What a check protects on the instance: the names no method body and no
    setter may write there, whether a setter may set the dirty flag (source
    lines 78 and 85, which write [True] and nothing else), and the names of
    the listeners, which the instance must not shadow. *)
Record policy : Type := Policy {
  protected : list string;
  may_flag : bool;
  listeners : list string
}.

(** The policy of the depth check: the listeners' names are protected. *)
Definition guard (L : list string) : policy :=
  Policy L (bool_decide ("_is_dirty" ∉ L)) L.

(** Reading [name]: the getter when the class binds a property. *)
Definition get_ok (cls : gmap string class_attr) (B : callable -> bool)
    (name : string) : bool :=
  match cls !! name with
  | Some (AProperty p) =>
      match fget p with Some g => B g | None => true end
  | _ => true
  end.

(** Writing [name]: the setter when the class binds a property; else the
    write goes to the instance, where [w] says whether it may. *)
Definition write_ok (cls : gmap string class_attr) (w : bool)
    (B : callable -> bool) (name : string) : bool :=
  match cls !! name with
  | Some (AProperty p) =>
      match fset p with Some c => B c | None => true end
  | _ => w
  end.

(** A write of any value: the name must not be protected. *)
Definition set_ok (cls : gmap string class_attr) (P : list string)
    (B : callable -> bool) (name : string) : bool :=
  write_ok cls (bool_decide (name ∉ P)) B name.

(** Looking up and calling the listener [lname]: a method of the class (or
    nothing, which raises), under a protected name. *)
Definition listener_ok (cls : gmap string class_attr) (L : list string)
    (B : callable -> bool) (lname : string) : bool :=
  bool_decide (lname ∈ L) &&
  match cls !! lname with
  | Some (AFunction lf) => B (CFunc lf)
  | None => true
  | _ => false
  end.

Fixpoint expr_ok (cls : gmap string class_attr) (B : callable -> bool)
    (e : expr) : bool :=
  match e with
  | EConst _ | EVar _ => true
  | EAttr name => get_ok cls B name
  | EStr e1 => expr_ok cls B e1
  | EGt e1 e2 | ECat e1 e2 => expr_ok cls B e1 && expr_ok cls B e2
  end.

Fixpoint stmt_ok (cls : gmap string class_attr) (P : list string)
    (B : callable -> bool) (c : stmt) : bool :=
  match c with
  | SPass => true
  | SExpr e | SPrint e | SReturn e => expr_ok cls B e
  | SSetAttr name e => expr_ok cls B e && set_ok cls P B name
  | SIf e c1 c2 => expr_ok cls B e && stmt_ok cls P B c1 && stmt_ok cls P B c2
  | SSeq c1 c2 => stmt_ok cls P B c1 && stmt_ok cls P B c2
  end.

(** The write of the dirty flag, when the setter makes it. *)
Definition dirty_ok (cls : gmap string class_attr) (pol : policy)
    (B : callable -> bool) (auto_dirty : bool) : bool :=
  if auto_dirty then write_ok cls (may_flag pol) B "_is_dirty" else true.

(** One level: the body of [c] with its callees checked by [B]. *)
Definition callable_ok (cls : gmap string class_attr) (pol : policy)
    (B : callable -> bool) (c : callable) : bool :=
  match c with
  | CFunc f => stmt_ok cls (protected pol) B (f_body f)
  | CGetter field f => B (CFunc f) && get_ok cls B field
  | CSetterPlain field auto_dirty =>
      get_ok cls B field && set_ok cls (protected pol) B field &&
      dirty_ok cls pol B auto_dirty
  | CSetterListener field lname auto_dirty =>
      get_ok cls B field && set_ok cls (protected pol) B field &&
      dirty_ok cls pol B auto_dirty && listener_ok cls (listeners pol) B lname
  end.

(** The calls below [c] nest at most [k] deep, and they keep to the
    policy. *)
Fixpoint below (cls : gmap string class_attr) (pol : policy) (k : nat)
    (c : callable) : bool :=
  match k with
  | O => false
  | S k' => callable_ok cls pol (below cls pol k') c
  end.

(** The depth check: the calls below [c] nest at most [k] deep, and no body
    among them writes an attribute of the instance named like a listener. *)
Abbreviation bounded cls L := (below cls (guard L)).

(** One policy allows what another does. *)
Definition policy_le (pol' pol : policy) : Prop :=
  protected pol' ⊆ protected pol /\
  (may_flag pol = true -> may_flag pol' = true) /\
  listeners pol' = listeners pol.

(** ** Stable invariants

    What soundness needs of an invariant of the instance under a policy. *)
Class Stable (pol : policy) (Inv : state -> Prop) : Prop := {
  stable_shadow s : Inv s -> no_shadow (listeners pol) s;
  stable_write name v s :
    name ∉ protected pol -> Inv s -> Inv (set_attr name v s);
  stable_flag s :
    may_flag pol = true -> Inv s -> Inv (set_attr "_is_dirty" (VBool true) s);
  stable_print l s : Inv s -> Inv (print_line l s)
}.

Lemma no_shadowb_spec L s : no_shadowb L s = true <-> no_shadow L s.
Proof.
  unfold no_shadowb, no_shadow. rewrite forallb_forall, Forall_forall.
  split; intros H l Hl.
  - specialize (H l (proj1 (list_elem_of_In _ _) Hl)). by case_match.
  - by rewrite (H l (proj2 (list_elem_of_In _ _) Hl)).
Qed.

Lemma no_shadow_set_attr L name v s :
  name ∉ L -> no_shadow L s -> no_shadow L (set_attr name v s).
Proof.
  unfold no_shadow. rewrite !Forall_forall. intros Hn Hs l Hl.
  rewrite set_attr_lookup_ne; [by apply Hs|]. by intros ->.
Qed.

#[export] Instance no_shadow_stable L : Stable (guard L) (no_shadow L).
Proof.
  split; [done|apply no_shadow_set_attr| |done].
  intros s Hd%bool_decide_eq_true. by apply no_shadow_set_attr.
Qed.

(** ** Lemmas: a weaker policy *)

Section Weaken.
Context (cls : gmap string class_attr) (pol pol' : policy).
Context (B B' : callable -> bool).
Context (Hpol : policy_le pol' pol).
Context (HB : forall c, B c = true -> B' c = true).

Lemma get_ok_weaken name :
  get_ok cls B name = true -> get_ok cls B' name = true.
Proof.
  unfold get_ok. destruct (cls !! name) as [[p|lf|ci|v]|]; try done.
  destruct (fget p); auto.
Qed.

Lemma write_ok_weaken w w' name :
  (w = true -> w' = true) ->
  write_ok cls w B name = true -> write_ok cls w' B' name = true.
Proof.
  unfold write_ok. intros Hw.
  destruct (cls !! name) as [[p|lf|ci|v]|]; [destruct (fset p)|..]; auto.
Qed.

Lemma set_ok_weaken name :
  set_ok cls (protected pol) B name = true ->
  set_ok cls (protected pol') B' name = true.
Proof.
  apply write_ok_weaken. rewrite !bool_decide_eq_true.
  destruct Hpol as [Hsub _]. set_solver.
Qed.

Lemma listener_ok_weaken lname :
  listener_ok cls (listeners pol) B lname = true ->
  listener_ok cls (listeners pol') B' lname = true.
Proof.
  destruct Hpol as (_ & _ & ->). unfold listener_ok. rewrite !andb_true_iff.
  intros [Hl Hok]. split; [done|].
  destruct (cls !! lname) as [[p|lf|ci|v]|]; auto.
Qed.

Lemma expr_ok_weaken e : expr_ok cls B e = true -> expr_ok cls B' e = true.
Proof.
  induction e; simpl; rewrite ?andb_true_iff;
    intuition auto using get_ok_weaken.
Qed.

Lemma stmt_ok_weaken c :
  stmt_ok cls (protected pol) B c = true ->
  stmt_ok cls (protected pol') B' c = true.
Proof.
  induction c; simpl; rewrite ?andb_true_iff;
    intuition auto using expr_ok_weaken, set_ok_weaken.
Qed.

Lemma dirty_ok_weaken b :
  dirty_ok cls pol B b = true -> dirty_ok cls pol' B' b = true.
Proof.
  destruct b; [|done]. apply write_ok_weaken. by destruct Hpol as (_ & ? & _).
Qed.

Lemma callable_ok_weaken c :
  callable_ok cls pol B c = true -> callable_ok cls pol' B' c = true.
Proof.
  destruct c as [f|field f|field lname b|field b]; simpl;
    rewrite ?andb_true_iff;
    intuition auto using stmt_ok_weaken, get_ok_weaken, set_ok_weaken,
      listener_ok_weaken, dirty_ok_weaken.
Qed.

End Weaken.

Lemma policy_le_refl pol : policy_le pol pol.
Proof. by split_and!. Qed.

(** A check that passes, passes with a weaker policy and more depth. *)
Lemma below_weaken cls pol pol' k k' c :
  policy_le pol' pol -> k <= k' ->
  below cls pol k c = true -> below cls pol' k' c = true.
Proof.
  intros Hpol. revert k' c. induction k as [|k IH]; intros k' c Hk; [done|].
  destruct k' as [|k']; [lia|]. simpl.
  apply callable_ok_weaken; [done|]. intros c'. apply IH. lia.
Qed.

(** ** Soundness of one level *)

Section Sound.
Context (cls : gmap string class_attr) {pol : policy}.
Context {Inv : state -> Prop} `{!Stable pol Inv}.
Context {I : Invoke} (B : callable -> bool).
Context (HB : forall c args, B c = true ->
                keeps Inv (invoke c args) (fun _ => True)).

#[local] Abbreviation any := (fun _ => True).

Lemma getattr_keeps name :
  get_ok cls B name = true -> keeps Inv (getattr cls name) any.
Proof.
  unfold get_ok, getattr. intros Hok.
  destruct (cls !! name) as [[p|f|ci|v]|];
    [destruct (fget p); auto with py|..];
    intros s Hs; unfold_m; by destruct (attrs s !! name).
Qed.

Lemma getattr_default_keeps name d :
  get_ok cls B name = true -> keeps Inv (getattr_default cls name d) any.
Proof. intros Hok. unfold getattr_default. auto using getattr_keeps with py. Qed.

(** A write that the instance takes keeps the invariant when [step] shows
    it does. *)
Lemma write_keeps w name v :
  (w = true -> forall s, Inv s -> Inv (set_attr name v s)) ->
  write_ok cls w B name = true -> keeps Inv (setattr cls name v) any.
Proof.
  unfold write_ok, setattr. intros Hw Hok.
  destruct (cls !! name) as [[p|f|ci|u]|];
    [destruct (fset p); eauto with py|..]; apply keeps_modify; auto.
Qed.

Lemma setattr_keeps name v :
  set_ok cls (protected pol) B name = true ->
  keeps Inv (setattr cls name v) any.
Proof.
  apply write_keeps. intros Hn%bool_decide_eq_true s.
  by apply (stable_write (pol:=pol)).
Qed.

(** The listener: with no shadowing attribute the lookup finds the class's
    method, or nothing. *)
Lemma listener_keeps {A} lname args (a : A) :
  listener_ok cls (listeners pol) B lname = true ->
  keeps Inv (let! l := getattr cls lname in
             run! call_value cls l args in ret a) any.
Proof.
  unfold listener_ok. intros [Hl Hok]%andb_prop s Hs.
  apply bool_decide_eq_true in Hl.
  assert (attrs s !! lname = None) as Hnone
    by by eapply (proj1 (Forall_forall _ _) (stable_shadow s Hs)).
  unfold getattr, call_value. destruct (cls !! lname) as [[p|lf|ci|v]|] eqn:Hc;
    try done; unfold_m; rewrite Hnone; [|done].
  rewrite Hc. specialize (HB (CFunc lf) args Hok s Hs).
  by destruct (invoke (CFunc lf) args s).
Qed.

Lemma mark_dirty_keeps auto_dirty :
  dirty_ok cls pol B auto_dirty = true ->
  keeps Inv (mark_dirty cls auto_dirty) any.
Proof.
  unfold dirty_ok, mark_dirty. destruct auto_dirty; simpl; [|auto with py].
  apply write_keeps. intros Hf s. by apply (stable_flag (pol:=pol)).
Qed.

Lemma eval_keeps env e :
  expr_ok cls B e = true -> keeps Inv (eval cls env e) any.
Proof.
  induction e as [v|x|name|e1 IH1 e2 IH2|e1 IH1|e1 IH1 e2 IH2]; simpl;
    rewrite ?andb_true_iff; intros Hok.
  - auto with py.
  - case_match; auto with py.
  - by apply getattr_keeps.
  - destruct Hok. eapply keeps_bind; [eauto|]. intros a _.
    eapply keeps_bind; [eauto|]. intros b _. case_match; auto with py.
  - eapply keeps_bind; [eauto|]. intros a _. case_match; auto with py.
  - destruct Hok. eapply keeps_bind; [eauto|]. intros a _.
    eapply keeps_bind; [eauto|]. intros b _. repeat case_match; auto with py.
Qed.

Lemma exec_keeps env c :
  stmt_ok cls (protected pol) B c = true -> keeps Inv (exec cls env c) any.
Proof.
  induction c as [|e|name e|e c1 IH1 c2 IH2|c1 IH1 c2 IH2|e|e]; simpl;
    rewrite ?andb_true_iff; intros Hok.
  - auto with py.
  - eauto using eval_keeps with py.
  - destruct Hok. eapply keeps_bind; [by apply eval_keeps|]. intros v _.
    eauto using setattr_keeps with py.
  - destruct Hok as [[He H1] H2]. eapply keeps_bind; [by apply eval_keeps|].
    intros t _. case_match; auto.
  - destruct Hok. eapply keeps_bind; [eauto|]. intros [v|] _; auto with py.
  - eapply keeps_bind; [by apply eval_keeps|]. intros v _.
    case_match; [|auto with py].
    apply (keeps_bind _ _ _ any);
      [apply keeps_modify; [apply stable_print|done]|auto with py].
  - eauto using eval_keeps with py.
Qed.

Lemma run_func_keeps f args :
  stmt_ok cls (protected pol) B (f_body f) = true ->
  keeps Inv (run_func cls f args) any.
Proof.
  intros Hok. unfold run_func. case_match; eauto using exec_keeps with py.
Qed.

Lemma setter_plain_keeps field auto_dirty new :
  callable_ok cls pol B (CSetterPlain field auto_dirty) = true ->
  keeps Inv (setter_plain cls field auto_dirty new) any.
Proof.
  unfold callable_ok. rewrite !andb_true_iff. intros [[Hg Hs] Hd].
  unfold setter_plain.
  eapply keeps_bind; [by apply getattr_default_keeps|]. intros cur _.
  case_match; [|auto with py].
  eapply keeps_bind; [by apply setattr_keeps|]. intros _ _.
  eapply keeps_bind; [by apply mark_dirty_keeps|]. auto with py.
Qed.

Lemma setter_listener_keeps field lname auto_dirty new :
  callable_ok cls pol B (CSetterListener field lname auto_dirty) = true ->
  keeps Inv (setter_listener cls field lname auto_dirty new) any.
Proof.
  unfold callable_ok. rewrite !andb_true_iff. intros [[[Hg Hs] Hd] Hl].
  unfold setter_listener.
  eapply keeps_bind; [by apply getattr_default_keeps|]. intros old _.
  case_match; [|auto with py].
  eapply keeps_bind; [by apply setattr_keeps|]. intros _ _.
  eapply keeps_bind; [by apply mark_dirty_keeps|]. intros _ _.
  by apply listener_keeps.
Qed.

Lemma getter_lambda_keeps field f :
  callable_ok cls pol B (CGetter field f) = true ->
  keeps Inv (getter_lambda cls field f) any.
Proof.
  unfold callable_ok. rewrite !andb_true_iff. intros [Hf Hg].
  unfold getter_lambda.
  eapply keeps_bind; [by apply HB|]. intros d _.
  by apply getattr_default_keeps.
Qed.

Lemma run_callable_keeps c args :
  callable_ok cls pol B c = true -> keeps Inv (run_callable cls c args) any.
Proof.
  intros Hok. destruct c as [f|field f|field lname b|field b];
    [by apply run_func_keeps|destruct args as [|a [|a' args]]..];
    cbn [run_callable];
    auto using getter_lambda_keeps, setter_listener_keeps,
      setter_plain_keeps with py.
Qed.

End Sound.

(** ** Soundness *)

Section Below.
Context (cls : gmap string class_attr) (pol : policy).
Context (Inv : state -> Prop) `{!Stable pol Inv}.
Implicit Types (s : state) (k : nat).

(** A callable that passes the check, run with the fuel of its depth,
    terminates and keeps every invariant that is stable for the policy. *)
Lemma below_keeps k c args :
  below cls pol k c = true ->
  keeps Inv (invoke_fuel cls k c args) (fun _ => True).
Proof.
  revert c args. induction k as [|k IH]; intros c args; [done|].
  apply (run_callable_keeps cls (below cls pol k) IH).
Qed.

Lemma assign_below k name v :
  set_ok cls (protected pol) (below cls pol k) name = true ->
  keeps Inv (assign cls k name v) (fun _ => True).
Proof.
  apply (setattr_keeps cls (pol:=pol)). intros c args. apply below_keeps.
Qed.

Lemma read_below k name :
  get_ok cls (below cls pol k) name = true ->
  keeps Inv (read cls k name) (fun _ => True).
Proof. apply getattr_keeps. intros c args. apply below_keeps. Qed.

Lemma script_below k (names : list string) (l : list (string * value)) :
  Forall (fun name =>
            set_ok cls (protected pol) (below cls pol k) name = true) names ->
  l.*1 ⊆ names ->
  keeps Inv (for_each (fun nv => assign cls k nv.1 nv.2) l) (fun _ => True).
Proof.
  intros Hn Hl. apply keeps_for_each, Forall_forall. intros [name v] Hin.
  apply assign_below. apply (proj1 (Forall_forall _ _) Hn), Hl.
  apply list_elem_of_fmap. by exists (name, v).
Qed.

End Below.

Section Theorems.
Context (cls : gmap string class_attr) (L : list string).
Implicit Types (s : state) (k : nat).

(** A bounded callable, run with the fuel of its bound, terminates and keeps
    the instance free of shadowing attributes. *)
Lemma bounded_keeps k c args :
  bounded cls L k c = true ->
  keeps (no_shadow L) (invoke_fuel cls k c args) (fun _ => True).
Proof. apply (below_keeps cls (guard L) (no_shadow L)). Qed.

Lemma assign_keeps k name v :
  set_ok cls L (bounded cls L k) name = true ->
  keeps (no_shadow L) (assign cls k name v) (fun _ => True).
Proof. apply (assign_below cls (guard L) (no_shadow L)). Qed.

Lemma read_keeps k name :
  get_ok cls (bounded cls L k) name = true ->
  keeps (no_shadow L) (read cls k name) (fun _ => True).
Proof. apply (read_below cls (guard L) (no_shadow L)). Qed.

Lemma assignments_keeps k (names : list string) (l : list (string * value)) :
  Forall (fun name => set_ok cls L (bounded cls L k) name = true) names ->
  l.*1 ⊆ names ->
  keeps (no_shadow L) (for_each (fun nv => assign cls k nv.1 nv.2) l)
    (fun _ => True).
Proof. apply (script_below cls (guard L) (no_shadow L)). Qed.

(** C16. Termination. When the calls below the setters of [names] nest at
    most [k] deep in the class ([set_ok] with [bounded]) and the instance
    does not shadow a listener, every script of assignments to these names,
    with any values, ends with fuel [k]: it returns or raises, and the
    instance still shadows no listener. *)
Theorem assignments_terminate k names (l : list (string * value)) s :
  Forall (fun name => set_ok cls L (bounded cls L k) name = true) names ->
  l.*1 ⊆ names ->
  no_shadow L s ->
  terminated (for_each (fun nv => assign cls k nv.1 nv.2) l s) = true /\
  forall s',
    final_state (for_each (fun nv => assign cls k nv.1 nv.2) l s) = Some s' ->
    no_shadow L s'.
Proof.
  intros Hn Hl Hs. eapply keeps_terminated; [|done].
  by eapply assignments_keeps.
Qed.

End Theorems.
