(* ===== verification/Frames.v ===== *)
(** * Frames: the attributes an assignment leaves alone.

    A setter writes the backing field and the dirty flag, then calls the
    listener (source lines 76-79), whose body may assign other properties,
    whose setters call listeners of their own. Two policies for the check
    of [Termination] say what all these calls leave alone.

    [frame L X] protects the attributes [X] of the instance: under it the
    check is sound for the invariant [framed_inv], that the listeners are
    not shadowed and the attributes [X] are what they were ([unchanged], a
    modifies clause read from the other side). The theorems are the frame
    of a script of assignments, and what it gives for one property with a
    listener: the backing field holds the value assigned also when the
    listener raises, so that assigning the value again is silent, and a
    script of assignments is the program [chain], which passes the last
    value assigned to the listener ([notify], line 79) without reading the
    instance.

    [keep_flag L] protects [_is_dirty] from every write but the setters'
    own, which write [True] (lines 78 and 85): under it the check is sound
    for the invariant that the flag is set, which is the specification's
    "set, never cleared, by this utility". *)

From stdpp Require Import base list strings gmap.
From S2P Require Import Prelude Values Objects Properties Interp Termination.

(** ** Definitions *)

(** The attributes [X] of the instance are in [s] what they are in [s0]. *)
Definition unchanged (X : list string) (s0 s : state) : Prop :=
  forall a, a ∈ X -> attrs s !! a = attrs s0 !! a.

(** The invariant of the frame, from the state [s0] on. *)
Definition framed_inv (L X : list string) (s0 s : state) : Prop :=
  no_shadow L s /\ unchanged X s0 s.

(** No body writes an attribute of the instance named in [X] or like a
    listener, and no setter sets the dirty flag when [X] names it. *)
Definition frame (L X : list string) : policy :=
  Policy (X ++ L) (bool_decide ("_is_dirty" ∉ X ++ L)) L.

Abbreviation framed cls L X := (below cls (frame L X)).

(** The invariant of the flag: it is set. *)
Definition flag_inv (L : list string) (s : state) : Prop :=
  no_shadow L s /\ is_dirty s.

(** No body writes the dirty flag; the setters may set it. *)
Definition keep_flag (L : list string) : policy :=
  Policy ("_is_dirty" :: L) (bool_decide ("_is_dirty" ∉ L)) L.

Abbreviation flag_kept cls L := (below cls (keep_flag L)).

(** ** Lemmas: the invariants *)

#[export] Instance unchanged_equivalence X : Equivalence (unchanged X).
Proof.
  split.
  - by intros s a Ha.
  - intros s s' H a Ha. symmetry. by apply H.
  - intros s1 s2 s3 H12 H23 a Ha. by rewrite H23, H12.
Qed.

Lemma unchanged_set_attr X name v s0 s :
  name ∉ X -> unchanged X s0 s -> unchanged X s0 (set_attr name v s).
Proof.
  intros Hn H a Ha. rewrite set_attr_lookup_ne; [by apply H|]. by intros ->.
Qed.

Lemma unchanged_weaken X X' s0 s :
  X' ⊆ X -> unchanged X s0 s -> unchanged X' s0 s.
Proof. intros Hsub H a Ha. apply H, Hsub, Ha. Qed.

Lemma no_shadow_set_dirty L b s :
  "_is_dirty" ∉ L -> no_shadow L s -> no_shadow L (set_dirty b s).
Proof. intros Hd Hs. destruct b; [by apply no_shadow_set_attr|done]. Qed.

Lemma framed_inv_set_attr L X s0 name v s :
  name ∉ X ++ L -> framed_inv L X s0 s -> framed_inv L X s0 (set_attr name v s).
Proof.
  intros [Hx Hl]%not_elem_of_app [Hs Hu].
  split; [by apply no_shadow_set_attr|by apply unchanged_set_attr].
Qed.

#[export] Instance framed_stable L X s0 :
  Stable (frame L X) (framed_inv L X s0).
Proof.
  split; [by intros s [Hs _]|apply framed_inv_set_attr| |by intros l s [Hs Hu]].
  intros s Hd%bool_decide_eq_true. by apply framed_inv_set_attr.
Qed.

Lemma flag_inv_set_attr L name v s :
  name ∉ "_is_dirty" :: L -> flag_inv L s -> flag_inv L (set_attr name v s).
Proof.
  intros [Hd Hl]%not_elem_of_cons [Hs Hf].
  split; [by apply no_shadow_set_attr|].
  unfold is_dirty. by rewrite set_attr_lookup_ne.
Qed.

#[export] Instance flag_stable L : Stable (keep_flag L) (flag_inv L).
Proof.
  split; [by intros s [Hs _]|apply flag_inv_set_attr| |by intros l s [Hs Hf]].
  intros s Hd%bool_decide_eq_true [Hs Hf].
  split; [by apply no_shadow_set_attr|apply set_attr_lookup].
Qed.

Lemma guard_le_frame L X : policy_le (guard L) (frame L X).
Proof.
  split_and!; [set_solver| |done]. simpl. rewrite !bool_decide_eq_true.
  set_solver.
Qed.

Lemma guard_le_keep_flag L : policy_le (guard L) (keep_flag L).
Proof. split_and!; [set_solver|done|done]. Qed.

(** ** Soundness *)

Section Theorems.
Context (cls : gmap string class_attr) (L X : list string).
Implicit Types (s : state) (k : nat).

#[local] Abbreviation any := (fun _ => True).

(** What the invariant gives of a run from a state that shadows no
    listener. *)
Lemma framed_inv_frame {A} (m : Py A) s :
  keeps (framed_inv L X s) m any ->
  no_shadow L s ->
  terminated (m s) = true /\
  forall s', final_state (m s) = Some s' -> unchanged X s s'.
Proof.
  intros Hk Hs. destruct (keeps_terminated _ _ _ s Hk) as [Ht Hf]; [by split|].
  split; [done|]. intros s' H. by apply Hf.
Qed.

(** A callable that passes the frame check passes the depth check. *)
Lemma framed_bounded k c :
  framed cls L X k c = true -> bounded cls L k c = true.
Proof. by apply below_weaken; [apply guard_le_frame|]. Qed.

Lemma framed_keeps s0 k c args :
  framed cls L X k c = true ->
  keeps (framed_inv L X s0) (invoke_fuel cls k c args) any.
Proof. apply (below_keeps cls (frame L X) (framed_inv L X s0)). Qed.

(** C17. Frame of a script. When the setters of [names] pass the frame
    check for [X] at depth [k], every script of assignments to these names,
    with any values, run on an instance that shadows no listener, ends, and
    the attributes [X] of the instance are in the end what they were at the
    start: whatever the listeners do, however they nest, and whether the
    script returns or raises. *)
Theorem assignments_frame k names (l : list (string * value)) s :
  Forall (fun name =>
            set_ok cls (X ++ L) (framed cls L X k) name = true) names ->
  l.*1 ⊆ names ->
  no_shadow L s ->
  terminated (for_each (fun nv => assign cls k nv.1 nv.2) l s) = true /\
  forall s',
    final_state (for_each (fun nv => assign cls k nv.1 nv.2) l s) = Some s' ->
    unchanged X s s'.
Proof.
  intros Hn Hl. apply framed_inv_frame.
  by apply (script_below cls (frame L X) (framed_inv L X s) k names).
Qed.

(** A read through a getter that passes the check ends and leaves [X] as it
    was: the default function may write the instance, but not there. *)
Theorem read_frame k name s :
  get_ok cls (framed cls L X k) name = true ->
  no_shadow L s ->
  terminated (read cls k name s) = true /\
  forall s', final_state (read cls k name s) = Some s' -> unchanged X s s'.
Proof.
  intros Hok. apply framed_inv_frame.
  by apply (read_below cls (frame L X) (framed_inv L X s)).
Qed.

(** C18. The dirty flag is never cleared. When no method body below the
    setters of [names] writes [_is_dirty] (the setters themselves may set
    it), a flag that is set stays set through every script of assignments
    to these names, with any values and any listeners, whether the script
    returns or raises. *)
Theorem dirty_never_cleared k names (l : list (string * value)) s :
  Forall (fun name =>
            set_ok cls ("_is_dirty" :: L) (flag_kept cls L k) name = true)
    names ->
  l.*1 ⊆ names ->
  no_shadow L s ->
  is_dirty s ->
  terminated (for_each (fun nv => assign cls k nv.1 nv.2) l s) = true /\
  forall s',
    final_state (for_each (fun nv => assign cls k nv.1 nv.2) l s) = Some s' ->
    is_dirty s'.
Proof.
  intros Hn Hl Hs Hd.
  destruct (keeps_terminated (flag_inv L) _ _ s
              (script_below cls (keep_flag L) (flag_inv L) k names l Hn Hl))
    as [Ht Hf]; [done|].
  split; [done|]. intros s' H. by apply Hf.
Qed.

End Theorems.

(** ** One property with a listener *)

Section Stores.
Context {Scope : Type} (meta : properties Scope).
Context (cls : gmap string class_attr) (L : list string).
Context (f : func) (p : property) (listener : value) (auto_dirty : bool).
Context (Hbound : cls !! f_name f = Some (AProperty p)).
Context (Hfield : cls !! field_of f = None).
Context (Hdirty : plain_attr cls "_is_dirty" = true).
Context (Hp : prop meta false listener auto_dirty f = inr p).
Context (Hl : py_truthy listener = true).
Context (HfL : field_of f ∉ L) (HdL : "_is_dirty" ∉ L).
Implicit Types (s : state) (new : value) (k : nat).

#[local] Abbreviation written new s :=
  (set_dirty (_auto_dirty meta || auto_dirty) (set_attr (field_of f) new s)).

(** Line 79, with call depth [k]: the listener is looked up and called. *)
Definition notify (k : nat) (old new : value) : Py value :=
  let! l := @getattr cls (invoke_fuel cls k) (listener_name_of listener) in
  run! @call_value cls (invoke_fuel cls k) l [VStr (field_of f); old; new] in
  ret VNone.

Lemma assign_changed_unfold k new s :
  py_ne (current (field_of f) s) new = true ->
  assign cls (S k) (f_name f) new s =
  (run! notify k (current (field_of f) s) new in ret tt) (written new s).
Proof.
  intros Hne. pose proof (prop_setter _ _ _ _ _ Hp) as Hc. rewrite Hl in Hc.
  rewrite (assign_unfold _ _ _ Hbound _ _ _ _ Hc). simpl. unfold bind at 1.
  rewrite setter_listener_unfold, Hne by done.
  erewrite bind_done by by apply mark_dirty_plain. done.
Qed.

(** An assignment that changes the value, followed by [K]. *)
Lemma assign_changed_then {A} (K : Py A) k new s :
  py_ne (current (field_of f) s) new = true ->
  (run! assign cls (S k) (f_name f) new in K) s =
  (run! notify k (current (field_of f) s) new in K) (written new s).
Proof.
  intros Hne. unfold bind at 1. rewrite assign_changed_unfold by done.
  unfold bind. by destruct (notify _ _ _ _).
Qed.

(** The listener call keeps every invariant that is stable for a policy
    whose check the listener passes. *)
Lemma notify_keeps pol Inv `{!Stable pol Inv} k old new :
  listeners pol = L ->
  listener_ok cls L (below cls pol k) (listener_name_of listener) = true ->
  keeps Inv (notify k old new) (fun _ => True).
Proof.
  intros <- Hok.
  apply (listener_keeps cls (below cls pol k) (below_keeps cls pol Inv k)).
  done.
Qed.

(** The outcome of an assignment that changes the value, for a listener
    that passes the check of a policy: the invariant holds after the
    listener as it holds after the setter's writes. *)
Lemma assign_changed_keeps pol Inv `{!Stable pol Inv} k new s :
  listeners pol = L ->
  listener_ok cls L (below cls pol k) (listener_name_of listener) = true ->
  py_ne (current (field_of f) s) new = true ->
  Inv (written new s) ->
  match assign cls (S k) (f_name f) new s with
  | Done _ s' | Raised _ s' => Inv s'
  | OutOfFuel => False
  | Unmodelled => True
  end.
Proof.
  intros HL Hok Hne Hinv. rewrite assign_changed_unfold by done.
  pose proof (notify_keeps pol Inv k (current (field_of f) s) new HL Hok
                _ Hinv) as H.
  unfold bind at 1. case_match; try done. by destruct H.
Qed.

Section Field.
Context (Hfd : field_of f <> "_is_dirty").
Context (k : nat).
Context (Hok : listener_ok cls L (framed cls L [field_of f] k)
                 (listener_name_of listener) = true).

(** The listener ran on an instance that holds the new value, and left it
    there. *)
Lemma assign_changed_outcome new s :
  no_shadow L s ->
  py_ne (current (field_of f) s) new = true ->
  match assign cls (S k) (f_name f) new s with
  | Done _ s' | Raised _ s' =>
      no_shadow L s' /\ attrs s' !! field_of f = Some new
  | OutOfFuel => False
  | Unmodelled => True
  end.
Proof.
  intros Hs Hne.
  assert (attrs (written new s) !! field_of f = Some new) as Hnew
    by by rewrite lookup_set_dirty, set_attr_lookup.
  assert (framed_inv L [field_of f] (written new s) (written new s)) as Hinv
    by by split; [apply no_shadow_set_dirty, no_shadow_set_attr|].
  pose proof (assign_changed_keeps (frame L [field_of f]) _ k new s
                eq_refl Hok Hne Hinv) as H.
  destruct (assign cls (S k) (f_name f) new s); try done;
    destruct H as [Hs' Hu]; (split; [done|]);
    rewrite <-Hnew; apply Hu; set_solver.
Qed.

(** The write is not undone. When the listener and the calls below it
    write no attribute named like the backing field, an assignment that
    changes the value ends, and the backing field then holds the value
    assigned, whether the listener returned or raised. *)
Theorem assign_stores new s :
  no_shadow L s ->
  py_ne (current (field_of f) s) new = true ->
  terminated (assign cls (S k) (f_name f) new s) = true /\
  forall s', final_state (assign cls (S k) (f_name f) new s) = Some s' ->
    attrs s' !! field_of f = Some new.
Proof.
  intros Hs Hne. pose proof (assign_changed_outcome new s Hs Hne) as H.
  destruct (assign cls (S k) (f_name f) new s) as [u s1|e s1| |]; simpl;
    [destruct H as [_ H]..|done|done]; by split; [|intros s' [= <-]].
Qed.

(** C19. The same value twice notifies once. When the listener and the
    calls below it write no attribute named like the backing field, and the
    value is not a NaN, assigning it again in the state an assignment ended
    in returns without writing, setting the flag or calling the listener.
    That state may be the one of an exception: a notification that failed
    is not repeated, the value was written before the listener ran. *)
Theorem assign_again_silent new s s' :
  no_shadow L s ->
  is_nan new = false ->
  final_state (assign cls (S k) (f_name f) new s) = Some s' ->
  assign cls (S k) (f_name f) new s' = Done tt s'.
Proof.
  intros Hs Hnan Hr. pose proof (prop_setter _ _ _ _ _ Hp) as Hc.
  rewrite Hl in Hc. eapply assign_setter_listener_equal; [done..|].
  destruct (py_ne (current (field_of f) s) new) eqn:Hne.
  - pose proof (assign_changed_outcome new s Hs Hne) as H.
    assert (attrs s' !! field_of f = Some new) as Hnew
      by by destruct (assign _ _ _ _ s); simplify_eq/=; destruct H.
    unfold current. rewrite Hnew. by apply py_ne_same.
  - rewrite (assign_setter_listener_equal _ _ _ Hbound Hfield _ _ _ _ _ Hc Hne)
      in Hr. by simplify_eq/=.
Qed.

(** The assignments [inst.name = v] for the values of [l], as the
    specification has them: the old value is the last value assigned, and
    is not read from the instance. *)
Fixpoint chain (old : value) (l : list value) : Py unit :=
  match l with
  | [] => ret tt
  | new :: l' =>
      if py_ne old new then
        run! modify (fun s => written new s) in
        run! notify k old new in
        chain new l'
      else chain old l'
  end.

(** C20. Notifications form a chain. A script of assignments to one
    property, run by one thread, is the program [chain]: the listener is
    called for each value that differs from the last one assigned (the
    first time, from the value of the backing field), with that value as
    the old one, on an instance where the new value and the flag are
    written; the script ends where the listener first raises. What the
    setter reads from the instance is what the previous assignment
    stored. *)
Theorem script_is_chain l s :
  no_shadow L s ->
  for_each (fun new => assign cls (S k) (f_name f) new) l s =
  chain (current (field_of f) s) l s.
Proof.
  revert s. induction l as [|new l IH]; intros s Hs; [done|]. simpl.
  pose proof (prop_setter _ _ _ _ _ Hp) as Hc. rewrite Hl in Hc.
  destruct (py_ne (current (field_of f) s) new) eqn:Hne.
  - rewrite assign_changed_then by done.
    change ((run! notify k (current (field_of f) s) new in
             for_each (fun new => assign cls (S k) (f_name f) new) l)
              (written new s) =
            (run! notify k (current (field_of f) s) new in chain new l)
              (written new s)).
    eapply (agree_bind (framed_inv L [field_of f] (written new s)));
      [apply agree_refl
      |by apply (notify_keeps (frame L [field_of f])
                   (framed_inv L [field_of f] (written new s)))| |].
    + intros _ _ s' [Hs' Hu]. rewrite IH by done. unfold current.
      by rewrite Hu, lookup_set_dirty, set_attr_lookup by set_solver.
    + by split; [apply no_shadow_set_dirty, no_shadow_set_attr|].
  - unfold bind.
    by rewrite (assign_setter_listener_equal _ _ _ Hbound Hfield _ _ _ _ _ Hc Hne),
      IH.
Qed.

End Field.

(** The flag is set after a change. With auto-dirty on, by the builder or by
    the declaration, and a listener below which no method body writes
    [_is_dirty], an assignment that changes the value ends with the flag
    set, whether the listener returned or raised. *)
Theorem assign_sets_flag k new s :
  _auto_dirty meta || auto_dirty = true ->
  listener_ok cls L (flag_kept cls L k) (listener_name_of listener) = true ->
  no_shadow L s ->
  py_ne (current (field_of f) s) new = true ->
  terminated (assign cls (S k) (f_name f) new s) = true /\
  forall s', final_state (assign cls (S k) (f_name f) new s) = Some s' ->
    is_dirty s'.
Proof.
  intros Hauto Hok Hs Hne.
  assert (flag_inv L (written new s)) as Hinv.
  { split; [by apply no_shadow_set_dirty, no_shadow_set_attr|].
    rewrite Hauto. apply set_dirty_is_dirty. }
  pose proof (assign_changed_keeps (keep_flag L) _ k new s
                eq_refl Hok Hne Hinv) as H.
  destruct (assign cls (S k) (f_name f) new s) as [u s1|e s1| |]; simpl;
    [destruct H as [_ H]..|done|done]; by split; [|intros s' [= <-]].
Qed.

End Stores.
