(* ===== verification/Inheritance.v ===== *)
(** * Inheritance: a class and its ancestors.

    Python looks a name up on the type of an instance along the method
    resolution order of the class, the class itself first. The rest of the
    development takes a class as one namespace: [flatten] is that namespace
    for a linearised hierarchy, and [flatten_lookup] shows that a lookup in
    it is the lookup along the order ([defines]).

    [subclass body base] is [class Sub(Base): body]. The setters look the
    backing field, the dirty flag and the listener up when they run (source
    lines 74-79), so what a subclass defines under these names is what an
    inherited property uses. [same_below] checks that a class and its
    extension agree on every name the calls below a callable look up;
    with the call-depth check of [Termination] it makes the extension
    conservative: the callable does in the extension what it does in the
    class ([extension_conservative]). *)

From stdpp Require Import base list strings gmap.
From S2P Require Import Prelude Values Objects Properties Interp Termination.

(** ** Lookup along the method resolution order *)

(** The first class of the order that defines [name]. *)
Fixpoint mro_lookup (l : list (gmap string class_attr)) (name : string)
  : option class_attr :=
  match l with
  | [] => None
  | ns :: l' =>
      match ns !! name with
      | Some a => Some a
      | None => mro_lookup l' name
      end
  end.

(** The namespace of a linearised hierarchy: a class hides its ancestors. *)
Definition flatten (l : list (gmap string class_attr))
  : gmap string class_attr :=
  foldr (fun ns acc => ns ∪ acc) ∅ l.

(** [class Sub(Base): body], for the flattened [base]. *)
Definition subclass (body base : gmap string class_attr)
  : gmap string class_attr :=
  body ∪ base.

(** The specification of the lookup: [name] is defined as [a] by the first
    class of the order, or inherited from the rest. *)
Inductive defines : list (gmap string class_attr) -> string -> class_attr
    -> Prop :=
| defines_here ns l name a :
    ns !! name = Some a -> defines (ns :: l) name a
| defines_inherited ns l name a :
    ns !! name = None -> defines l name a -> defines (ns :: l) name a.

(** ** Agreement of a class and its extension *)

Section Same.
Context (cls cls' : gmap string class_attr).

(** The two classes bind [name] to the same attribute, or both to none. *)
Definition same_at (name : string) : bool :=
  bool_decide (cls' !! name = cls !! name).

Section Level.
Context (B : callable -> bool).

Definition get_same (name : string) : bool :=
  same_at name &&
  match cls !! name with
  | Some (AProperty p) => from_option B true (fget p)
  | _ => true
  end.

Definition set_same (name : string) : bool :=
  same_at name &&
  match cls !! name with
  | Some (AProperty p) => from_option B true (fset p)
  | _ => true
  end.

Definition listener_same (lname : string) : bool :=
  same_at lname &&
  match cls !! lname with
  | Some (AFunction lf) => B (CFunc lf)
  | _ => true
  end.

Fixpoint expr_same (e : expr) : bool :=
  match e with
  | EConst _ | EVar _ => true
  | EAttr name => get_same name
  | EStr e1 => expr_same e1
  | EGt e1 e2 | ECat e1 e2 => expr_same e1 && expr_same e2
  end.

Fixpoint stmt_same (c : stmt) : bool :=
  match c with
  | SPass => true
  | SExpr e | SPrint e | SReturn e => expr_same e
  | SSetAttr name e => expr_same e && set_same name
  | SIf e c1 c2 => expr_same e && stmt_same c1 && stmt_same c2
  | SSeq c1 c2 => stmt_same c1 && stmt_same c2
  end.

Definition dirty_same (auto_dirty : bool) : bool :=
  if auto_dirty then set_same "_is_dirty" else true.

(** One level: the names the body of [c] looks up, its callees by [B]. *)
Definition callable_same (c : callable) : bool :=
  match c with
  | CFunc f => stmt_same (f_body f)
  | CGetter field f => B (CFunc f) && get_same field
  | CSetterPlain field auto_dirty =>
      get_same field && set_same field && dirty_same auto_dirty
  | CSetterListener field lname auto_dirty =>
      get_same field && set_same field && dirty_same auto_dirty &&
      listener_same lname
  end.

End Level.

(** The classes agree on the names looked up by [c] and by the calls below
    it, down to depth [k]. *)
Fixpoint same_below (k : nat) (c : callable) : bool :=
  match k with
  | O => true
  | S k' => callable_same (same_below k') c
  end.

End Same.

(** ** Lemmas: lookup *)

Lemma flatten_cons ns l : flatten (ns :: l) = subclass ns (flatten l).
Proof. done. Qed.

Lemma subclass_lookup body base name :
  subclass body base !! name =
  match body !! name with Some a => Some a | None => base !! name end.
Proof.
  unfold subclass. destruct (body !! name) as [a|] eqn:Hb.
  - by apply lookup_union_Some_l.
  - by rewrite lookup_union_r.
Qed.

Lemma subclass_lookup_inherited body base name :
  body !! name = None -> subclass body base !! name = base !! name.
Proof. intros H. by rewrite subclass_lookup, H. Qed.

Lemma subclass_lookup_overridden body base name a :
  body !! name = Some a -> subclass body base !! name = Some a.
Proof. intros H. by rewrite subclass_lookup, H. Qed.

Lemma flatten_mro_lookup l name : flatten l !! name = mro_lookup l name.
Proof.
  induction l as [|ns l IH]; [done|].
  rewrite flatten_cons, subclass_lookup, IH. done.
Qed.

Lemma mro_lookup_defines l name a :
  mro_lookup l name = Some a <-> defines l name a.
Proof.
  split.
  - induction l as [|ns l IH]; [done|]. simpl.
    destruct (ns !! name) as [b|] eqn:Hn.
    + intros [= ->]. by apply defines_here.
    + intros H. apply defines_inherited; auto.
  - induction 1 as [ns l name a Hn|ns l name a Hn _ IH]; simpl; by rewrite Hn.
Qed.

Lemma subclass_plain_attr body base name :
  plain_attr body name = true -> plain_attr base name = true ->
  plain_attr (subclass body base) name = true.
Proof.
  unfold plain_attr. rewrite subclass_lookup. by destruct (body !! name).
Qed.

(** ** Lemmas: one level of agreement

    [I] runs the callables of [cls] and [I'] those of [cls']; the callees
    that [B] accepts keep the invariant of [Termination] and agree. *)

Section Level.
Context (cls cls' : gmap string class_attr) (L : list string).
Context (I I' : Invoke) (B Bs : callable -> bool).
Context (HB : forall c args, B c = true ->
                keeps (no_shadow L) (@invoke I c args) (fun _ => True)).
Context (HA : forall c args, B c = true -> Bs c = true ->
                agree (no_shadow L) (@invoke I' c args) (@invoke I c args)).

#[local] Abbreviation Inv := (no_shadow L).
#[local] Abbreviation any := (fun _ => True).
#[local] Abbreviation ok := (callable_ok cls (guard L) B).
#[local] Abbreviation same := (callable_same cls cls' Bs).

Lemma same_at_eq name : same_at cls cls' name = true -> cls' !! name = cls !! name.
Proof. apply bool_decide_eq_true. Qed.

Lemma getattr_agree name :
  get_ok cls B name = true -> get_same cls cls' Bs name = true ->
  agree Inv (@getattr cls' I' name) (@getattr cls I name).
Proof.
  unfold get_ok, get_same, getattr. intros Hok [Heq%same_at_eq Hs]%andb_prop.
  rewrite Heq. destruct (cls !! name) as [[p|f|ci|v]|]; auto with py.
  destruct (fget p); [by apply HA|auto with py].
Qed.

Lemma getattr_default_agree name d :
  get_ok cls B name = true -> get_same cls cls' Bs name = true ->
  agree Inv (@getattr_default cls' I' name d) (@getattr_default cls I name d).
Proof.
  intros Hok Hs. unfold getattr_default.
  eapply agree_try_except; [by apply getattr_agree| |auto with py].
  eapply getattr_keeps; [apply HB|done].
Qed.

Lemma setattr_agree name v :
  set_ok cls L B name = true -> set_same cls cls' Bs name = true ->
  agree Inv (@setattr cls' I' name v) (@setattr cls I name v).
Proof.
  unfold set_ok, write_ok, set_same, setattr.
  intros Hok [Heq%same_at_eq Hs]%andb_prop.
  rewrite Heq. destruct (cls !! name) as [[p|f|ci|w]|]; auto with py.
  destruct (fset p); [|auto with py].
  eapply agree_bind; [by apply HA|by apply HB|auto with py].
Qed.

Lemma mark_dirty_agree auto_dirty :
  dirty_ok cls (guard L) B auto_dirty = true ->
  dirty_same cls cls' Bs auto_dirty = true ->
  agree Inv (@mark_dirty cls' I' auto_dirty) (@mark_dirty cls I auto_dirty).
Proof.
  unfold dirty_ok, dirty_same, mark_dirty. destruct auto_dirty; simpl;
    [apply setattr_agree|auto with py].
Qed.

(** The listener: while the instance has no attribute of its name, the
    lookup finds what the class binds, the same in both classes. *)
Lemma listener_agree {A} lname args (a : A) :
  listener_ok cls L B lname = true ->
  listener_same cls cls' Bs lname = true ->
  agree Inv (let! l := @getattr cls' I' lname in
             run! @call_value cls' I' l args in ret a)
            (let! l := @getattr cls I lname in
             run! @call_value cls I l args in ret a).
Proof.
  unfold listener_ok, listener_same.
  intros [Hl Hok]%andb_prop [Heq%same_at_eq Hs]%andb_prop s Hinv.
  apply bool_decide_eq_true in Hl.
  assert (attrs s !! lname = None) as Hnone
    by by eapply (proj1 (Forall_forall _ _) Hinv).
  unfold getattr, call_value. rewrite Heq.
  destruct (cls !! lname) as [[p|lf|ci|v]|] eqn:Hc; try done;
    unfold_m; rewrite Hnone; [|done].
  rewrite Heq, Hc. by rewrite (HA (CFunc lf) args Hok Hs s Hinv).
Qed.

Lemma eval_agree env e :
  expr_ok cls B e = true -> expr_same cls cls' Bs e = true ->
  agree Inv (@eval cls' I' env e) (@eval cls I env e).
Proof.
  induction e as [v|x|name|e1 IH1 e2 IH2|e1 IH1|e1 IH1 e2 IH2]; simpl;
    rewrite ?andb_true_iff; intros Hok Hs; auto using getattr_agree with py.
  - destruct Hok, Hs. eapply agree_bind;
      [eauto|by apply (eval_keeps cls B HB)|]. intros a _.
    eapply agree_bind;
      [eauto|by apply (eval_keeps cls B HB)|auto with py].
  - eapply agree_bind;
      [eauto|by apply (eval_keeps cls B HB)|auto with py].
  - destruct Hok, Hs. eapply agree_bind;
      [eauto|by apply (eval_keeps cls B HB)|]. intros a _.
    eapply agree_bind;
      [eauto|by apply (eval_keeps cls B HB)|auto with py].
Qed.

Lemma exec_agree env c :
  stmt_ok cls L B c = true -> stmt_same cls cls' Bs c = true ->
  agree Inv (@exec cls' I' env c) (@exec cls I env c).
Proof.
  induction c as [|e|name e|e c1 IH1 c2 IH2|c1 IH1 c2 IH2|e|e]; simpl;
    rewrite ?andb_true_iff; intros Hok Hs; auto with py.
  - eapply agree_bind;
      [by apply eval_agree|by apply (eval_keeps cls B HB)|auto with py].
  - destruct Hok, Hs. eapply agree_bind;
      [by apply eval_agree|by apply (eval_keeps cls B HB)|].
    intros v _. eapply agree_bind;
      [by apply setattr_agree|by apply (setattr_keeps cls B HB)|
       auto with py].
  - destruct Hok as [[? ?] ?], Hs as [[? ?] ?]. eapply agree_bind;
      [by apply eval_agree|by apply (eval_keeps cls B HB)|].
    intros t _. destruct (py_truthy t); auto.
  - destruct Hok, Hs. eapply agree_bind;
      [eauto|by apply (exec_keeps cls B HB)|].
    intros [v|] _; auto with py.
  - eapply agree_bind;
      [by apply eval_agree|by apply (eval_keeps cls B HB)|auto with py].
  - eapply agree_bind;
      [by apply eval_agree|by apply (eval_keeps cls B HB)|auto with py].
Qed.

Lemma run_func_agree f args :
  stmt_ok cls L B (f_body f) = true ->
  stmt_same cls cls' Bs (f_body f) = true ->
  agree Inv (@run_func cls' I' f args) (@run_func cls I f args).
Proof.
  intros Hok Hs. unfold run_func. destruct (bind_args _ _); [|auto with py].
  eapply agree_bind;
    [by apply exec_agree|by apply (exec_keeps cls B HB)|auto with py].
Qed.

Lemma setter_plain_agree field auto_dirty new :
  ok (CSetterPlain field auto_dirty) = true ->
  same (CSetterPlain field auto_dirty) = true ->
  agree Inv (@setter_plain cls' I' field auto_dirty new)
            (@setter_plain cls I field auto_dirty new).
Proof.
  unfold callable_ok, callable_same. rewrite !andb_true_iff.
  intros [[Hg Hs] Hd] [[Hg' Hs'] Hd']. unfold setter_plain.
  eapply agree_bind; [by apply getattr_default_agree|
    by apply (getattr_default_keeps cls B HB)|].
  intros cur _. destruct (py_ne cur new); [|auto with py].
  eapply agree_bind; [by apply setattr_agree|
    by apply (setattr_keeps cls B HB)|].
  intros _ _. eapply agree_bind; [by apply mark_dirty_agree|
    by apply (mark_dirty_keeps cls B HB)|auto with py].
Qed.

Lemma setter_listener_agree field lname auto_dirty new :
  ok (CSetterListener field lname auto_dirty) = true ->
  same (CSetterListener field lname auto_dirty) = true ->
  agree Inv (@setter_listener cls' I' field lname auto_dirty new)
            (@setter_listener cls I field lname auto_dirty new).
Proof.
  unfold callable_ok, callable_same. rewrite !andb_true_iff.
  intros [[[Hg Hs] Hd] Hl] [[[Hg' Hs'] Hd'] Hl']. unfold setter_listener.
  eapply agree_bind; [by apply getattr_default_agree|
    by apply (getattr_default_keeps cls B HB)|].
  intros old _. destruct (py_ne old new); [|auto with py].
  eapply agree_bind; [by apply setattr_agree|
    by apply (setattr_keeps cls B HB)|].
  intros _ _. eapply agree_bind; [by apply mark_dirty_agree|
    by apply (mark_dirty_keeps cls B HB)|].
  intros _ _. by apply listener_agree.
Qed.

Lemma getter_lambda_agree field f :
  ok (CGetter field f) = true -> same (CGetter field f) = true ->
  agree Inv (@getter_lambda cls' I' field f) (@getter_lambda cls I field f).
Proof.
  unfold callable_ok, callable_same. rewrite !andb_true_iff.
  intros [Hf Hg] [Hf' Hg']. unfold getter_lambda.
  eapply agree_bind; [by apply HA|by apply HB|].
  intros d _. by apply getattr_default_agree.
Qed.

Lemma run_callable_agree c args :
  ok c = true -> same c = true ->
  agree Inv (@run_callable cls' I' c args) (@run_callable cls I c args).
Proof.
  intros Hok Hs. destruct c as [f|field f|field lname b|field b];
    [by apply run_func_agree|destruct args as [|a [|a' args]]..];
    cbn [run_callable];
    auto using getter_lambda_agree, setter_listener_agree,
      setter_plain_agree with py.
Qed.

End Level.

(** ** Theorems *)

Section Theorems.
Context (cls cls' : gmap string class_attr) (L : list string).
Implicit Types (s : state) (k : nat).

(** The lookup in the flattened namespace is the lookup along the
    method resolution order: it finds the attribute of the first class that
    defines the name. *)
Theorem flatten_lookup l name a :
  flatten l !! name = Some a <-> defines l name a.
Proof. by rewrite flatten_mro_lookup, mro_lookup_defines. Qed.

Lemma same_below_agree k c args :
  bounded cls L k c = true -> same_below cls cls' k c = true ->
  agree (no_shadow L) (invoke_fuel cls' k c args) (invoke_fuel cls k c args).
Proof.
  revert c args. induction k as [|k IH]; intros c args Hb Hs; [done|].
  apply (run_callable_agree cls cls' L (invoke_fuel cls k)
           (invoke_fuel cls' k) (bounded cls L k) (same_below cls cls' k));
    [intros c0 args0; apply bounded_keeps|auto..].
Qed.

(** A callable whose calls nest at most [k] deep in [cls] has in [cls'] the
    outcome it has in [cls] when the two bind the names it looks up alike
    and the instance shadows no listener. *)
Lemma invoke_conservative k c args s :
  bounded cls L k c = true -> same_below cls cls' k c = true ->
  no_shadow L s ->
  invoke_fuel cls' k c args s = invoke_fuel cls k c args s.
Proof. intros Hb Hs Hinv. by apply same_below_agree. Qed.

(** The same for an assignment and for a read. *)
Lemma assign_agree k name v :
  set_ok cls L (bounded cls L k) name = true ->
  set_same cls cls' (same_below cls cls' k) name = true ->
  agree (no_shadow L) (assign cls' k name v) (assign cls k name v).
Proof.
  intros Hok Hs.
  apply (setattr_agree cls cls' L (invoke_fuel cls k) (invoke_fuel cls' k)
           (bounded cls L k) (same_below cls cls' k)); try done.
  - intros c args. apply bounded_keeps.
  - intros c args. apply same_below_agree.
Qed.

(** The names a script may assign: their setters pass the call-depth check
    in [cls], and the two classes agree below them. *)
Definition assignable (k : nat) (name : string) : bool :=
  set_ok cls L (bounded cls L k) name &&
  set_same cls cls' (same_below cls cls' k) name.

(** C23. An extension that leaves alone the names the setters look up is
    conservative. When the calls below the setters of [names] nest at most
    [k] deep in [cls], [cls'] binds every name they look up as [cls] does,
    and the instance shadows no listener, every script of assignments to
    these names has in [cls'] the outcome it has in [cls]: result,
    exception, instance and output. *)
Theorem extension_conservative k names (l : list (string * value)) s :
  Forall (fun name => assignable k name = true) names ->
  l.*1 ⊆ names ->
  no_shadow L s ->
  for_each (fun nv => assign cls' k nv.1 nv.2) l s =
  for_each (fun nv => assign cls k nv.1 nv.2) l s.
Proof.
  intros Hn Hl. apply agree_for_each, Forall_forall. intros [name v] Hin.
  assert (assignable k name = true) as [Hok Hs]%andb_prop.
  { apply (proj1 (Forall_forall _ _) Hn), Hl, list_elem_of_fmap.
    by exists (name, v). }
  split; [by apply assign_agree|by apply assign_keeps].
Qed.

Lemma read_conservative k name s :
  get_ok cls (bounded cls L k) name = true ->
  get_same cls cls' (same_below cls cls' k) name = true ->
  no_shadow L s ->
  read cls' k name s = read cls k name s.
Proof.
  intros Hok Hs Hinv.
  apply (getattr_agree cls cls' L (invoke_fuel cls k) (invoke_fuel cls' k)
           (bounded cls L k) (same_below cls cls' k)); try done.
  intros c args. apply same_below_agree.
Qed.

End Theorems.

(** ** An inherited property in a subclass *)

Section Override.
Context {Scope : Type} (meta : properties Scope).
Context (base body : gmap string class_attr) (f : func) (p : property).
Context (listener : value) (auto_dirty : bool).
Context (Hbound : base !! f_name f = Some (AProperty p)).
Context (Hfield : base !! field_of f = None).
Context (Hbody_field : body !! field_of f = None).
Implicit Types (s : state) (new : value) (n : nat).

(** The listener is bound late: a subclass that inherits the property
    and defines a method of the listener's name is notified through its own
    method, whatever the base class binds the name to (a method, or
    nothing). The write, the dirty flag and the three arguments are those
    of the base class. *)
Theorem override_listener n new s lf :
  prop meta false listener auto_dirty f = inr p ->
  py_truthy listener = true ->
  body !! f_name f = None ->
  plain_attr body "_is_dirty" = true ->
  plain_attr base "_is_dirty" = true ->
  body !! listener_name_of listener = Some (AFunction lf) ->
  attrs (set_dirty (_auto_dirty meta || auto_dirty)
           (set_attr (field_of f) new s)) !! listener_name_of listener
    = None ->
  py_ne (current (field_of f) s) new = true ->
  assign (subclass body base) (S (S n)) (f_name f) new s =
  (run! @run_func (subclass body base) (invoke_fuel (subclass body base) n)
          lf [VStr (field_of f); current (field_of f) s; new] in ret tt)
    (set_dirty (_auto_dirty meta || auto_dirty)
       (set_attr (field_of f) new s)).
Proof.
  intros Hp%prop_setter Hl Hname Hd Hd' Hlf Hs Hne. rewrite Hl in Hp.
  eapply (assign_setter_listener_changed _ f p); try done.
  - by rewrite subclass_lookup_inherited.
  - by rewrite subclass_lookup_inherited.
  - by apply subclass_plain_attr.
  - by apply subclass_lookup_overridden.
Qed.

(** A subclass that binds the property's name to something else has
    no property: an assignment through the name writes the instance's
    [__dict__] under that name, compares nothing, sets no flag and
    notifies no one, and the backing field stays as it was. *)
Theorem override_hides_property n new s a :
  body !! f_name f = Some a ->
  (forall q, a <> AProperty q) ->
  assign (subclass body base) n (f_name f) new s =
  Done tt (set_attr (f_name f) new s).
Proof.
  intros Ha Hq. apply setattr_plain. unfold plain_attr.
  rewrite (subclass_lookup_overridden _ _ _ a Ha).
  destruct a; [by destruct (Hq p0)|done..].
Qed.

End Override.

(** ** A property declared by an ancestor *)

Section Inherited.
Context {Scope : Type} (meta : properties Scope).
Context (l : list (gmap string class_attr)) (f : func) (p : property).
Context (listener : value) (auto_dirty : bool).
Implicit Types (s : state) (new : value) (n : nat).

(** A property without listener that some class of the method
    resolution order declares, and that no class before it rebinds, is the
    property of the derived class: an assignment compares the value with the
    backing field of the instance, and writes it and the dirty flag when it
    differs, wherever in the order the declaration stands. *)
Theorem inherited_property n new s :
  prop meta false listener auto_dirty f = inr p ->
  py_truthy listener = false ->
  defines l (f_name f) (AProperty p) ->
  mro_lookup l (field_of f) = None ->
  plain_attr (flatten l) "_is_dirty" = true ->
  assign (flatten l) (S n) (f_name f) new s =
  Done tt (if py_ne (current (field_of f) s) new
           then set_dirty (_auto_dirty meta || auto_dirty)
                  (set_attr (field_of f) new s)
           else s).
Proof.
  intros Hp%prop_setter Hl Hdef%mro_lookup_defines Hfield Hd.
  rewrite Hl in Hp. rewrite <-flatten_mro_lookup in Hdef, Hfield.
  by eapply (assign_setter_plain (flatten l) f p).
Qed.

End Inherited.
