(* ===== verification/Threads.v ===== *)
(** * Threads: several threads assigning through the setters of one instance.

    The setters take no lock (specification, section 5): between reading
    the backing field (source line 74, or 82) and writing it (76, or 83)
    another thread may run. A thread here is one assignment in progress,
    with the statement it is at ([pc]) and the value [old] it read; one step
    of a thread is one statement of the setter, run atomically on the shared
    instance by the operations of [Objects] and [Properties]. A schedule is
    the list of the thread indices in the order they step.

    The pool carries ghost fields that no step reads: the [log] of the
    notifications, the record of each thread that reached its listener call
    (line 79) with the [old] and [new] it passes, whatever the listener
    does with them; the writes ([written]), the record of each thread whose
    write (line 76) returned; and the number of statements run.
    [run_serial] is the reference the schedules are compared with: the
    calls of the setters one after the other. The checks of [Termination]
    and [Frames] on the threads' setters ([checked]) bound every schedule:
    no statement runs out of fuel, and the protected attributes stay as
    they were. *)

From stdpp Require Import base list strings gmap.
From S2P Require Import Prelude Values Objects Properties Interp Termination.
From S2P Require Import Frames.

(** ** Threads *)

(** The statement a thread is at. [Failed e]: it raised [e] and ended. *)
Inductive pc : Type :=
| AtRead
| AtCompare (old : value)
| AtWrite (old : value)
| AtDirty (old : value)
| AtNotify (old : value)
| Finished
| Failed (e : exn).

(** An assignment [inst.name = new] in progress: the variables the setter
    closes over (lines 62, 68, 71), its argument, and where it is. *)
Record thread : Type := Thread {
  t_field : string;
  t_listener : option string;
  t_auto_dirty : bool;
  t_new : value;
  t_pc : pc
}.

(** The setter the thread runs. *)
Definition setter_of (t : thread) : callable :=
  match t_listener t with
  | Some lname => CSetterListener (t_field t) lname (t_auto_dirty t)
  | None => CSetterPlain (t_field t) (t_auto_dirty t)
  end.

(** The thread that is about to run the setter [c] on [new]. *)
Definition spawn (c : callable) (new : value) : option thread :=
  match c with
  | CSetterListener field lname b => Some (Thread field (Some lname) b new AtRead)
  | CSetterPlain field b => Some (Thread field None b new AtRead)
  | _ => None
  end.

(** The thread that is about to run [inst.name = new]: the one of the
    setter of the property [name], when the class has it. *)
Definition assignment (cls : gmap string class_attr) (name : string)
    (new : value) : option thread :=
  match cls !! name with
  | Some (AProperty p) => c ← fset p; spawn c new
  | _ => None
  end.

Definition at_pc (p : pc) (t : thread) : thread :=
  Thread (t_field t) (t_listener t) (t_auto_dirty t) (t_new t) p.

Definition enabled (t : thread) : bool :=
  match t_pc t with
  | Finished | Failed _ => false
  | _ => true
  end.

(** The statements a thread has left, at most. *)
Definition remaining (p : pc) : nat :=
  match p with
  | AtRead => 5
  | AtCompare _ => 4
  | AtWrite _ => 3
  | AtDirty _ => 2
  | AtNotify _ => 1
  | Finished | Failed _ => 0
  end.

(** The branch of lines 75 and 82. *)
Definition compare (old new : value) : pc :=
  if py_ne old new then AtWrite old else Finished.

Section Steps.
Context (cls : gmap string class_attr) {I : Invoke}.

(** One statement of the setter. With a listener the statements are lines
    74, 75, 76, 77-78 and 79; without, lines 82 (the read and the test are
    one statement), 83 and 84-85. *)
Definition thread_step (t : thread) : Py pc :=
  match t_pc t with
  | AtRead =>
      let! old := getattr_default cls (t_field t) VNone in
      match t_listener t with
      | Some _ => ret (AtCompare old)
      | None => ret (compare old (t_new t))
      end
  | AtCompare old => ret (compare old (t_new t))
  | AtWrite old =>
      run! setattr cls (t_field t) (t_new t) in ret (AtDirty old)
  | AtDirty old =>
      run! mark_dirty cls (t_auto_dirty t) in
      ret (match t_listener t with
           | Some _ => AtNotify old
           | None => Finished
           end)
  | AtNotify old =>
      match t_listener t with
      | Some lname =>
          let! l := getattr cls lname in
          run! call_value cls l [VStr (t_field t); old; t_new t] in
          ret Finished
      | None => ret Finished
      end
  | Finished => ret Finished
  | Failed e => ret (Failed e)
  end.

(** The thread alone: [n] statements in a row. *)
Fixpoint run_steps (n : nat) (t : thread) : Py pc :=
  match n with
  | O => ret (t_pc t)
  | S n' => let! p := thread_step t in run_steps n' (at_pc p t)
  end.

(** ** Pools and schedules *)

(** What thread [e_thread] did with the values [(e_old, e_new)]: wrote
    [e_new] having read [e_old], or reached its listener call with them. *)
Record event : Type := Event {
  e_thread : nat;
  e_old : value;
  e_new : value
}.

(** The threads, and three ghost fields that no step reads: the
    notifications so far ([log]), the writes so far ([written]) and the
    number of statements run so far. *)
Record pool : Type := Pool {
  threads : list thread;
  log : list event;
  written : list event;
  steps : nat
}.

(** The notification the next step of [t] makes, if any. *)
Definition notifies (i : nat) (t : thread) : list event :=
  match t_pc t, t_listener t with
  | AtNotify old, Some _ => [Event i old (t_new t)]
  | _, _ => []
  end.

(** The write the step of [t] made, if it was the write and returned. *)
Definition writes (i : nat) (t : thread) (r : exn + pc) : list event :=
  match t_pc t, r with
  | AtWrite old, inr _ => [Event i old (t_new t)]
  | _, _ => []
  end.

Definition pc_of (r : exn + pc) : pc :=
  match r with
  | inl e => Failed e
  | inr p => p
  end.

(** The pool after thread [i], which was [t], ran a statement with the
    result [r]. *)
Definition advance (i : nat) (t : thread) (r : exn + pc) (P : pool) : pool :=
  Pool (<[i := at_pc (pc_of r) t]> (threads P))
    (log P ++ notifies i t) (written P ++ writes i t r) (S (steps P)).

(** Thread [i] runs one statement. An index that names no thread, or a
    thread that has ended, leaves the pool as it is. *)
Definition pool_step (i : nat) (P : pool) : Py pool :=
  match threads P !! i with
  | Some t =>
      if enabled t then
        let! r := attempt (thread_step t) in
        ret (advance i t r P)
      else ret P
  | None => ret P
  end.

Fixpoint run_schedule (sched : list nat) (P : pool) : Py pool :=
  match sched with
  | [] => ret P
  | i :: rest => let! P' := pool_step i P in run_schedule rest P'
  end.

(** ** The reference: one assignment after the other *)

(** Where a whole assignment leaves its thread. *)
Definition ended (r : exn + value) : pc :=
  match r with
  | inl e => Failed e
  | inr _ => Finished
  end.

(** The threads run to their end one at a time, in the given order: each is
    one call of its setter, whose exception ends that thread only. *)
Fixpoint run_serial (order : list nat) (ts : list thread)
  : Py (list thread) :=
  match order with
  | [] => ret ts
  | i :: rest =>
      match ts !! i with
      | Some t =>
          if enabled t then
            let! r := attempt (run_callable cls (setter_of t) [t_new t]) in
            run_serial rest (<[i := at_pc (ended r) t]> ts)
          else run_serial rest ts
      | None => run_serial rest ts
      end
  end.

End Steps.

(** A thread between assignments: about to start, or ended. *)
Definition quiescent (t : thread) : bool :=
  match t_pc t with
  | AtRead | Finished | Failed _ => true
  | _ => false
  end.

(** The schedule that runs the threads one after the other. *)
Definition sequential (order : list nat) : list nat :=
  order ≫= replicate 5.

(** The pool in which each of the given assignments is about to start. *)
Definition fresh_pool (ts : list thread) : pool :=
  Pool ((at_pc AtRead) <$> ts) [] [] 0.

(** The threads of the assignments [inst.name = v] of a list, one thread
    for each; [None] when a name is not a property with a setter. *)
Fixpoint assignments (cls : gmap string class_attr)
    (l : list (string * value)) : option (list thread) :=
  match l with
  | [] => Some []
  | (name, v) :: rest =>
      t ← assignment cls name v;
      ts ← assignments cls rest;
      Some (t :: ts)
  end.

(** The same assignments as one program, each in a [try] that swallows its
    exception: what the threads do when they run one after the other. *)
Definition script_of (cls : gmap string class_attr) (n : nat)
    (l : list (string * value)) : Py unit :=
  for_each (fun nv => run! attempt (assign cls (S n) nv.1 nv.2) in ret tt) l.







(** ** Lemmas: one thread *)

Section ThreadFacts.
Context (cls : gmap string class_attr) {I : Invoke}.
Implicit Types (t : thread) (s : state) (p : pc).

Lemma at_pc_id t : at_pc (t_pc t) t = t.
Proof. by destruct t. Qed.

Lemma spawn_inv c new t :
  spawn c new = Some t -> setter_of t = c /\ t_new t = new /\ t_pc t = AtRead.
Proof. destruct c; intros [= <-]; done. Qed.

(** The assignment the thread is the start of. *)
Lemma assignment_setattr name new t s :
  assignment cls name new = Some t ->
  t_pc t = AtRead /\
  setattr cls name new s = (run! invoke (setter_of t) [t_new t] in ret tt) s.
Proof.
  unfold assignment, setattr. destruct (cls !! name) as [[p|f|ci|v]|]; try done.
  destruct (fset p) as [c|]; [|done]. simpl.
  by intros (-> & -> & ->)%spawn_inv.
Qed.

Lemma run_steps_ended n t :
  enabled t = false -> run_steps cls n t = ret (t_pc t).
Proof.
  revert t. induction n as [|n IH]; intros [f l b v p] He; [done|].
  destruct p; try done; simpl; apply IH; done.
Qed.

Lemma compare_remaining old new : remaining (compare old new) <= 3.
Proof. unfold compare. case_match; simpl; lia. Qed.

(** Where a step that returns leaves the thread. *)
Lemma thread_step_next t s p s' :
  thread_step cls t s = Done p s' ->
  match t_pc t with
  | AtRead => exists old, p = AtCompare old \/ p = compare old (t_new t)
  | AtCompare old => p = compare old (t_new t)
  | AtWrite old => p = AtDirty old
  | AtDirty old =>
      p = match t_listener t with Some _ => AtNotify old | None => Finished end
  | AtNotify _ | Finished => p = Finished
  | Failed e => p = Failed e
  end.
Proof.
  destruct t as [f l b v q]. unfold thread_step. simpl. intros Hs.
  destruct q;
    repeat match type of Hs with
           | bind _ _ _ = _ => apply bind_done_inv in Hs as (? & ? & _ & Hs)
           end;
    destruct l; unfold ret in Hs; simplify_eq; eauto;
    repeat match type of Hs with
           | bind _ _ _ = _ => apply bind_done_inv in Hs as (? & ? & _ & Hs)
           end; unfold ret in Hs; by simplify_eq.
Qed.

(** A step that returns leaves fewer statements. *)
Lemma thread_step_remaining t s p s' :
  enabled t = true -> thread_step cls t s = Done p s' ->
  remaining p < remaining (t_pc t).
Proof.
  intros He Hs%thread_step_next. unfold enabled in He.
  destruct (t_pc t) as [|old|old|old|old| |e]; try done;
    [destruct Hs as [old [-> | ->]]|..]; try subst p;
    try destruct (t_listener t); simpl; try lia;
    pose proof (compare_remaining old (t_new t)); lia.
Qed.

(** The statements of the setter with a listener, in a row. *)
Lemma run_steps_listener field lname b new s :
  run_steps cls 5 (Thread field (Some lname) b new AtRead) s =
  (run! setter_listener cls field lname b new in ret Finished) s.
Proof.
  unfold run_steps, thread_step, setter_listener, bind, ret, compare. simpl.
  destruct (getattr_default cls field VNone s) as [old s1| | |]; try done.
  destruct (py_ne old new); simpl; [|done].
  destruct (setattr cls field new s1) as [[] s2| | |]; try done. simpl.
  destruct (mark_dirty cls b s2) as [[] s3| | |]; try done. simpl.
  destruct (getattr cls lname s3) as [l s4| | |]; try done.
  by destruct (call_value cls l [VStr field; old; new] s4).
Qed.

(** The statements of the setter without listener, in a row. *)
Lemma run_steps_plain field b new s :
  run_steps cls 5 (Thread field None b new AtRead) s =
  (run! setter_plain cls field b new in ret Finished) s.
Proof.
  unfold run_steps, thread_step, setter_plain, bind, ret, compare. simpl.
  destruct (getattr_default cls field VNone s) as [old s1| | |]; try done.
  destruct (py_ne old new); simpl; [|done].
  destruct (setattr cls field new s1) as [[] s2| | |]; try done. simpl.
  by destruct (mark_dirty cls b s2) as [[] s3| | |].
Qed.

(** A thread about to start, run alone, is the call of its setter. *)
Lemma run_steps_setter t s :
  t_pc t = AtRead ->
  (let! r := attempt (run_steps cls 5 t) in ret (pc_of r)) s =
  (let! r := attempt (run_callable cls (setter_of t) [t_new t]) in
   ret (ended r)) s.
Proof.
  destruct t as [f [lname|] b v p]; intros Hpc; simpl in Hpc; subst p;
    unfold bind at 1, attempt at 1;
    [rewrite run_steps_listener|rewrite run_steps_plain];
    unfold setter_of, bind, attempt, ret; simpl;
    match goal with |- context [match ?m with Done _ _ => _ | _ => _ end] =>
      by destruct m end.
Qed.

Lemma remaining_le p : remaining p <= 5.
Proof. destruct p; simpl; lia. Qed.

Lemma enabled_remaining t : enabled t = false <-> remaining (t_pc t) = 0.
Proof. unfold enabled. by destruct (t_pc t). Qed.

Lemma quiescent_enabled t :
  quiescent t = true -> enabled t = true -> t_pc t = AtRead.
Proof. unfold quiescent, enabled. by destruct (t_pc t). Qed.

(** Also when it raises. *)
Lemma attempt_step_remaining t s r s' :
  enabled t = true -> attempt (thread_step cls t) s = Done r s' ->
  remaining (pc_of r) < remaining (t_pc t).
Proof.
  unfold attempt. intros He Hs.
  destruct (thread_step cls t s) eqn:E; simplify_eq/=.
  - by eapply thread_step_remaining.
  - unfold enabled in He. destruct (t_pc t); simpl; done || lia.
Qed.


End ThreadFacts.

(** ** Lemmas: pools *)

Section PoolFacts.
Context (cls : gmap string class_attr) {I : Invoke}.
Implicit Types (t : thread) (s : state) (P : pool).

(** The two ways a step of the pool goes. *)
Lemma pool_step_inv i P s P' s' :
  pool_step cls i P s = Done P' s' ->
  (P' = P /\ s' = s /\ forall t, threads P !! i = Some t -> enabled t = false)
  \/
  (exists t r, threads P !! i = Some t /\ enabled t = true /\
     attempt (thread_step cls t) s = Done r s' /\
     P' = advance i t r P).
Proof.
  unfold pool_step. destruct (threads P !! i) as [t|] eqn:Ht;
    [destruct (enabled t) eqn:He|]; unfold ret.
  - intros (r & s1 & Hr & [= <- <-])%bind_done_inv. right. by exists t, r.
  - intros [= <- <-]. left. split_and!; [done..|]. by intros ? [= <-].
  - intros [= <- <-]. by left.
Qed.

Lemma pool_step_static i P s P' s' :
  pool_step cls i P s = Done P' s' ->
  at_pc AtRead <$> threads P' = at_pc AtRead <$> threads P.
Proof.
  intros [(-> & _)|(t & r & Ht & _ & _ & ->)]%pool_step_inv; [done|]. simpl.
  rewrite list_fmap_insert. apply list_insert_id.
  by rewrite list_lookup_fmap, Ht.
Qed.


(** What a step leaves of the thread at index [i]. *)
Lemma pool_step_lookup j P s P' s' i t :
  pool_step cls j P s = Done P' s' -> threads P !! i = Some t ->
  exists t', threads P' !! i = Some t' /\
    remaining (t_pc t') <=
      remaining (t_pc t) - (if decide (i = j) then 1 else 0).
Proof.
  intros [(-> & _ & Hd)|(tj & r & Hj & He & Hr & ->)]%pool_step_inv Hi.
  - exists t. split; [done|]. case_decide as Hij; [|lia]. subst j.
    apply Hd, enabled_remaining in Hi. lia.
  - simpl. case_decide as Hij.
    + subst j. assert (tj = t) as -> by congruence.
      exists (at_pc (pc_of r) t). split.
      * apply list_lookup_insert_eq. by eapply lookup_lt_Some.
      * apply attempt_step_remaining in Hr; [|done]. simpl. lia.
    + exists t. rewrite list_lookup_insert_ne by done. split; [done|lia].
Qed.

Lemma run_schedule_static sched P s P' s' :
  run_schedule cls sched P s = Done P' s' ->
  at_pc AtRead <$> threads P' = at_pc AtRead <$> threads P.
Proof.
  revert P s. induction sched as [|i sched IH]; intros P s; simpl.
  - by intros [= <- <-].
  - intros (P1 & s1 & H1 & Hrest)%bind_done_inv.
    rewrite (IH _ _ Hrest). by eapply pool_step_static.
Qed.


(** A thread scheduled [n] times has [n] statements less to run. *)
Lemma run_schedule_lookup sched P s P' s' i t :
  run_schedule cls sched P s = Done P' s' -> threads P !! i = Some t ->
  exists t', threads P' !! i = Some t' /\
    remaining (t_pc t') <= remaining (t_pc t) - occurrences i sched.
Proof.
  revert P s t. induction sched as [|j sched IH]; intros P s t; simpl.
  - intros [= <- <-] Hi. exists t. split; [done|].
    change (occurrences i []) with 0. lia.
  - intros (P1 & s1 & H1 & Hrest)%bind_done_inv Hi.
    destruct (pool_step_lookup _ _ _ _ _ _ _ H1 Hi) as (t1 & Ht1 & Hle1).
    destruct (IH _ _ _ Hrest Ht1) as (t' & Ht' & Hle).
    exists t'. split; [done|]. rewrite occurrences_cons.
    destruct (decide (i = j)); lia.
Qed.



(** *** Writes and notifications *)







(** *** Turns in a row *)

Lemma run_schedule_app sched1 sched2 P s :
  run_schedule cls (sched1 ++ sched2) P s =
  (let! P' := run_schedule cls sched1 P in run_schedule cls sched2 P') s.
Proof.
  revert P s. induction sched1 as [|i sched1 IH]; intros P s; simpl;
    [by rewrite bind_ret_l|].
  unfold bind. by destruct (pool_step cls i P s).
Qed.

(** The turns of a thread that has ended, or of no thread, change nothing. *)
Lemma run_schedule_idle n i P s :
  (forall t, threads P !! i = Some t -> enabled t = false) ->
  run_schedule cls (replicate n i) P s = Done P s.
Proof.
  intros Hi. induction n as [|n IH]; simpl; [done|].
  unfold bind, pool_step. destruct (threads P !! i) as [t|]; [|done].
  by rewrite (Hi t eq_refl).
Qed.

(** [n] turns of thread [i] are [n] statements of it, and its exception
    ends it. *)
Lemma pool_turns_steps n i P t s :
  threads P !! i = Some t ->
  (let! P' := run_schedule cls (replicate n i) P in ret (threads P')) s =
  (let! r := attempt (run_steps cls n t) in
   ret (<[i := at_pc (pc_of r) t]> (threads P))) s.
Proof.
  revert P t s. induction n as [|n IH]; intros P t s Ht.
  { unfold bind, attempt, ret. simpl.
    by rewrite at_pc_id, list_insert_id. }
  destruct (enabled t) eqn:He.
  - simpl. unfold pool_step. rewrite Ht, He. unfold bind, attempt, ret.
    destruct (thread_step cls t s) as [p s1|e s1| |]; try done.
    + pose proof (IH (advance i t (inr p) P) (at_pc p t) s1) as IHp.
      unfold bind, attempt, ret in IHp. simpl in *. rewrite IHp
        by (apply list_lookup_insert_eq; by eapply lookup_lt_Some).
      destruct (run_steps cls n (at_pc p t) s1); try done;
        by rewrite list_insert_insert_eq.
    + rewrite run_schedule_idle; [done|]. simpl. intros t'.
      rewrite list_lookup_insert_eq by by eapply lookup_lt_Some.
      by intros [= <-].
  - unfold bind. rewrite run_schedule_idle by (intros ? ?; congruence).
    rewrite run_steps_ended by done. unfold attempt, ret. simpl.
    by rewrite at_pc_id, list_insert_id.
Qed.

(** The five turns of a thread about to start are the call of its setter. *)
Lemma pool_turns i P t s :
  threads P !! i = Some t -> t_pc t = AtRead ->
  (let! P' := run_schedule cls (replicate 5 i) P in ret (threads P')) s =
  (let! r := attempt (run_callable cls (setter_of t) [t_new t]) in
   ret (<[i := at_pc (ended r) t]> (threads P))) s.
Proof.
  intros Ht Hpc. rewrite (pool_turns_steps _ _ _ _ _ Ht).
  pose proof (run_steps_setter cls t s Hpc) as Hs. unfold bind, ret in *.
  destruct (attempt (run_steps cls 5 t) s),
    (attempt (run_callable cls (setter_of t) [t_new t]) s);
    congruence.
Qed.

End PoolFacts.

(** ** Lemmas: no step runs out of fuel *)

(** The setters of the threads pass the check of [Termination] under a
    policy. *)
Definition checked (cls : gmap string class_attr) (pol : policy)
    (B : callable -> bool) (ts : list thread) : Prop :=
  Forall (fun t => callable_ok cls pol B (setter_of t) = true) ts.

Section PoolSound.
Context (cls : gmap string class_attr) {pol : policy}.
Context {Inv : state -> Prop} `{!Stable pol Inv}.
Context {I : Invoke} (B : callable -> bool).
Context (HB : forall c args, B c = true ->
                keeps Inv (invoke c args) (fun _ => True)).

Lemma thread_step_keeps t :
  callable_ok cls pol B (setter_of t) = true ->
  keeps Inv (thread_step cls t) (fun _ => True).
Proof.
  pose proof (setattr_keeps cls B HB) as Hset.
  pose proof (mark_dirty_keeps cls B HB) as Hmark.
  pose proof (listener_keeps cls B HB (A:=pc)) as Hlis.
  destruct t as [f l b v p]. unfold setter_of, thread_step, callable_ok.
  simpl. destruct l as [lname|]; rewrite !andb_true_iff; intros Hok;
    destruct_and?; destruct p; eauto 6 using getattr_default_keeps with py.
Qed.

Lemma pool_step_keeps i P :
  checked cls pol B (threads P) ->
  keeps Inv (pool_step cls i P) (fun P' => checked cls pol B (threads P')).
Proof.
  intros Hc. unfold pool_step. destruct (threads P !! i) as [t|] eqn:Ht;
    [destruct (enabled t)|]; try by apply keeps_ret.
  assert (callable_ok cls pol B (setter_of t) = true) as Hok
    by by eapply (proj1 (Forall_forall _ _) Hc), list_elem_of_lookup_2.
  eapply keeps_bind; [by eapply keeps_attempt, thread_step_keeps|].
  intros r _. apply keeps_ret. simpl. by apply Forall_insert.
Qed.

Lemma run_schedule_keeps sched P :
  checked cls pol B (threads P) ->
  keeps Inv (run_schedule cls sched P) (fun _ => True).
Proof.
  revert P. induction sched as [|i sched IH]; intros P Hc; simpl;
    [by apply keeps_ret|].
  eapply keeps_bind; [by apply pool_step_keeps|]. auto.
Qed.

End PoolSound.

(** ** Theorems *)

Section Theorems.
Context (cls : gmap string class_attr).
Implicit Types (t : thread) (s : state) (P : pool).

(** A thread that runs alone is the setter: the five statements of an
    assignment in a row, from its start, have the outcome of the setter's
    call, result, exception and state included, for every class and
    interpreter. *)
Theorem run_steps_refines {I : Invoke} c new t s :
  spawn c new = Some t ->
  run_steps cls 5 t s = (run! run_callable cls c [new] in ret Finished) s.
Proof.
  destruct c as [f|field f|field lname b|field b]; intros [= <-].
  - apply run_steps_listener.
  - apply run_steps_plain.
Qed.

(** Serial schedules are serial runs: the schedule that gives each thread of
    [order] its five turns in a row leaves the instance and the threads as
    the calls of their setters do, one after the other in that order, an
    exception ending its own thread only. Results, states and lack of fuel
    agree. *)
Lemma serial_refines {I : Invoke} order P s :
  Forall (fun t => quiescent t = true) (threads P) ->
  (let! P' := run_schedule cls (sequential order) P in ret (threads P')) s =
  run_serial cls order (threads P) s.
Proof.
  revert P s. induction order as [|i order IH]; intros P s Hq; [done|].
  change (sequential (i :: order)) with (replicate 5 i ++ sequential order).
  unfold bind at 1. rewrite run_schedule_app. cbn [run_serial].
  destruct (threads P !! i) as [t|] eqn:Ht; [destruct (enabled t) eqn:He|].
  - pose proof (pool_turns cls i P t s Ht (quiescent_enabled t
      (proj1 (Forall_forall _ _) Hq t (list_elem_of_lookup_2 _ _ _ Ht)) He))
      as Hturn.
    unfold bind, ret in *.
    destruct (run_schedule cls (replicate 5 i) P s) as [P1 s1| | |],
      (attempt (run_callable cls (setter_of t) [t_new t]) s) as [r s2| | |];
      try done.
    injection Hturn as Hth ->. rewrite <-Hth. apply IH. rewrite Hth.
    apply Forall_insert; [done|]. by destruct r.
  - unfold bind. rewrite run_schedule_idle by (intros ? ?; congruence).
    by apply IH.
  - unfold bind. rewrite run_schedule_idle by (intros ? ?; congruence).
    by apply IH.
Qed.

(** The threads of a script are about to start. *)
Lemma assignments_fresh {I : Invoke} l ts :
  assignments cls l = Some ts -> at_pc AtRead <$> ts = ts.
Proof.
  revert ts. induction l as [|[name v] l IH]; intros ts; simpl.
  - by intros [= <-].
  - destruct (assignment cls name v) as [t|] eqn:Ht; [|done]. simpl.
    destruct (assignments cls l) as [ts'|]; [|done]. simpl. intros [= <-].
    destruct (assignment_setattr cls name v t empty_state Ht) as [Hpc _].
    rewrite fmap_cons, (IH ts') by done. by rewrite <-Hpc, at_pc_id.
Qed.

(** The serial run of the threads of a script is the script: each call of
    a setter is the assignment it came from, in its own [try]. *)
Lemma run_serial_script n l ts pre k s :
  k = length pre -> assignments cls l = Some ts ->
  (run! @run_serial cls (invoke_fuel cls n)
          (seq k (length ts)) (pre ++ ts) in ret tt) s =
  script_of cls n l s.
Proof.
  revert ts pre k s.
  induction l as [|[name v] l IH]; intros ts pre k s Hk; simpl.
  { by intros [= <-]. }
  destruct (assignment cls name v) as [t|] eqn:Ht; [|done]. simpl.
  destruct (assignments cls l) as [ts'|] eqn:Hts; [|done]. simpl.
  intros [= <-].
  destruct (assignment_setattr (I := invoke_fuel cls (S n)) cls name v t s Ht)
    as [Hpc Hset].
  change (script_of cls n ((name, v) :: l)) with
    (run! (run! attempt (assign cls (S n) name v) in ret tt) in
     script_of cls n l).
  cbn [length seq run_serial]. rewrite Hk, list_lookup_middle by done.
  unfold enabled, assign, bind, attempt. rewrite Hpc, Hset. unfold bind.
  change (@invoke (invoke_fuel cls (S n)) (setter_of t) [t_new t] s) with
    (@run_callable cls (invoke_fuel cls n) (setter_of t) [t_new t] s).
  destruct (run_callable cls (setter_of t) [t_new t] s) as [r s1|e s1| |];
    try done; simpl; rewrite list_insert_middle;
    rewrite (cons_middle _ pre ts'), app_assoc;
    (eapply (IH ts' (pre ++ [_])); [by rewrite length_app, Nat.add_1_r|done]).
Qed.

(** C26. Serial schedules are serial programs. For a list of assignments
    to properties with setters, the schedule that runs the thread of each
    assignment to its end before the next starts has the outcome of the
    program that makes the assignments one after the other, each in a
    [try] that swallows its exception: the same instance, the same output,
    the same lack of fuel. *)
Theorem serial_assignments n l ts s :
  assignments cls l = Some ts ->
  (run! @run_schedule cls (invoke_fuel cls n)
          (sequential (seq 0 (length ts))) (fresh_pool ts) in ret tt) s =
  script_of cls n l s.
Proof.
  intros Hl. rewrite <-(run_serial_script n l ts [] 0 s eq_refl Hl).
  assert (Forall (fun t => quiescent t = true) (threads (fresh_pool ts)))
    as Hq by by apply Forall_fmap, Forall_true.
  pose proof (serial_refines (I := invoke_fuel cls n) (seq 0 (length ts))
                (fresh_pool ts) s Hq) as Hs.
  change (threads (fresh_pool ts)) with (at_pc AtRead <$> ts) in Hs.
  rewrite (assignments_fresh (I := invoke_fuel cls n) l ts Hl) in Hs.
  unfold bind, ret in *. simpl. rewrite <-Hs.
  by destruct (run_schedule cls _ _ s).
Qed.

(** C25. Fair schedules finish. When the setters of the threads pass the
    call-depth check with [k] and the instance shadows no listener, no
    schedule runs out of fuel [k]; and when the schedule gives every thread
    five turns, every thread has ended, by returning or by raising, in the
    pool it leaves. *)
Theorem fair_schedule_finishes L k sched P s :
  checked cls (guard L) (bounded cls L k) (threads P) ->
  no_shadow L s ->
  (forall i, i < length (threads P) -> 5 <= occurrences i sched) ->
  terminated (@run_schedule cls (invoke_fuel cls k) sched P s) = true /\
  forall P' s',
    @run_schedule cls (invoke_fuel cls k) sched P s = Done P' s' ->
    Forall (fun t => enabled t = false) (threads P').
Proof.
  intros Hc Hs Hfair. split.
  - eapply proj1, keeps_terminated; [|done].
    by apply (run_schedule_keeps cls (bounded cls L k)
                (fun c args => bounded_keeps cls L k c args)).
  - intros P' s' Hrun. apply Forall_forall. intros t' Hin.
    apply list_elem_of_lookup_1 in Hin as [i Hi].
    assert (i < length (threads P)) as Hlt.
    { rewrite <-(length_fmap (at_pc AtRead)),
        <-(run_schedule_static _ _ _ _ _ _ Hrun), length_fmap.
      by eapply lookup_lt_Some. }
    destruct (lookup_lt_is_Some_2 _ _ Hlt) as [t Ht].
    destruct (run_schedule_lookup _ _ _ _ _ _ _ _ Hrun Ht) as (t1 & Ht1 & Hle).
    assert (t1 = t') as -> by congruence.
    pose proof (remaining_le (t_pc t)). specialize (Hfair i Hlt).
    apply enabled_remaining. lia.
Qed.

(** Races are confined. When the setters of the threads pass the frame
    check for the attributes [X] with [k] and the instance shadows no
    listener, every schedule ends, and the attributes [X] of the instance
    are then what they were: however the statements of the setters
    interleave, they change what the setters and the listeners write, and
    nothing else. *)
Theorem schedule_frame L X k sched P s :
  checked cls (frame L X) (framed cls L X k) (threads P) ->
  no_shadow L s ->
  terminated (@run_schedule cls (invoke_fuel cls k) sched P s) = true /\
  forall s',
    final_state (@run_schedule cls (invoke_fuel cls k) sched P s) = Some s' ->
    unchanged X s s'.
Proof.
  intros Hc. apply framed_inv_frame.
  by apply (run_schedule_keeps cls (framed cls L X k)
              (fun c args => framed_keeps cls L X s k c args)).
Qed.




End Theorems.
