(* ===== verification/Independence.v ===== *)
(** * Independence: assignments to different properties do not race.

    The races of [Threads] need two threads on one backing field, or a
    listener. Here the threads run setters without listener (source lines
    81-85) on pairwise different backing fields that the class does not
    define. The only attribute they share is [_is_dirty], which each of
    them can only set to [True]. Whatever the schedule, every step returns,
    and the instance is a function of how far each thread is ([stage]): so
    all schedules that let every thread end leave the same instance. *)

From stdpp Require Import base list strings gmap.
From S2P Require Import Prelude Values Objects Properties Interp Termination.
From S2P Require Import Threads.

#[local] Open Scope string_scope.

Section Independence.
Context (cls : gmap string class_attr) {I : Invoke}.
Context (s0 : state) (ts : list thread).
Implicit Types (t : thread) (s : state) (P : pool).

(** ** What is assumed of the threads *)

(** A setter without listener, on a backing field the class leaves to the
    instance. *)
Definition plain_thread (t : thread) : Prop :=
  t_listener t = None /\ cls !! t_field t = None /\ t_field t <> "_is_dirty".

Definition independent : Prop :=
  Forall plain_thread ts /\ NoDup (t_field <$> ts) /\
  plain_attr cls "_is_dirty" = true.

(** A schedule that gives every thread the turns of a whole setter. *)
Definition fair (sched : list nat) : Prop :=
  forall i, i < length ts -> 5 <= occurrences i sched.

(** ** The instance, by the stage of each thread *)

(** The thread [t] writes when it runs from [s0]. *)
Definition changes (t : thread) : bool :=
  py_ne (default VNone (attrs s0 !! t_field t)) (t_new t).

(** What the backing field of [t] holds when [t] is where it is. *)
Definition stage (s : state) (t : thread) : Prop :=
  match t_pc t with
  | AtRead => attrs s !! t_field t = attrs s0 !! t_field t
  | AtWrite old =>
      attrs s !! t_field t = attrs s0 !! t_field t /\
      old = default VNone (attrs s0 !! t_field t) /\ changes t = true
  | AtDirty _ => attrs s !! t_field t = Some (t_new t) /\ changes t = true
  | Finished =>
      attrs s !! t_field t =
      if changes t then Some (t_new t) else attrs s0 !! t_field t
  | AtCompare _ | AtNotify _ | Failed _ => False
  end.

(** The thread has set the dirty flag. *)
Definition dirtied (t : thread) : bool :=
  match t_pc t with
  | Finished => t_auto_dirty t && changes t
  | _ => false
  end.

Definition indep_inv (P : pool) (s : state) : Prop :=
  at_pc AtRead <$> threads P = at_pc AtRead <$> ts /\
  (forall i t, threads P !! i = Some t -> stage s t) /\
  attrs s !! "_is_dirty" =
    (if existsb dirtied (threads P) then Some (VBool true)
     else attrs s0 !! "_is_dirty") /\
  (forall a, a ∉ t_field <$> ts -> a <> "_is_dirty" ->
     attrs s !! a = attrs s0 !! a) /\
  output s = output s0.

(** ** Lemmas *)

Hypothesis Hind : independent.

(** A thread of the pool is one of [ts], further on. *)
Lemma pool_thread P i t :
  at_pc AtRead <$> threads P = at_pc AtRead <$> ts ->
  threads P !! i = Some t ->
  exists t0, ts !! i = Some t0 /\ at_pc AtRead t = at_pc AtRead t0.
Proof.
  intros Hst Ht. apply (f_equal (fun l => l !! i)) in Hst.
  rewrite !list_lookup_fmap, Ht in Hst.
  destruct (ts !! i) as [t0|]; [|done]. exists t0. split; [done|].
  simpl in Hst. congruence.
Qed.

Lemma pool_thread_plain P i t :
  at_pc AtRead <$> threads P = at_pc AtRead <$> ts ->
  threads P !! i = Some t -> plain_thread t.
Proof.
  intros Hst Ht. destruct (pool_thread P i t Hst Ht) as (t0 & Ht0 & Heq).
  destruct Hind as (Hpl & _). apply list_elem_of_lookup_2 in Ht0.
  apply (proj1 (Forall_forall _ _) Hpl) in Ht0. unfold plain_thread in *.
  injection Heq as -> -> _ _. done.
Qed.

(** Two threads of the pool have different backing fields. *)
Lemma pool_fields_distinct P i j t tj :
  at_pc AtRead <$> threads P = at_pc AtRead <$> ts ->
  threads P !! i = Some t -> threads P !! j = Some tj -> i <> j ->
  t_field t <> t_field tj.
Proof.
  intros Hst Ht Htj Hij Heq.
  destruct (pool_thread P i t Hst Ht) as (t0 & Ht0 & [= Hf _ _ _]).
  destruct (pool_thread P j tj Hst Htj) as (t1 & Ht1 & [= Hf1 _ _ _]).
  destruct Hind as (_ & Hnd & _). apply Hij.
  eapply (NoDup_lookup _ i j (t_field t)); [done|..];
    rewrite list_lookup_fmap.
  - by rewrite Ht0, Hf.
  - by rewrite Ht1, Heq, Hf1.
Qed.

(** The stage of a thread looks at its own backing field only. *)
Lemma stage_frame s s' t :
  attrs s' !! t_field t = attrs s !! t_field t -> stage s t -> stage s' t.
Proof. unfold stage. intros ->. done. Qed.

(** *** The three statements of the setter *)

Lemma read_step s t :
  plain_thread t -> t_pc t = AtRead -> stage s t ->
  thread_step cls t s =
  Done (compare (default VNone (attrs s0 !! t_field t)) (t_new t)) s.
Proof.
  intros (Hl & Hc & _) Hpc Hst. unfold thread_step, stage in *.
  rewrite Hpc in *. rewrite Hl. unfold bind.
  by rewrite getattr_default_undefined, Hst.
Qed.

Lemma write_step s t old :
  plain_thread t -> t_pc t = AtWrite old ->
  thread_step cls t s = Done (AtDirty old) (set_attr (t_field t) (t_new t) s).
Proof.
  intros (_ & Hc & _) Hpc. unfold thread_step. rewrite Hpc. unfold bind.
  rewrite setattr_plain; [done|]. unfold plain_attr. by rewrite Hc.
Qed.

Lemma dirty_step s t old :
  plain_thread t -> t_pc t = AtDirty old ->
  thread_step cls t s = Done Finished (set_dirty (t_auto_dirty t) s).
Proof.
  intros (Hl & _) Hpc. unfold thread_step. rewrite Hpc, Hl. unfold bind.
  destruct Hind as (_ & _ & Hd). by rewrite mark_dirty_plain.
Qed.

(** *** One step keeps the invariant *)

(** What a step must do to the instance for the invariant to hold after
    it. *)
Lemma indep_inv_advance P s i t p s' :
  indep_inv P s -> threads P !! i = Some t -> dirtied t = false ->
  stage s' (at_pc p t) ->
  (forall a, a <> t_field t -> a <> "_is_dirty" ->
     attrs s' !! a = attrs s !! a) ->
  attrs s' !! "_is_dirty" =
    (if dirtied (at_pc p t) then Some (VBool true)
     else attrs s !! "_is_dirty") ->
  output s' = output s ->
  indep_inv (advance i t (inr p) P) s'.
Proof.
  intros (Hst & Hstage & Hd & Hfr & Hout) Ht Hnd Hnew Hothers Hdirty Hout'.
  split_and!; simpl.
  - rewrite list_fmap_insert, <-Hst. apply list_insert_id.
    by rewrite list_lookup_fmap, Ht.
  - intros j tj. destruct (decide (j = i)) as [->|Hne].
    + rewrite list_lookup_insert_eq by by eapply lookup_lt_Some.
      by intros [= <-].
    + rewrite list_lookup_insert_ne by done. intros Htj.
      apply (stage_frame s); [|by eapply Hstage]. apply Hothers.
      * by eapply pool_fields_distinct.
      * by eapply pool_thread_plain.
  - rewrite (existsb_insert _ _ _ t) by done. rewrite Hdirty, Hd.
    by destruct (dirtied (at_pc p t)).
  - intros a Ha Hna. rewrite Hothers, Hfr; try done. intros ->. apply Ha.
    destruct (pool_thread P i t Hst Ht) as (t0 & Ht0 & [= -> _ _ _]).
    apply list_elem_of_fmap. exists t0. split; [done|].
    by eapply list_elem_of_lookup_2.
  - congruence.
Qed.

(** An enabled thread of the pool steps, and the invariant holds after. *)
Lemma plain_step P s i t :
  indep_inv P s -> threads P !! i = Some t -> enabled t = true ->
  exists p s', thread_step cls t s = Done p s' /\
    indep_inv (advance i t (inr p) P) s'.
Proof.
  intros Hinv Ht He.
  pose proof Hinv as (Hst & Hstage & _).
  pose proof (pool_thread_plain P i t Hst Ht) as Hpl.
  pose proof Hpl as (_ & _ & Hfd).
  specialize (Hstage i t Ht). unfold enabled, stage in *.
  destruct (t_pc t) as [|old|old|old|old| |e] eqn:Hpc; try done.
  - eexists _, s. split; [by apply read_step; unfold stage; rewrite ?Hpc|].
    apply (indep_inv_advance P s); unfold dirtied, stage, compare, changes;
      rewrite ?Hpc; simpl; try done; destruct (py_ne _ _) eqn:Hne; simpl;
      rewrite ?andb_false_r; done.
  - eexists _, _. split; [by eapply write_step|]. destruct Hstage as (? & ? & ?).
    apply (indep_inv_advance P s); unfold dirtied, stage; rewrite ?Hpc; simpl;
      try done.
    + split; [apply lookup_insert_eq|done].
    + intros a Ha _. by rewrite lookup_insert_ne.
    + by rewrite lookup_insert_ne.
  - eexists _, _. split; [by eapply dirty_step|]. destruct Hstage as [Hf Hch].
    apply (indep_inv_advance P s); unfold dirtied, stage, set_dirty;
      rewrite ?Hpc; simpl; try done;
      change (changes (at_pc Finished t)) with (changes t);
      rewrite ?Hch, ?andb_true_r; destruct (t_auto_dirty t); simpl; try done.
    + by rewrite lookup_insert_ne.
    + intros a _ Ha. by rewrite lookup_insert_ne.
    + by rewrite lookup_insert_eq.
Qed.

(** *** Schedules *)

Lemma pool_step_indep i P s :
  indep_inv P s ->
  exists P' s', pool_step cls i P s = Done P' s' /\ indep_inv P' s'.
Proof.
  intros Hinv. unfold pool_step.
  destruct (threads P !! i) as [t|] eqn:Ht; [destruct (enabled t) eqn:He|];
    [|by exists P, s..].
  destruct (plain_step P s i t Hinv Ht He) as (p & s' & Hstep & Hinv').
  exists (advance i t (inr p) P), s'. split; [|done].
  unfold bind, attempt. by rewrite Hstep.
Qed.

Lemma run_schedule_indep sched P s :
  indep_inv P s ->
  exists P' s', run_schedule cls sched P s = Done P' s' /\ indep_inv P' s'.
Proof.
  revert P s. induction sched as [|i sched IH]; intros P s Hinv; simpl;
    [by exists P, s|].
  destruct (pool_step_indep i P s Hinv) as (P1 & s1 & H1 & Hinv1).
  destruct (IH P1 s1 Hinv1) as (P' & s' & H' & Hinv').
  exists P', s'. split; [|done]. unfold bind. by rewrite H1.
Qed.

Lemma fresh_indep : indep_inv (fresh_pool ts) s0.
Proof.
  split_and!; simpl; try done.
  - by rewrite <-list_fmap_compose.
  - intros i t. rewrite list_lookup_fmap. by destruct (ts !! i); intros [= <-].
  - by induction ts.
Qed.

(** The instance is a function of the stages of the threads. *)
Lemma indep_inv_determines P s P' s' :
  indep_inv P s -> indep_inv P' s' -> threads P = threads P' -> s = s'.
Proof.
  intros (Hst & Hstage & Hd & Hfr & Hout) (_ & Hstage' & Hd' & Hfr' & Hout')
    Heq.
  destruct s as [m o], s' as [m' o']. simpl in *. f_equal; [|congruence].
  apply map_eq. intros a.
  destruct (decide (a = "_is_dirty")) as [->|Hna]; [by rewrite Hd, Hd', Heq|].
  destruct (decide (a ∈ t_field <$> ts)) as [Hin|Hin]; [|by rewrite Hfr, Hfr'].
  apply list_elem_of_fmap in Hin as (t0 & -> & [i Hi]%list_elem_of_lookup_1).
  assert (exists t, threads P !! i = Some t /\ t_field t = t_field t0)
    as (t & Ht & Hf).
  { apply (f_equal (fun l => l !! i)) in Hst.
    rewrite !list_lookup_fmap, Hi in Hst.
    destruct (threads P !! i) as [t|]; [|done]. exists t. split; [done|].
    simpl in Hst. by injection Hst. }
  pose proof (Hstage i t Ht) as H1. rewrite Heq in Ht.
  pose proof (Hstage' i t Ht) as H2. unfold stage in *. simpl in *.
  rewrite <-Hf. destruct (t_pc t); destruct_and?; done || congruence.
Qed.

(** A fair schedule ends every thread by its return. *)
Lemma fair_finished sched P' s' :
  fair sched -> run_schedule cls sched (fresh_pool ts) s0 = Done P' s' ->
  indep_inv P' s' -> threads P' = at_pc Finished <$> ts.
Proof.
  intros Hfair Hrun (Hst & Hstage & _). apply list_eq. intros i.
  rewrite list_lookup_fmap.
  pose proof Hst as Hi. apply (f_equal (fun l => l !! i)) in Hi.
  rewrite !list_lookup_fmap in Hi.
  destruct (ts !! i) as [t0|] eqn:Ht0; [|by destruct (threads P' !! i)].
  assert ((threads (fresh_pool ts)) !! i = Some (at_pc AtRead t0)) as Hf
    by (simpl; by rewrite list_lookup_fmap, Ht0).
  destruct (run_schedule_lookup cls sched _ _ _ _ i _ Hrun Hf)
    as (t' & Ht' & Hle).
  specialize (Hfair i (lookup_lt_Some _ _ _ Ht0)). specialize (Hstage i t' Ht').
  rewrite Ht' in *. simpl in *. injection Hi as Hf' Hl Hb Hn. f_equal.
  unfold stage in Hstage. destruct t' as [f l b v p]. simpl in *.
  destruct p; simpl in *; try done; try lia. unfold at_pc. simpl. congruence.
Qed.

Lemma sequential_cons i order :
  sequential (i :: order) = (replicate 5 i ++ sequential order)%list.
Proof. done. Qed.

(** The serial schedule is fair. *)
Lemma sequential_fair : fair (sequential (seq 0 (length ts))).
Proof.
  intros i Hi. assert (i ∈ seq 0 (length ts)) as Hin
    by (apply elem_of_seq; lia).
  induction (seq 0 (length ts)) as [|j l IH]; [by apply elem_of_nil in Hin|].
  rewrite sequential_cons. unfold occurrences in *.
  rewrite filter_app, length_app.
  apply elem_of_cons in Hin as [->|Hin]; [|specialize (IH Hin); lia].
  assert (filter (eq j) (replicate 5 j) = replicate 5 j) as ->; [|simpl; lia].
  simpl. by repeat (rewrite filter_cons_True by done).
Qed.

End Independence.

(** ** Theorems *)

Section Theorems.
Context (cls : gmap string class_attr) {I : Invoke}.

(** C28. Assignments to different properties do not race. For threads that
    run setters without listener on pairwise different backing fields left
    to the instance, every schedule returns, for every interpreter and
    without fuel; and any two schedules that give every thread its turns
    end in the same instance, with every thread returned: the order in
    which the threads take their steps cannot be observed. *)
Theorem independent_confluent s0 ts sched sched' :
  independent cls ts -> fair ts sched -> fair ts sched' ->
  exists P P' s',
    run_schedule cls sched (fresh_pool ts) s0 = Done P s' /\
    run_schedule cls sched' (fresh_pool ts) s0 = Done P' s' /\
    threads P = at_pc Finished <$> ts /\ threads P' = at_pc Finished <$> ts.
Proof.
  intros Hind Hf Hf'.
  pose proof (fresh_indep s0 ts) as H0.
  destruct (run_schedule_indep cls s0 ts Hind sched _ _ H0)
    as (P & s & Hrun & Hinv).
  destruct (run_schedule_indep cls s0 ts Hind sched' _ _ H0)
    as (P' & s' & Hrun' & Hinv').
  pose proof (fair_finished cls s0 ts sched P s Hf Hrun Hinv) as HP.
  pose proof (fair_finished cls s0 ts sched' P' s' Hf' Hrun' Hinv') as HP'.
  exists P, P', s. split_and!; try done.
  by rewrite (indep_inv_determines s0 ts P s P' s' Hinv Hinv')
    by congruence.
Qed.

End Theorems.
