(* ===== verification/SelfProperties.v ===== *)
(** * SelfProperties: the bulk initialiser (source lines 9-27).

    [scope] is a dictionary iterated in insertion order: a list of pairs
    with distinct keys. [exclude] is whatever the caller passes: the
    docstring asks for a tuple, and the code applies [in] to it, so a string
    is searched for substrings and a value that is not iterable raises
    [TypeError] at the first key other than ['self']. The source has the
    loop twice, once collecting the values ([copy_loop_args], lines 18-22)
    and once not ([copy_loop], lines 25-27); [self_properties] chooses
    between them on [save_args]. Every write is a [setattr], so a property
    of the class named ['_' + k] would be assigned through its setter. *)

From stdpp Require Import base list strings gmap.
From S2P Require Import Prelude Values Objects.

(** Lines 20 and 26: [k != 'self' and k not in exclude]. The right operand
    is evaluated for a key other than ['self'] only. *)
Definition copied (exclude : value) (k : string) : Py bool :=
  if String.eqb k "self" then ret false
  else match py_contains exclude (VStr k) with
       | Member b => ret (negb b)
       | MemberTypeError => raise (TypeError "argument is not iterable")
       | MemberUnmodelled => unmodelled
       end.

(** The attribute an entry is copied to: ['_' + k]. *)
Definition target (k : string) : string := "_" +:+ k.

Section SelfProperties.
Context (cls : gmap string class_attr) {I : Invoke}.

(** Lines 25-27. *)
Definition copy_loop (exclude : value) (scope : list (string * value))
  : Py unit :=
  for_each (fun kv =>
      let! c := copied exclude kv.1 in
      when c (setattr cls (target kv.1) kv.2))
    scope.

(** Lines 18-22, with the list [args] as an accumulator. *)
Fixpoint copy_loop_args (exclude : value) (scope : list (string * value))
    (args : list value) : Py (list value) :=
  match scope with
  | [] => ret args
  | (k, v) :: rest =>
      let! c := copied exclude k in
      if c then
        run! setattr cls (target k) v in
        copy_loop_args exclude rest (args ++ [v])
      else copy_loop_args exclude rest args
  end.

(** Lines 9-27. *)
Definition self_properties (scope : list (string * value))
    (exclude : value) (save_args : bool) : Py unit :=
  if save_args then
    let! args := copy_loop_args exclude scope [] in
    setattr cls "_args" (VTuple args)
  else copy_loop exclude scope.

End SelfProperties.

(** ** Specification *)

(** [k in exclude], where the test gives a truth value. *)
Definition member (exclude : value) (k : string) : bool :=
  match py_contains exclude (VStr k) with
  | Member b => b
  | _ => false
  end.

(** The entry of key [k] is copied. *)
Definition copies (exclude : value) (k : string) : bool :=
  negb (String.eqb k "self") && negb (member exclude k).

(** The entries that are copied, in order. *)
Definition copied_items (exclude : value) (scope : list (string * value))
  : list (string * value) :=
  filter (fun kv => copies exclude kv.1 = true) scope.

(** The scope has the key ['self'] and no other. *)
Definition only_self (scope : list (string * value)) : bool :=
  forallb (fun kv => String.eqb kv.1 "self") scope.

(** The instance after the entries were written to its [__dict__]. *)
Definition write_items (items : list (string * value)) (s : state) : state :=
  foldl (fun s kv => set_attr (target kv.1) kv.2 s) s items.

(** The state [self_properties] leaves when no write meets a property. *)
Definition initialised (scope : list (string * value)) (exclude : value)
    (save_args : bool) (s : state) : state :=
  let s' := write_items (copied_items exclude scope) s in
  if save_args
  then set_attr "_args" (VTuple (copied_items exclude scope).*2) s'
  else s'.

(** The value of attribute [a] after the [items] were written over an
    attribute that held [before]: the last item that targets [a] wins. *)
Definition last_write (items : list (string * value)) (a : string)
    (before : option value) : option value :=
  foldl (fun r kv => if decide (target kv.1 = a) then Some kv.2 else r)
    before items.

(** What the attribute [a] of the instance holds after [self_properties]. *)
Definition expected_attr (scope : list (string * value))
    (exclude : value) (save_args : bool) (s : state) (a : string)
  : option value :=
  if save_args && bool_decide (a = "_args")
  then Some (VTuple (copied_items exclude scope).*2)
  else last_write (copied_items exclude scope) a (attrs s !! a).

(** No copied entry targets a property of the class. *)
Definition targets_plain (cls : gmap string class_attr)
    (items : list (string * value)) : Prop :=
  Forall (fun kv => plain_attr cls (target kv.1) = true) items.

(** ** Lemmas *)

Lemma target_inj k k' : target k = target k' -> k = k'.
Proof. unfold target. by intros [=]. Qed.

Lemma copies_self exclude : copies exclude "self" = false.
Proof. done. Qed.

Lemma copies_member exclude k : member exclude k = true -> copies exclude k = false.
Proof. unfold copies. intros ->. apply andb_false_r. Qed.

(** In a tuple the key is looked for with [==], which on strings is
    equality; in a string, as a substring. *)
Lemma member_tuple t k : member (VTuple t) k = true <-> VStr k ∈ t.
Proof.
  unfold member. simpl. rewrite py_in_spec, Exists_exists. split.
  - intros (v & Hv & [[[=] _]|He]). by inversion He; simplify_eq/=.
  - intros Hk. by exists (VStr k).
Qed.

Lemma member_string x k : member (VStr x) k = py_substring k x.
Proof. done. Qed.

(** The three ways the test of lines 20 and 26 goes; none changes the
    instance. *)
Lemma copied_cases exclude k s :
  copied exclude k s = Done (copies exclude k) s \/
  (exists e, copied exclude k s = Raised e s) \/
  copied exclude k s = Unmodelled.
Proof.
  unfold copied, copies, member. destruct (String.eqb k "self"); [by left|].
  destruct (py_contains exclude (VStr k)); eauto.
Qed.

(** On a tuple or a string the test returns. *)
Lemma copied_iterable exclude k s :
  iterable exclude = true -> copied exclude k s = Done (copies exclude k) s.
Proof.
  intros [b Hb]%(py_contains_iterable _ k). unfold copied, copies, member.
  rewrite Hb. by destruct (String.eqb k "self").
Qed.

Lemma copied_items_cons exclude k v scope :
  copied_items exclude ((k, v) :: scope) =
  if copies exclude k then (k, v) :: copied_items exclude scope
  else copied_items exclude scope.
Proof.
  unfold copied_items. rewrite filter_cons. simpl.
  destruct (copies exclude k); by case_decide.
Qed.

Lemma copied_items_only_self exclude scope :
  only_self scope = true -> copied_items exclude scope = [].
Proof.
  induction scope as [|[k v] scope IH]; [done|]. simpl.
  intros [Hk Hs]%andb_true_iff. rewrite copied_items_cons.
  unfold copies. rewrite Hk. by apply IH.
Qed.

Lemma write_items_output items s : output (write_items items s) = output s.
Proof.
  revert s. induction items as [|kv items IH]; intros s; [done|].
  simpl. by rewrite IH.
Qed.

Lemma write_items_app items items' s :
  write_items (items ++ items') s = write_items items' (write_items items s).
Proof. apply foldl_app. Qed.

(** A name that no item targets keeps its value. *)
Lemma write_items_lookup_ne items name s :
  name ∉ (target ∘ fst) <$> items ->
  attrs (write_items items s) !! name = attrs s !! name.
Proof.
  revert s. induction items as [|[k v] items IH]; intros s; [done|].
  rewrite fmap_cons, not_elem_of_cons. intros [Hne Hni]. simpl.
  rewrite IH by done. by apply set_attr_lookup_ne.
Qed.

(** With distinct keys, every item reads back. *)
Lemma write_items_lookup items k v s :
  NoDup items.*1 -> (k, v) ∈ items ->
  attrs (write_items items s) !! target k = Some v.
Proof.
  revert s. induction items as [|[k' v'] items IH]; intros s;
    [by intros _ ?%elem_of_nil|].
  rewrite fmap_cons, NoDup_cons. intros [Hk' Hnd] [[= -> ->]|Hin]%elem_of_cons.
  - simpl. rewrite write_items_lookup_ne; [apply set_attr_lookup|].
    intros (kv & Heq & Hkv)%list_elem_of_fmap. simpl in Heq.
    apply target_inj in Heq as ->. apply Hk', list_elem_of_fmap. by exists kv.
  - simpl. by apply IH.
Qed.

(** Attribute by attribute, writing the items is [last_write]. *)
Lemma write_items_last_write items a s :
  attrs (write_items items s) !! a = last_write items a (attrs s !! a).
Proof.
  revert s. induction items as [|[k v] items IH]; intros s; [done|].
  simpl. rewrite IH. f_equal. case_decide as Hk.
  - subst a. apply set_attr_lookup.
  - by apply set_attr_lookup_ne.
Qed.

Lemma initialised_output scope exclude save_args s :
  output (initialised scope exclude save_args s) = output s.
Proof.
  unfold initialised. destruct save_args; simpl; apply write_items_output.
Qed.

Lemma initialised_expected scope exclude save_args s a :
  attrs (initialised scope exclude save_args s) !! a =
  expected_attr scope exclude save_args s a.
Proof.
  unfold initialised, expected_attr. destruct save_args; cbn [andb];
    [|apply write_items_last_write].
  case_bool_decide as Ha.
  - subst a. apply set_attr_lookup.
  - rewrite set_attr_lookup_ne by done. apply write_items_last_write.
Qed.

Section Facts.
Context (cls : gmap string class_attr) {I : Invoke}.
Implicit Types (s : state) (scope : list (string * value)).

Lemma copy_loop_cons exclude k v scope :
  copy_loop cls exclude ((k, v) :: scope) =
  (run! (let! c := copied exclude k in when c (setattr cls (target k) v)) in
   copy_loop cls exclude scope).
Proof. done. Qed.

(** One turn of the loop when the test returns. *)
Lemma copy_loop_cons_done exclude k v scope s :
  copied exclude k s = Done (copies exclude k) s ->
  copy_loop cls exclude ((k, v) :: scope) s =
  (run! when (copies exclude k) (setattr cls (target k) v) in
   copy_loop cls exclude scope) s.
Proof. intros Hc. rewrite copy_loop_cons. unfold bind at 1 2. by rewrite Hc. Qed.

(** The collecting loop is the plain loop followed by the collected values:
    for every class, interpreter and [exclude], exceptions and setters
    included. *)
Lemma copy_loop_args_copy_loop exclude scope args s :
  copy_loop_args cls exclude scope args s =
  (run! copy_loop cls exclude scope in
   ret (args ++ (copied_items exclude scope).*2)) s.
Proof.
  revert args s. induction scope as [|[k v] scope IH]; intros args s.
  - unfold_m. simpl. by rewrite app_nil_r.
  - simpl. rewrite copied_items_cons, copy_loop_cons. unfold bind.
    destruct (copied_cases exclude k s) as [Hc|[[e Hc]|Hc]]; rewrite Hc;
      [|done..].
    destruct (copies exclude k); simpl.
    + destruct (setattr cls (target k) v s); try done.
      rewrite IH. unfold bind. by rewrite <-app_assoc.
    + apply IH.
Qed.

Lemma copy_loop_plain exclude scope s :
  iterable exclude = true ->
  targets_plain cls (copied_items exclude scope) ->
  copy_loop cls exclude scope s =
  Done tt (write_items (copied_items exclude scope) s).
Proof.
  intros Hi. revert s. induction scope as [|[k v] scope IH]; intros s; [done|].
  rewrite copied_items_cons, copy_loop_cons_done by by apply copied_iterable.
  destruct (copies exclude k); simpl.
  - intros [Hk Hrest]%Forall_cons. erewrite bind_done by by apply setattr_plain.
    by apply IH.
  - intros Hrest. rewrite bind_ret_l. by apply IH.
Qed.

(** With an [exclude] that [in] cannot search, the loop ends at the first
    key other than ['self'], before it has written anything. *)
Lemma copy_loop_type_error exclude scope s :
  (forall k, py_contains exclude (VStr k) = MemberTypeError) ->
  copy_loop cls exclude scope s =
  if only_self scope then Done tt s
  else Raised (TypeError "argument is not iterable") s.
Proof.
  intros He. induction scope as [|[k v] scope IH]; [done|].
  rewrite copy_loop_cons. unfold bind, copied. simpl. rewrite He.
  by destruct (String.eqb k "self").
Qed.

(** When no write meets a property the function returns normally, in the
    state [initialised]. *)
Lemma self_properties_plain scope exclude save_args s :
  iterable exclude = true ->
  targets_plain cls (copied_items exclude scope) ->
  plain_attr cls "_args" = true ->
  self_properties cls scope exclude save_args s =
  Done tt (initialised scope exclude save_args s).
Proof.
  intros Hi Ht Ha. unfold self_properties, initialised. destruct save_args.
  - unfold bind. rewrite copy_loop_args_copy_loop.
    erewrite bind_done by by apply copy_loop_plain.
    by apply setattr_plain.
  - by apply copy_loop_plain.
Qed.

End Facts.

(** ** Theorems *)

Section Theorems.
Context (cls : gmap string class_attr) {I : Invoke}.
Implicit Types (s : state) (scope : list (string * value)).

(** C4. When no copied entry and not [_args] names a property of the class,
    [self_properties] returns normally, prints nothing, and leaves every
    attribute [a] of the instance as follows: with [save_args], [_args] is
    the tuple of the copied values in the scope's order; otherwise [a] holds
    the value of the last copied entry whose key [k] has ['_' + k = a], or
    what it held before when there is none. *)
Theorem self_properties_spec scope exclude save_args s :
  iterable exclude = true ->
  targets_plain cls (copied_items exclude scope) ->
  plain_attr cls "_args" = true ->
  exists s', self_properties cls scope exclude save_args s = Done tt s' /\
    output s' = output s /\
    forall a, attrs s' !! a = expected_attr scope exclude save_args s a.
Proof.
  intros Hi Ht Ha. eexists. split; [by apply self_properties_plain|].
  split; [apply initialised_output|]. intros a. apply initialised_expected.
Qed.

(** C13. An [exclude] that [in] cannot search ([None], a number, a bound
    method) makes the function raise [TypeError] at the first key other
    than ['self'], with the instance untouched; on a scope without such a
    key the test never runs, and the function returns, storing the empty
    tuple as [_args] when asked to save the arguments. *)
Theorem self_properties_type_error scope exclude save_args s :
  (forall k, py_contains exclude (VStr k) = MemberTypeError) ->
  self_properties cls scope exclude save_args s =
  if only_self scope
  then (if save_args then setattr cls "_args" (VTuple []) s else Done tt s)
  else Raised (TypeError "argument is not iterable") s.
Proof.
  intros He. unfold self_properties. destruct save_args;
    [|by apply copy_loop_type_error].
  unfold bind. rewrite copy_loop_args_copy_loop. unfold bind.
  rewrite copy_loop_type_error by done.
  destruct (only_self scope) eqn:Hs; [|done].
  by rewrite copied_items_only_self.
Qed.

(** C12. The two loops of the source agree: with [save_args] the function
    does what it does without, and then stores the collected values. This
    holds for every class, also when a write runs a setter or raises. *)
Theorem self_properties_save_args scope exclude s :
  self_properties cls scope exclude true s =
  (run! self_properties cls scope exclude false in
   setattr cls "_args" (VTuple (copied_items exclude scope).*2)) s.
Proof.
  unfold self_properties, bind. rewrite copy_loop_args_copy_loop.
  unfold bind, ret. by destruct (copy_loop cls exclude scope s).
Qed.

(** An entry that is copied reads back from the instance, unless it is the
    entry [args] and [save_args] overwrote it. *)
Lemma initialised_lookup scope exclude save_args s k v :
  NoDup scope.*1 -> (k, v) ∈ scope -> copies exclude k = true ->
  (save_args = true -> k <> "args") ->
  attrs (initialised scope exclude save_args s) !! target k = Some v.
Proof.
  intros Hnd Hin Hc Hk.
  assert (attrs (write_items (copied_items exclude scope) s) !! target k
          = Some v) as Hw.
  { apply write_items_lookup.
    - eapply sublist_NoDup; [done|]. apply fmap_sublist, sublist_filter.
    - by apply list_elem_of_filter. }
  unfold initialised. destruct save_args; [|done].
  rewrite set_attr_lookup_ne; [done|].
  intros Heq. apply (Hk eq_refl), target_inj. by rewrite <-Heq.
Qed.

(** An entry that is not copied leaves the attribute it would have been
    written to as it was. *)
Lemma initialised_lookup_skipped scope exclude s k :
  copies exclude k = false ->
  attrs (initialised scope exclude false s) !! target k =
  attrs s !! target k.
Proof.
  intros Hc. unfold initialised. apply write_items_lookup_ne.
  intros (kv & Heq & [Hkv _]%list_elem_of_filter)%list_elem_of_fmap.
  simpl in Heq. apply target_inj in Heq as ->. congruence.
Qed.

(** Every copied entry of a scope with distinct keys can be read back
    from the instance under ['_' + key]; with [save_args] the entry [args]
    is the exception, since [_args] then holds the tuple. *)
Theorem self_properties_reads_back scope exclude save_args s k v :
  iterable exclude = true ->
  targets_plain cls (copied_items exclude scope) ->
  plain_attr cls "_args" = true ->
  NoDup scope.*1 -> (k, v) ∈ scope ->
  k <> "self" -> member exclude k = false ->
  (save_args = true -> k <> "args") ->
  exists s', self_properties cls scope exclude save_args s = Done tt s' /\
    attrs s' !! target k = Some v.
Proof.
  intros Hi Ht Ha Hnd Hin Hs Hm Hk.
  assert (copies exclude k = true) as Hc.
  { unfold copies. rewrite Hm. by apply andb_true_iff, conj, eq_refl;
      apply negb_true_iff, String.eqb_neq. }
  eexists. split.
  - by apply self_properties_plain.
  - by apply initialised_lookup.
Qed.

(** C36. The instance reference and the excluded names are not copied: the
    attribute ['_' + k] of such a key [k] is left as it was. A name is
    excluded when it is a component of the tuple [exclude], or occurs in
    the string [exclude]. *)
Theorem self_properties_skips scope exclude save_args s k :
  iterable exclude = true ->
  targets_plain cls (copied_items exclude scope) ->
  plain_attr cls "_args" = true ->
  k = "self" \/ member exclude k = true ->
  k <> "args" ->
  exists s', self_properties cls scope exclude save_args s = Done tt s' /\
    attrs s' !! target k = attrs s !! target k.
Proof.
  intros Hi Ht Ha Hk Hargs. eexists. split; [by apply self_properties_plain|].
  assert (copies exclude k = false) as Hc
    by (destruct Hk as [->|?]; auto using copies_self, copies_member).
  rewrite <-(initialised_lookup_skipped scope exclude s k Hc).
  unfold initialised. destruct save_args; [|done].
  apply set_attr_lookup_ne. intros Heq. by apply Hargs, target_inj.
Qed.

End Theorems.
