(* ===== verification/Construct.v ===== *)
(** * Construct: constructors that hand their arguments to [self_properties].

    The source's example initialises an instance with
    [def __init__(self, brand, max_speed=200): self_properties(self, locals())]
    (lines 121-122): the scope of the bulk initialiser is [locals()] of the
    constructor, which holds [self] and then the parameters in the order of
    the signature, bound to the arguments of the call or to their
    defaults. [construct] is such a constructor for any signature, exclusion
    and [save_args] ([Objects.init]); [instantiate] is the call of a class,
    which runs the constructor the class binds to [__init__]; [clone] is
    the use the args tuple is kept for, a second instance made from the
    arguments the first one saved. *)

From stdpp Require Import base list strings gmap.
From S2P Require Import Prelude Values Objects SelfProperties.

(** ** Calls *)

(** Positional arguments bound to the parameters, in the order of the
    signature: a parameter without argument takes its default, and the call
    raises [TypeError] when it has none or when arguments are left over. *)
Fixpoint bind_positional (params : list param) (args : list value)
  : exn + list (string * value) :=
  match params with
  | [] =>
      match args with
      | [] => inr []
      | _ :: _ => inl (TypeError "too many positional arguments")
      end
  | p :: params' =>
      match args, p_default p with
      | a :: args', _ =>
          match bind_positional params' args' with
          | inl e => inl e
          | inr bound => inr ((p_name p, a) :: bound)
          end
      | [], Some d =>
          match bind_positional params' [] with
          | inl e => inl e
          | inr bound => inr ((p_name p, d) :: bound)
          end
      | [], None => inl (TypeError "missing a required positional argument")
      end
  end.

(** [locals()] at the first statement of the constructor. *)
Definition locals_of (self : value) (bound : list (string * value))
  : list (string * value) :=
  ("self", self) :: bound.

Section Construct.
Context (cls : gmap string class_attr) {I : Invoke}.

(** The call [__init__(self, *args)]. *)
Definition construct (c : init) (self : value) (args : list value) : Py unit :=
  match bind_positional (i_params c) args with
  | inl e => raise e
  | inr bound =>
      self_properties cls (locals_of self bound) (i_exclude c) (i_save_args c)
  end.

(** The class called on [args], for the new instance [self]: the
    constructor the class binds to [__init__] runs; a class that binds none
    takes no arguments; a constructor with a body of its own must return
    [None]. *)
Definition instantiate (self : value) (args : list value) : Py unit :=
  match cls !! "__init__" with
  | Some (AInit c) => construct c self args
  | Some (AFunction f) =>
      let! r := invoke (CFunc f) args in
      match r with
      | VNone => ret tt
      | _ => raise (TypeError "__init__() should return None")
      end
  | Some _ => unmodelled
  | None =>
      match args with
      | [] => ret tt
      | _ :: _ => raise (TypeError "takes no arguments")
      end
  end.

(** The class called on the items of [inst._args], for the instance [s]:
    the outcome of the constructor on a new instance. *)
Definition clone (c : init) (self : value) (s : state)
  : outcome exn state unit :=
  match attrs s !! "_args" with
  | Some (VTuple args) => construct c self args empty_state
  | Some _ => Unmodelled
  | None => Raised (AttributeError "_args") empty_state
  end.

End Construct.

(** ** Specification *)

(** Every parameter is copied: none is called [self], none is excluded. *)
Definition all_copied (c : init) : Prop :=
  Forall (fun p => copies (i_exclude c) (p_name p) = true) (i_params c).

(** No parameter is copied to a property of the class. *)
Definition params_plain (cls : gmap string class_attr) (c : init) : Prop :=
  Forall (fun p => plain_attr cls (target (p_name p)) = true) (i_params c).

(** ** Lemmas *)

Lemma bind_positional_names params args bound :
  bind_positional params args = inr bound -> bound.*1 = p_name <$> params.
Proof.
  revert args bound. induction params as [|p params IH]; intros args bound.
  { destruct args; [|done]. by intros [= <-]. }
  simpl. destruct args as [|a args], (p_default p) as [d|]; try done;
    destruct (bind_positional params _) as [|l] eqn:Hl; try done;
    intros [= <-]; simpl; f_equal; eauto.
Qed.

(** The values a call has bound, passed again, are bound alike. *)
Lemma bind_positional_idem params args bound :
  bind_positional params args = inr bound ->
  bind_positional params bound.*2 = inr bound.
Proof.
  revert args bound. induction params as [|p params IH]; intros args bound.
  { destruct args; [|done]. by intros [= <-]. }
  simpl. destruct args as [|a args], (p_default p) as [d|]; try done;
    destruct (bind_positional params _) as [|l] eqn:Hl; try done;
    intros [= <-]; simpl; by erewrite IH.
Qed.

(** Without defaults, fewer arguments than parameters are not enough. *)
Lemma bind_positional_missing params args :
  Forall (fun p => p_default p = None) params ->
  length args < length params ->
  bind_positional params args =
  inl (TypeError "missing a required positional argument").
Proof.
  intros Hd. revert args. induction Hd as [|p params Hp _ IH]; intros args.
  { simpl. lia. }
  simpl. rewrite Hp. destruct args as [|a args]; [done|]. simpl.
  intros Hl. rewrite IH by lia. done.
Qed.

Lemma bind_positional_too_many params args :
  length params < length args ->
  bind_positional params args = inl (TypeError "too many positional arguments").
Proof.
  revert args. induction params as [|p params IH]; intros [|a args]; simpl;
    try lia; [done|].
  intros Hl. rewrite IH by lia. by destruct (p_default p).
Qed.

(** The entry [self] is never copied. *)
Lemma copied_items_locals exclude self bound :
  copied_items exclude (locals_of self bound) = copied_items exclude bound.
Proof. unfold locals_of. by rewrite copied_items_cons. Qed.

Lemma initialised_locals exclude save_args self bound s :
  initialised (locals_of self bound) exclude save_args s =
  initialised bound exclude save_args s.
Proof. unfold initialised. by rewrite copied_items_locals. Qed.

Lemma copied_items_all exclude (l : list (string * value)) :
  Forall (fun k => copies exclude k = true) l.*1 -> copied_items exclude l = l.
Proof.
  induction l as [|[k v] l IH]; [done|]. rewrite fmap_cons, Forall_cons.
  intros [Hk Hl]. rewrite copied_items_cons. simpl in Hk. rewrite Hk.
  by rewrite IH.
Qed.

Lemma copied_items_some exclude (l : list (string * value)) :
  Exists (fun k => copies exclude k = false) l.*1 ->
  length (copied_items exclude l) < length l.
Proof.
  induction l as [|[k v] l IH]; [by intros ?%Exists_nil|].
  rewrite fmap_cons, Exists_cons, copied_items_cons. simpl.
  pose proof (length_filter (fun kv => copies exclude kv.1 = true) l) as Hle.
  fold (copied_items exclude l) in Hle.
  intros [->|Hl]; [lia|]. destruct (copies exclude k); simpl; [|lia].
  apply IH in Hl. lia.
Qed.

Section Facts.
Context (cls : gmap string class_attr) {I : Invoke}.
Context (c : init).
Context (Hiter : iterable (i_exclude c) = true).
Context (Hplain : params_plain cls c) (Hargs : plain_attr cls "_args" = true).
Implicit Types (s : state) (bound : list (string * value)).

Lemma bound_plain args bound :
  bind_positional (i_params c) args = inr bound ->
  targets_plain cls (copied_items (i_exclude c) bound).
Proof.
  intros Hb%bind_positional_names. unfold targets_plain, copied_items.
  apply Forall_forall. intros [k v] [_ Hin]%list_elem_of_filter. simpl.
  assert (k ∈ p_name <$> i_params c) as (p & -> & Hp)%list_elem_of_fmap.
  { rewrite <- Hb. apply list_elem_of_fmap. by exists (k, v). }
  by apply (proj1 (Forall_forall _ _) Hplain).
Qed.

(** The constructor on arguments that bind. *)
Lemma construct_bound args bound self s :
  bind_positional (i_params c) args = inr bound ->
  construct cls c self args s =
  Done tt (initialised bound (i_exclude c) (i_save_args c) s).
Proof.
  intros Hb. unfold construct. rewrite Hb.
  rewrite self_properties_plain, initialised_locals; try done.
  rewrite copied_items_locals. by eapply bound_plain.
Qed.

(** What a constructor that returned has bound and saved. *)
Lemma construct_done_inv self args s s' :
  construct cls c self args s = Done tt s' ->
  exists bound, bind_positional (i_params c) args = inr bound /\
    s' = initialised bound (i_exclude c) (i_save_args c) s.
Proof.
  destruct (bind_positional (i_params c) args) as [e|bound] eqn:Hb.
  - unfold construct. by rewrite Hb.
  - rewrite (construct_bound _ _ _ _ Hb). intros [= <-]. eauto.
Qed.

Lemma initialised_args bound s :
  i_save_args c = true ->
  attrs (initialised bound (i_exclude c) (i_save_args c) s) !! "_args" =
  Some (VTuple (copied_items (i_exclude c) bound).*2).
Proof. intros ->. unfold initialised. apply set_attr_lookup. Qed.

End Facts.

(** ** Theorems *)

Section Theorems.
Context (cls : gmap string class_attr) {I : Invoke}.
Context (c : init).
Context (Hiter : iterable (i_exclude c) = true).
Context (Hplain : params_plain cls c) (Hargs : plain_attr cls "_args" = true).
Implicit Types (s : state) (bound : list (string * value)).

(** A call with more arguments than parameters raises [TypeError] before
    anything is written. *)
Lemma construct_too_many self args s :
  length (i_params c) < length args ->
  construct cls c self args s =
  Raised (TypeError "too many positional arguments") s.
Proof. intros Hl. unfold construct. by rewrite bind_positional_too_many. Qed.

(** The constructor stores what the call binds. When the arguments
    bind to the parameters, the parameters have distinct names and none is
    copied to a property of the class, the constructor returns, prints
    nothing, and the backing field of every parameter that is not excluded
    holds the argument the call passed for it, or its default when the call
    passed none. With [save_args] the parameter [args] is the exception. *)
Theorem construct_stores self args bound s k v :
  bind_positional (i_params c) args = inr bound ->
  NoDup (p_name <$> i_params c) ->
  (k, v) ∈ bound -> copies (i_exclude c) k = true ->
  (i_save_args c = true -> k <> "args") ->
  exists s', construct cls c self args s = Done tt s' /\
    output s' = output s /\ attrs s' !! target k = Some v.
Proof.
  intros Hb Hnd Hin Hk Ha. eexists. split; [by apply construct_bound|].
  split; [apply initialised_output|].
  apply initialised_lookup; try done.
  by rewrite (bind_positional_names _ _ _ Hb).
Qed.

(** C22. Cloning from the saved arguments. When the constructor saves its
    arguments and every parameter is copied, the class called again on the
    tuple the instance holds in [_args] makes an instance with the same
    attributes: the tuple holds the value of every parameter in the order
    of the signature, defaults included. *)
Theorem clone_roundtrip self self' args s :
  i_save_args c = true -> all_copied c ->
  construct cls c self args empty_state = Done tt s ->
  clone cls c self' s = Done tt s.
Proof.
  intros Hsave Hall (bound & Hb & ->)%construct_done_inv; try done.
  unfold clone. rewrite initialised_args, copied_items_all by
    (done || by rewrite (bind_positional_names _ _ _ Hb), Forall_fmap).
  by apply construct_bound, (bind_positional_idem _ args).
Qed.

(** C30. An exclusion breaks cloning. When the constructor saves its
    arguments, some parameter is excluded and no parameter has a default,
    the saved tuple is shorter than the signature, and the class called on
    it raises [TypeError]: the values of the excluded parameters are not
    in [_args]. *)
Theorem clone_excluded self self' args s :
  i_save_args c = true ->
  Exists (fun p => copies (i_exclude c) (p_name p) = false) (i_params c) ->
  Forall (fun p => p_default p = None) (i_params c) ->
  construct cls c self args empty_state = Done tt s ->
  clone cls c self' s =
  Raised (TypeError "missing a required positional argument") empty_state.
Proof.
  intros Hsave Hex Hnd (bound & Hb & ->)%construct_done_inv; try done.
  unfold clone, construct. rewrite initialised_args by done.
  rewrite bind_positional_missing; [done..|].
  rewrite length_fmap. rewrite <- (length_fmap p_name (i_params c)).
  rewrite <- (bind_positional_names _ _ _ Hb), length_fmap.
  apply copied_items_some.
  rewrite (bind_positional_names _ _ _ Hb). by apply Exists_fmap.
Qed.

End Theorems.
