(* ===== verification/Integration.v ===== *)
(** * Integration: classes built by a [with] block, used through instances.

    The theorems of [Interp] are about one property and the declaration it
    came from. Those of this file are about any class that satisfies the
    invariant of [Lifecycle] ([wf_class], which every class body
    establishes) and keeps the backing fields out of the class
    ([backing_free]): what an assignment through any of its properties may
    touch, and that a constructor calling [self_properties] initialises the
    read-only properties, which is how the source's example uses the two
    halves of the module together. The last section starts from the class
    statement: the class a body defines, called, then read. *)

From stdpp Require Import base list strings gmap.
From S2P Require Import Prelude Values Objects Properties Lifecycle ClassBody.
From S2P Require Import Interp SelfProperties Construct.

(** ** Definitions *)

(** [s'] differs from [s] at most in the attributes [names]; nothing was
    printed. *)
Definition changes_only (names : list string) (s s' : state) : Prop :=
  output s' = output s /\
  forall a, a ∉ names -> attrs s' !! a = attrs s !! a.

(** ** Lemmas *)

Lemma changes_only_refl names s : changes_only names s s.
Proof. done. Qed.

Lemma changes_only_set_attr names name v s :
  name ∈ names -> changes_only names s (set_attr name v s).
Proof.
  intros Hin. split; [apply set_attr_output|]. intros a Ha.
  apply set_attr_lookup_ne. by intros ->.
Qed.

Lemma changes_only_trans names s1 s2 s3 :
  changes_only names s1 s2 -> changes_only names s2 s3 ->
  changes_only names s1 s3.
Proof.
  intros [Ho1 Ha1] [Ho2 Ha2]. split; [congruence|].
  intros a Ha. by rewrite Ha2, Ha1.
Qed.

Lemma changes_only_set_dirty names b s :
  "_is_dirty" ∈ names -> changes_only names s (set_dirty b s).
Proof.
  intros Hin. destruct b; [by apply changes_only_set_attr|done].
Qed.

(** ** Theorems *)

Section Built.
Context (cls : gmap string class_attr).
Context (Hwf : wf_class cls) (Hfree : backing_free cls).
Implicit Types (s : state) (new : value) (n : nat) (p : property).

(** Frame of an assignment. In a class built by declarations, an
    assignment through a property that has no listener returns or raises
    with fuel 1, prints nothing and changes at most the property's backing
    field and [_is_dirty]; it raises only when the property is read-only,
    and then changes nothing. *)
Theorem assign_frame name p n new s :
  cls !! name = Some (AProperty p) ->
  plain_attr cls "_is_dirty" = true ->
  (forall field lname b, fset p <> Some (CSetterListener field lname b)) ->
  exists s', changes_only ["_" +:+ name; "_is_dirty"] s s' /\
    (assign cls (S n) name new s = Done tt s' \/
     fset p = None /\ s' = s /\
     assign cls (S n) name new s = Raised (AttributeError name) s).
Proof.
  intros Hp Hd Hnl.
  destruct (wf_class_view _ _ _ Hwf Hfree Hp) as (f & Hb & Hf & <- & _ & Hv).
  destruct Hv as [Hs|b Hs|l b Hs]; [| |by destruct (Hnl _ _ _ Hs)].
  - exists s. split; [done|]. right. by rewrite (assign_no_setter _ _ _ Hb).
  - eexists. split; [|left; by apply (assign_setter_plain _ _ _ Hb Hf)].
    destruct (py_ne _ _); [|done].
    eapply changes_only_trans;
      [apply changes_only_set_attr|apply changes_only_set_dirty];
      set_solver.
Qed.

(** Constructor, then read. When the constructor's scope holds an
    entry for a declared property, the entry is copied, no copied entry
    meets a property of the class, and the property's default function
    returns normally without changing the instance, then constructing and
    reading the property gives the entry's value: the default is computed
    and discarded. *)
Theorem init_then_read_spec name p n scope exclude v s :
  cls !! name = Some (AProperty p) ->
  iterable exclude = true ->
  targets_plain cls (copied_items exclude scope) ->
  NoDup scope.*1 -> (name, v) ∈ scope -> copies exclude name = true ->
  (forall f s, fget p = Some (CGetter (field_of f) f) ->
     exists d, invoke_fuel cls n (CFunc f) [] s = Done d s) ->
  (run! @self_properties cls (invoke_fuel cls n) scope exclude false in
   read cls (S n) name) s =
  Done v (initialised scope exclude false s).
Proof.
  intros Hp Hi Ht Hnd Hin Hc Hdef.
  destruct (wf_class_view _ _ _ Hwf Hfree Hp) as (f & Hb & Hf & <- & Hg & _).
  unfold self_properties.
  erewrite bind_done by by apply copy_loop_plain.
  change (write_items _ s) with (initialised scope exclude false s).
  destruct (Hdef f (initialised scope exclude false s) Hg) as [d Hd].
  erewrite (read_getter_done _ _ _ Hb) by done.
  change (field_of f) with (target (f_name f)).
  by rewrite (initialised_lookup scope exclude false s (f_name f) v).
Qed.

End Built.

(** ** From the class statement to the first read *)

Section Instances.
Context (body : list cstmt) (cls : gmap string class_attr).
Context (Hdef : class_def body = Done tt cls) (Hfree : backing_free cls).
Context (c : init) (Hinit : cls !! "__init__" = Some (AInit c)).

Lemma class_def_built : wf_class cls.
Proof. pose proof (class_def_wf body) as H. by rewrite Hdef in H. Qed.

(** C35. The class statement, the call of the class and a read, together.
    Let a class body define a class whose constructor hands its arguments
    to [self_properties]. When the arguments of a call bind to the
    parameters, no parameter is copied to a property, and the default
    function of a declared property returns without changing the instance,
    then calling the class and reading the property gives the argument
    bound to the parameter of the property's name, or its default: the
    constructor wrote the backing field the getter reads. *)
Theorem instantiate_then_read name p n self args bound v s :
  cls !! name = Some (AProperty p) ->
  iterable (i_exclude c) = true ->
  params_plain cls c -> plain_attr cls "_args" = true ->
  NoDup (p_name <$> i_params c) ->
  bind_positional (i_params c) args = inr bound ->
  (name, v) ∈ bound -> copies (i_exclude c) name = true ->
  (i_save_args c = true -> name <> "args") ->
  (forall f s, fget p = Some (CGetter (field_of f) f) ->
     exists d, invoke_fuel cls n (CFunc f) [] s = Done d s) ->
  (run! @instantiate cls (invoke_fuel cls n) self args in
   read cls (S n) name) s =
  Done v (initialised bound (i_exclude c) (i_save_args c) s).
Proof.
  intros Hp Hi Hpl Ha Hnd Hb Hin Hc Hk Hfn.
  destruct (wf_class_view _ _ _ class_def_built Hfree Hp)
    as (f & Hbd & Hf & <- & Hg & _).
  unfold instantiate. rewrite Hinit.
  erewrite bind_done by by apply construct_bound.
  destruct (Hfn f (initialised bound (i_exclude c) (i_save_args c) s) Hg)
    as [d Hd].
  erewrite (read_getter_done _ _ _ Hbd) by done.
  change (field_of f) with (target (f_name f)).
  rewrite (initialised_lookup bound _ _ s (f_name f) v); try done.
  by rewrite (bind_positional_names _ _ _ Hb).
Qed.

End Instances.
