(* ===== verification/Exports.v ===== *)
(** * Exports: the module header (source lines 5-7) and its star import.

    The module imports [Union] for one annotation and declares the export
    list [__all__]; the example starts with [from objects import *] (line
    98), which binds the names of that list in the importing module.
    [import_star] is that statement for a module given by the names it
    binds at its top level. *)

From stdpp Require Import base list strings.
From S2P Require Import Objects.

(** ** Definitions *)

(** Line 7. *)
Definition __all__ : list string := ["self_properties"; "properties"].

(** The names the module binds at its top level, in order: the import of
    line 5, the export list of line 7, the function and the class. *)
Definition module_names : list string :=
  ["Union"; "__all__"; "self_properties"; "properties"].

(** A name that does not start with an underscore. *)
Definition public (name : string) : bool :=
  negb (String.prefix "_" name).

(** [from module import *]: with an export list, its names, each of which
    the module must bind ([AttributeError] at the first that it does not);
    without, the public names of the module. *)
Definition import_star (all : option (list string)) (names : list string)
  : exn + list string :=
  match all with
  | Some l =>
      match filter (fun x => x ∉ names) l with
      | [] => inr l
      | x :: _ => inl (AttributeError x)
      end
  | None => inr (filter (fun x => public x = true) names)
  end.

(** Line 98 of the example. *)
Definition example_imports : exn + list string :=
  import_star (Some __all__) module_names.

(** ** Lemmas *)

(** An export list imports, exactly itself, when the module binds each of
    its names. *)
Lemma import_star_all l names :
  import_star (Some l) names = inr l <-> l ⊆ names.
Proof.
  unfold import_star. split.
  - destruct (filter _ l) as [|x r] eqn:Hf; [|done]. intros _ x Hx.
    destruct (decide (x ∈ names)) as [|Hn]; [done|].
    assert (x ∈ filter (fun x => x ∉ names) l) as Hin
      by by apply list_elem_of_filter.
    rewrite Hf in Hin. by apply elem_of_nil in Hin.
  - intros Hl. destruct (filter _ l) as [|x r] eqn:Hf; [done|].
    assert (x ∈ filter (fun x => x ∉ names) l) as [Hn Hx]%list_elem_of_filter
      by (rewrite Hf; left).
    by destruct Hn; apply Hl.
Qed.

(** The example imports the two facilities and nothing else. *)
Lemma example_imports_all :
  example_imports = inr ["self_properties"; "properties"].
Proof. by apply import_star_all, (bool_decide_unpack _). Qed.

(** Without line 7 the star import would bind [Union] too. *)
Lemma import_without_all :
  import_star None module_names =
  inr ["Union"; "self_properties"; "properties"].
Proof. reflexivity. Qed.
