(* ===== verification/Car.v ===== *)
(** * Car: the example of the source's closing comment (lines 96-151).

    The class [Car] declares four properties through [properties.prop]
    ([brand] and [max_speed] read-only, [speed] and [on] with listeners),
    in a block that binds the builder to [meta]; [Car_body] is the class
    body as statements, [Car] the namespace it leaves ([Car_class_def]).
    The class initialises itself with [self_properties(self, locals())]
    ([Car_init], a constructor of [Construct]), and its
    listeners assign properties again: [_on_acceleration] turns the engine
    off above the maximum speed, which runs [_on_off_listener], which resets
    the speed. The driver script accelerates the car off, then on. *)

From stdpp Require Import base list strings gmap.
From S2P Require Import Prelude Values Objects Properties Lifecycle ClassBody.
From S2P Require Import Interp Termination SelfProperties Construct.

#[local] Open Scope string_scope.

(** ** [range(start, stop, step)] as the list it iterates over; [None] is
    the [ValueError] of a zero step. *)
Definition py_range (start stop step : Z) : option (list Z) :=
  if (step =? 0)%Z then None
  else
    let n := if (0 <? step)%Z
             then ((stop - start + step - 1) / step)%Z
             else ((start - stop - step - 1) / (- step))%Z in
    Some ((fun i => (start + Z.of_nat i * step)%Z) <$> seq 0 (Z.to_nat n)).

(** ** The decorated functions (lines 103-119) *)

Definition brand : func :=
  {| f_name := "brand"; f_doc := Some "Brand"; f_params := [];
     f_body := SExpr (EConst (VStr "Brand")) |}.

Definition max_speed : func :=
  {| f_name := "max_speed"; f_doc := Some "Maximum car speed"; f_params := [];
     f_body := SExpr (EConst (VStr "Maximum car speed")) |}.

Definition speed : func :=
  {| f_name := "speed"; f_doc := Some "Speed of the car"; f_params := [];
     f_body := SSeq (SExpr (EConst (VStr "Speed of the car")))
                    (SReturn (EConst (VInt 0))) |}.

Definition on : func :=
  {| f_name := "on"; f_doc := Some "Engine state"; f_params := [];
     f_body := SSeq (SExpr (EConst (VStr "Engine state")))
                    (SReturn (EConst (VBool false))) |}.

(** ** The listeners (lines 124-139) *)

(** [f"{self.brand}<text>"]. *)
Definition brand_says (text : string) : expr :=
  ECat (EStr (EAttr "brand")) (EConst (VStr text)).

Definition _on_off_listener : func :=
  {| f_name := "_on_off_listener"; f_doc := None;
     f_params := ["prop"; "old"; "on"];
     f_body :=
       SIf (EVar "on")
         (SPrint (brand_says " Turned on, Runnnnnn"))
         (SSeq (SSetAttr "_speed" (EConst (VInt 0)))
               (SPrint (brand_says " Turned off."))) |}.

Definition _on_acceleration : func :=
  {| f_name := "_on_acceleration"; f_doc := None;
     f_params := ["prop"; "old"; "speed"];
     f_body :=
       SIf (EAttr "on")
         (SIf (EGt (EVar "speed") (EAttr "max_speed"))
            (SSeq
               (SPrint (ECat (brand_says " ")
                          (ECat (EStr (EVar "speed"))
                             (EConst (VStr "km/h Bang! Engine exploded!")))))
               (SSetAttr "on" (EConst (VBool false))))
            (SPrint (ECat (brand_says " New speed: ")
                       (ECat (EStr (EVar "speed")) (EConst (VStr "km/h"))))))
         (SPrint (brand_says " Car is off, no speed change")) |}.

(** ** The class body (lines 100-139) *)

(** The constructor (lines 121-122):
    [def __init__(self, brand, max_speed=200): self_properties(self, locals())].
    [locals()] holds [self], [brand] and [max_speed], in that order. *)
Definition Car_init : init :=
  {| i_params := [Param "brand" None; Param "max_speed" (Some (VInt 200))];
     i_exclude := VTuple []; i_save_args := false |}.

(** The statements of the class body: the block
    [with properties(locals(), 'meta') as meta:] with its four decorated
    definitions, then the constructor and the two listeners. *)
Definition Car_stmts : list bstmt :=
  [BProp "meta" true VNone false brand;
   BProp "meta" true VNone false max_speed;
   BProp "meta" false (VStr "_on_acceleration") false speed;
   BProp "meta" false (VStr "_on_off_listener") false on].

Definition Car_body : list cstmt :=
  [CWith "meta" false "meta" Car_stmts;
   CStmt (BInit Car_init);
   CStmt (BDef _on_off_listener);
   CStmt (BDef _on_acceleration)].

(** The same block as declarations of [Lifecycle], over the namespace in
    which the [with] statement has bound [meta] to the builder, the first
    object of the class body. *)
Definition Car_block : list decl :=
  [DProp true VNone false brand;
   DProp true VNone false max_speed;
   DProp false (VStr "_on_acceleration") false speed;
   DProp false (VStr "_on_off_listener") false on].

Definition Car_with : config :=
  with_properties ClassLocals "meta" false Car_block
    {["meta" := AValue (VObj 0)]}.

(** The class: the block's namespace, then the constructor and the two
    listeners. *)
Definition Car : gmap string class_attr :=
  def_method _on_acceleration
    (def_method _on_off_listener
       (<["__init__" := AInit Car_init]> (c_ns Car_with))).

(** ** The constructor call

    [Car(brand)] and [Car(brand, max_speed)] on a new instance. *)
Definition Car__init__ {I : Invoke} (brand : value) (max_speed : option value)
  : Py unit :=
  instantiate Car (VObj 0) (brand :: option_list max_speed).

(** ** The script (lines 142-151) *)

(** [for speed in range(start, stop, step): mycar.speed = speed]. *)
Definition accelerate (n : nat) (start stop step : Z) : Py unit :=
  match py_range start stop step with
  | Some l => for_each (fun v => assign Car n "speed" (VInt v)) l
  | None => raise (ValueError "range() arg 3 must not be zero")
  end.

Definition script (n : nat) : Py unit :=
  run! @Car__init__ (invoke_fuel Car n) (VStr "Ford") None in
  run! accelerate n 0 300 50 in
  run! assign Car n "on" (VBool true) in
  accelerate n 0 350 50.

(** The names of the listeners and of the properties. *)
Definition Car_listeners : list string :=
  ["_on_acceleration"; "_on_off_listener"].

Definition Car_properties : list string :=
  ["brand"; "max_speed"; "speed"; "on"].

(** The lines the script prints. *)
Definition script_output : list string :=
  replicate 6 "Ford Car is off, no speed change" ++
  ["Ford Turned on, Runnnnnn";
   "Ford New speed: 0km/h"; "Ford New speed: 50km/h";
   "Ford New speed: 100km/h"; "Ford New speed: 150km/h";
   "Ford New speed: 200km/h";
   "Ford 250km/h Bang! Engine exploded!";
   "Ford Turned off.";
   "Ford Car is off, no speed change"].

(** The instance's [__dict__] when the script ends. *)
Definition script_attrs : gmap string value :=
  <["_brand" := VStr "Ford"]> (<["_max_speed" := VInt 200]>
    (<["_speed" := VInt 300]> (<["_on" := VBool false]> ∅))).

(** ** Theorems *)

Lemma Car_with_closed :
  c_phase Car_with = Closed None /\ _scope (c_meta Car_with) = None.
Proof. done. Qed.

(** The class body defines the class [Car]: the four properties, the two
    listeners, and the builder, still bound to [meta]. *)
Lemma Car_class_def : class_def Car_body = Done tt Car.
Proof. reflexivity. Qed.

Lemma Car_wf : wf_class Car.
Proof.
  pose proof (class_def_wf Car_body) as H. by rewrite Car_class_def in H.
Qed.

Lemma Car_backing_free : backing_free Car.
Proof. by apply backing_freeb_spec. Qed.

Lemma Car_lookup_speed :
  Car !! "speed" = Some (AProperty
    {| fget := Some (CGetter "_speed" speed);
       fset := Some (CSetterListener "_speed" "_on_acceleration" false);
       fdel := None; doc := Some "Speed of the car" |}).
Proof. reflexivity. Qed.

(** The driver script, run on a fresh instance with call depth 6
    (assignment, listener, nested assignment, its listener, the getter of
    [brand], its default function), returns normally, has printed
    [script_output], and leaves the car off with [_speed = 300]: the last
    assignment of the second loop is stored although the engine is off. *)
Theorem script_runs :
  script 6 empty_state =
  Done tt {| attrs := script_attrs; output := script_output |}.
Proof. vm_compute. reflexivity. Qed.

(** Depth 6 is needed: with 5 the run is cut short. *)
Lemma script_needs_depth_6 : script 5 empty_state = OutOfFuel.
Proof. vm_compute. reflexivity. Qed.

(** The calls below the setters of [Car] nest at most 6 deep. *)
Lemma Car_bounded :
  Forall (fun name => set_ok Car Car_listeners (bounded Car Car_listeners 6)
                        name = true) Car_properties.
Proof. by repeat constructor. Qed.

(** Every script of assignments to the properties of a car whose listeners
    are not shadowed ends, whatever the values: the listeners call each
    other, and never more than 6 deep. *)
Lemma Car_assignments_end l s :
  l.*1 ⊆ Car_properties -> no_shadow Car_listeners s ->
  terminated (for_each (fun nv => assign Car 6 nv.1 nv.2) l s) = true.
Proof.
  intros Hl Hs. eapply proj1, keeps_terminated; [|done].
  eapply assignments_keeps; [apply Car_bounded|done].
Qed.
