(* ===== verification/Scenarios.v ===== *)
(** * Scenarios: the classes of the specification's test scenarios, and the
    theorems of the development applied to them and to the example [Car].

    [Observed] declares [speed] with [listener="_on_change"]; [Tracked]
    declares [speed] with [auto_dirty=True] and no listener; [Unheard]
    declares [speed] with [listener=True], whose conventional method
    [_changed] it does not define; [Fragile] declares [ratio] with a default
    function that reads an attribute the instance lacks; [Runaway] declares
    [x] with a listener that assigns [x] again. One part runs two
    threads that assign [speed] on one [Observed] under three schedules;
    another assigns a NaN, compares numbers of the three numeric types and
    deletes attributes; another derives classes from [Car] and [Tracked]
    ([SportsCar], [Convertible], [Parked], [Tandem_mro]). The class bodies
    [Hidden_body] (a property called like the builder) and [Late_body] (a
    declaration after the block) and the constructors [Saved_init],
    [Partial_init] and [Shifted_init] (saved arguments, with and without an
    exclusion) are the cases of [ClassBody] and [Construct]. *)

From stdpp Require Import base list strings gmap.
From S2P Require Import Prelude Values Objects Properties Lifecycle ClassBody.
From S2P Require Import Interp Termination Frames Inheritance Threads.
From S2P Require Import Independence.
From S2P Require Import SelfProperties Construct.
From S2P Require Import Integration Car.

#[local] Open Scope string_scope.

(** ** The scenario classes *)

(** A builder whose scope is a class namespace. *)
Definition meta : properties (gmap string class_attr) :=
  __enter__ (__init__ ∅ "meta" false).

(** [def speed(self): return 0]. *)
Definition speed0 : func :=
  {| f_name := "speed"; f_doc := None; f_params := [];
     f_body := SReturn (EConst (VInt 0)) |}.

(** [def _on_change(self, prop, old, new): print(f"{prop} {old} {new}")]. *)
Definition _on_change : func :=
  {| f_name := "_on_change"; f_doc := None;
     f_params := ["prop"; "old"; "new"];
     f_body :=
       SPrint (ECat (EStr (EVar "prop"))
                 (ECat (EConst (VStr " "))
                    (ECat (EStr (EVar "old"))
                       (ECat (EConst (VStr " ")) (EStr (EVar "new")))))) |}.

(** [def ratio(self): return self.total]. *)
Definition ratio : func :=
  {| f_name := "ratio"; f_doc := None; f_params := [];
     f_body := SReturn (EAttr "total") |}.

(** The class with one declared property and the given methods. *)
Definition class_of (read_only : bool) (listener : value) (auto_dirty : bool)
    (f : func) (methods : list func) : gmap string class_attr :=
  foldr def_method
    (c_ns (with_properties (∅ : gmap string class_attr) "meta" false
             [DProp read_only listener auto_dirty f] ∅))
    methods.

Definition Observed : gmap string class_attr :=
  class_of false (VStr "_on_change") false speed0 [_on_change].

Definition Tracked : gmap string class_attr :=
  class_of false VNone true speed0 [].

Definition Unheard : gmap string class_attr :=
  class_of false (VBool true) false speed0 [].

Definition Fragile : gmap string class_attr :=
  class_of false VNone false ratio [].

(** The property each class binds. *)
Definition declared (read_only : bool) (listener : value) (auto_dirty : bool)
    (f : func) : property :=
  match prop meta read_only listener auto_dirty f with
  | inr p => p
  | inl _ => Property None None None None
  end.

(** An instance whose [__dict__] holds the given entries. *)
Definition instance (l : list (string * value)) : state :=
  {| attrs := list_to_map l; output := [] |}.

(** ** The specification's scenarios *)

(** [speed = 50] on a fresh [Observed]: [_on_change("_speed", None, 50)]
    runs and [_speed] is 50; assigning 50 again does not run it again. *)
Theorem observed_scenario :
  (run! assign Observed 2 "speed" (VInt 50) in
   assign Observed 2 "speed" (VInt 50)) empty_state =
  Done tt {| attrs := {["_speed" := VInt 50]};
             output := ["_speed None 50"] |}.
Proof. vm_compute. reflexivity. Qed.

(** One changing write on a fresh [Tracked] sets [_is_dirty]. *)
Theorem tracked_scenario :
  assign Tracked 1 "speed" (VInt 50) empty_state =
  Done tt {| attrs := <["_speed" := VInt 50]> {["_is_dirty" := VBool true]};
             output := [] |}.
Proof. vm_compute. reflexivity. Qed.

(** The bulk initialiser on [{"self": obj, "a": 1, "b": 2}]. *)
Theorem initialiser_scenario :
  @self_properties ∅ (invoke_fuel ∅ 0)
    [("self", VObj 0); ("a", VInt 1); ("b", VInt 2)] (VTuple []) false
    empty_state =
  Done tt (instance [("_a", VInt 1); ("_b", VInt 2)]).
Proof. vm_compute. reflexivity. Qed.

(** ** Behaviour the specification does not describe *)

(** [def level(self): print("default computed"); return 0]. *)
Definition level : func :=
  {| f_name := "level"; f_doc := None; f_params := [];
     f_body := SSeq (SPrint (EConst (VStr "default computed")))
                    (SReturn (EConst (VInt 0))) |}.

Definition Chatty : gmap string class_attr :=
  class_of false VNone false level [].

(** [def is_dirty(self): return False], declared with [auto_dirty=True]. *)
Definition is_dirty_prop : func :=
  {| f_name := "is_dirty"; f_doc := None; f_params := [];
     f_body := SReturn (EConst (VBool false)) |}.

Definition Flagged : gmap string class_attr :=
  class_of false VNone true is_dirty_prop [].

(** [def x(self): return 0], declared with [listener="_flip"], and
    [def _flip(self, prop, old, new)] that assigns the property again:
    [if new > 0: self.x = 0 else: self.x = 1]. *)
Definition x0 : func :=
  {| f_name := "x"; f_doc := None; f_params := [];
     f_body := SReturn (EConst (VInt 0)) |}.

Definition _flip : func :=
  {| f_name := "_flip"; f_doc := None; f_params := ["prop"; "old"; "new"];
     f_body := SIf (EGt (EVar "new") (EConst (VInt 0)))
                 (SSetAttr "x" (EConst (VInt 0)))
                 (SSetAttr "x" (EConst (VInt 1))) |}.

Definition Runaway : gmap string class_attr :=
  class_of false (VStr "_flip") false x0 [_flip].

Definition bit (b : bool) : value := VInt (if b then 1 else 0).

(** The instance of the example after [Car('Ford')] and [mycar.on = True],
    engine running at speed 100. *)
Definition running_car : state :=
  instance [("_brand", VStr "Ford"); ("_max_speed", VInt 200);
            ("_on", VBool true); ("_speed", VInt 100)].

(** In the source's own example, assigning the same value twice in a
    row runs the listener twice: the first [speed = 250] makes the listener
    turn the engine off, whose listener resets [_speed] to 0, so the second
    [speed = 250] is a change again (and is reported with the engine off). *)
Theorem car_second_write_notifies :
  (run! assign Car 6 "speed" (VInt 250) in
   assign Car 6 "speed" (VInt 250)) running_car =
  Done tt
    {| attrs := attrs (set_attr "_speed" (VInt 250)
                         (set_attr "_on" (VBool false) running_car));
       output := ["Ford 250km/h Bang! Engine exploded!"; "Ford Turned off.";
                  "Ford Car is off, no speed change"] |}.
Proof. vm_compute. reflexivity. Qed.

(** The default function runs on every read, also when the backing
    field is set: its output is printed each time. *)
Theorem default_runs_on_every_read :
  (run! assign Chatty 3 "level" (VInt 7) in
   let! a := read Chatty 3 "level" in
   let! b := read Chatty 3 "level" in
   ret (a, b)) empty_state =
  Done (VInt 7, VInt 7)
    {| attrs := {["_level" := VInt 7]};
       output := ["default computed"; "default computed"] |}.
Proof. vm_compute. reflexivity. Qed.

(** Assigning [None] to a property that was never written is dropped:
    the missing field reads as [None] in the setter, so nothing is stored,
    and the next read gives the default and not [None]. *)
Theorem none_assignment_dropped :
  (run! assign Tracked 2 "speed" VNone in read Tracked 2 "speed")
    empty_state = Done (VInt 0) empty_state.
Proof. vm_compute. reflexivity. Qed.

(** With [save_args], a scope entry named [args] is lost: it is copied
    to [_args], which the tuple of arguments then overwrites. *)
Theorem args_entry_overwritten :
  final_state (@self_properties ∅ (invoke_fuel ∅ 0)
                 [("self", VObj 0); ("args", VInt 5)] (VTuple []) true
                 empty_state) =
  Some (instance [("_args", VTuple [VInt 5])]) /\
  final_state (@self_properties ∅ (invoke_fuel ∅ 0)
                 [("self", VObj 0); ("args", VInt 5)] (VTuple []) false
                 empty_state) =
  Some (instance [("_args", VInt 5)]).
Proof. split; vm_compute; reflexivity. Qed.

(** A constructor with parameters [n], [name], [me] and [x]. *)
Definition named_scope : list (string * value) :=
  [("self", VObj 0); ("n", VInt 1); ("name", VInt 2); ("me", VInt 3);
   ("x", VInt 4)].

(** [exclude=('name')] is the string ['name'], not a tuple: the test
    [k not in exclude] then looks for [k] inside the string, and the
    parameters [n] and [me] are dropped with [name]. The tuple
    [('name',)] excludes [name] alone. *)
Theorem exclude_string_drops_substrings :
  final_state (@self_properties ∅ (invoke_fuel ∅ 0) named_scope
                 (VStr "name") false empty_state) =
  Some (instance [("_x", VInt 4)]) /\
  final_state (@self_properties ∅ (invoke_fuel ∅ 0) named_scope
                 (VTuple [VStr "name"]) false empty_state) =
  Some (instance [("_n", VInt 1); ("_me", VInt 3); ("_x", VInt 4)]).
Proof. split; vm_compute; reflexivity. Qed.

(** A property named [is_dirty] declared with auto-dirty cannot hold
    [False]: its backing field is the dirty flag, which the setter sets to
    [True] right after writing the value. *)
Theorem dirty_flag_clash :
  (run! assign Flagged 2 "is_dirty" (VBool false) in
   read Flagged 2 "is_dirty") (instance [("_is_dirty", VBool true)]) =
  Done (VBool true) (instance [("_is_dirty", VBool true)]).
Proof. vm_compute. reflexivity. Qed.

(** *** A NaN *)

(** [float('nan')], one object. *)
Definition nan : value := VFloat (FNan 0).

(** Assigning the same value twice notifies twice when the value is a
    NaN: the second assignment finds the very object it assigns in the
    backing field, and [!=] still holds. *)
Theorem nan_notifies_twice :
  (run! assign Observed 2 "speed" nan in
   assign Observed 2 "speed" nan) empty_state =
  Done tt {| attrs := {["_speed" := nan]};
             output := ["_speed None nan"; "_speed nan nan"] |}.
Proof. vm_compute. reflexivity. Qed.

(** Inside a tuple the same NaN is an equal item: the comparison of items
    tests identity first, and so does [in]. *)
Lemma nan_in_tuple :
  py_ne nan nan = true /\
  py_ne (VTuple [nan]) (VTuple [nan]) = false /\
  py_ne (VTuple [nan]) (VTuple [VFloat (FNan 1)]) = true /\
  py_in nan [nan] = true.
Proof. by vm_compute. Qed.

(** Numbers compare by value across the three types. *)
Lemma number_tower :
  py_eq (VBool true) (VFloat (FFinite false 1 0)) = true /\
  py_eq (VInt 3) (VFloat (FFinite false 3 0)) = true /\
  py_eq (VInt 3) (VFloat (FFinite false 6 (-1))) = true /\
  py_eq (VInt 0) (VFloat (FZero true)) = true /\
  py_eq (VFloat (FFinite false 1 (-1))) (VInt 0) = false /\
  py_gt (VFloat (FInf false)) (VInt 1000) = Some true /\
  py_gt nan (VInt 0) = Some false /\ py_gt (VInt 0) nan = Some false.
Proof. by vm_compute. Qed.

(** *** A listener that assigns its own property *)

Lemma flip_env o v :
  bind_args (f_params _flip) [VStr "_x"; o; v] =
  Some (<["new" := v]> (list_to_map [("prop", VStr "_x"); ("old", o)])).
Proof. vm_compute. reflexivity. Qed.

(** The listener's body ends in the assignment of the other value. *)
Lemma flip_out_of_fuel (I : Invoke) b o s :
  @setattr Runaway I "x" (bit (negb b)) s = OutOfFuel ->
  @run_func Runaway I _flip [VStr "_x"; o; bit b] s = OutOfFuel.
Proof.
  intros H. unfold run_func. rewrite flip_env.
  cbn [exec eval f_body _flip]. unfold bind at 1 2 3. rewrite lookup_insert_eq.
  assert (py_gt (bit b) (VInt 0) = Some b) as Hgt by by destruct b.
  cbn -[setattr Runaway py_gt bit]. rewrite Hgt. unfold bit in *.
  destruct b; cbn -[setattr Runaway] in *; unfold bind; by rewrite H.
Qed.

Lemma Runaway_x :
  Runaway !! "x" = Some (AProperty (declared false (VStr "_flip") false x0)).
Proof. reflexivity. Qed.

(** With an even fuel: each assignment uses two levels, the setter and the
    listener, and ends in an assignment that changes the value again. *)
Lemma runaway_even k b s :
  py_ne (current "_x" s) (bit b) = true -> attrs s !! "_flip" = None ->
  assign Runaway (k + k) "x" (bit b) s = OutOfFuel.
Proof.
  revert b s. induction k as [|k IH]; intros b s Hne Hl; [done|].
  replace (S k + S k) with (S (S (k + k))) by lia.
  etrans; [apply (assign_setter_listener_changed Runaway x0 _ Runaway_x
                     eq_refl (k + k) "_flip" false (bit b) s _flip); try done|].
  - simpl. by rewrite lookup_insert_ne.
  - apply bind_out_of_fuel, flip_out_of_fuel, IH.
    + simpl. rewrite current_set_attr. by destruct b.
    + simpl. by rewrite lookup_insert_ne.
Qed.

(** C40. A listener that assigns its own property a value different from the
    one just written never comes back: the assignment runs out of fuel for
    every fuel. Nothing in the setter stops the recursion; Python ends it
    with [RecursionError] at the interpreter's limit. *)
Theorem runaway_listener n :
  assign Runaway n "x" (VInt 1) empty_state = OutOfFuel.
Proof.
  assert (assign Runaway (n + n) "x" (VInt 1) empty_state = OutOfFuel) as H
    by by apply (runaway_even n true).
  destruct (terminated (assign Runaway n "x" (VInt 1) empty_state)) eqn:Ht.
  - rewrite (assign_mono _ n (n + n)) in H by (lia || done). by rewrite H in Ht.
  - by destruct (assign Runaway n "x" (VInt 1) empty_state).
Qed.

(** ** Witnesses: [Interp] *)


Lemma assign_equal_noop_witness :
  assign Car 1 "speed" (VInt 1) (instance [("_speed", VBool true)]) =
  Done tt (instance [("_speed", VBool true)]).
Proof.
  apply (assign_equal_noop meta Car speed
           (declared false (VStr "_on_acceleration") false speed)
           (VStr "_on_acceleration") false); reflexivity.
Defined.

Lemma assign_plain_changed_witness :
  assign Tracked 1 "speed" (VInt 50) empty_state =
  Done tt (set_dirty true (set_attr "_speed" (VInt 50) empty_state)).
Proof.
  apply (assign_plain_changed meta Tracked speed0
           (declared false VNone true speed0) VNone true); reflexivity.
Defined.

Lemma assign_notifies_witness :
  assign Observed 2 "speed" (VInt 50) empty_state =
  (run! @run_func Observed (invoke_fuel Observed 0) _on_change
          [VStr "_speed"; VNone; VInt 50] in ret tt)
    (set_attr "_speed" (VInt 50) empty_state).
Proof.
  apply (assign_notifies meta Observed speed0
           (declared false (VStr "_on_change") false speed0)
           (VStr "_on_change") false); reflexivity.
Defined.

Lemma assign_listener_missing_witness :
  assign Unheard 1 "speed" (VInt 50) empty_state =
  Raised (AttributeError "_changed")
    (set_attr "_speed" (VInt 50) empty_state).
Proof.
  apply (assign_listener_missing meta Unheard speed0
           (declared false (VBool true) false speed0)
           (VBool true) false); reflexivity.
Defined.

Lemma assign_read_only_witness :
  assign Car 3 "brand" (VStr "Fiat") (instance [("_brand", VStr "Ford")]) =
  Raised (AttributeError "brand") (instance [("_brand", VStr "Ford")]).
Proof.
  apply (assign_read_only meta Car brand
           (declared true VNone false brand) VNone false); reflexivity.
Defined.

Lemma read_declared_witness :
  read Car 2 "speed" empty_state = Done (VInt 0) empty_state /\
  read Car 2 "speed" (instance [("_speed", VInt 50)]) =
  Done (VInt 50) (instance [("_speed", VInt 50)]).
Proof.
  split.
  - apply (read_declared meta Car speed
             (declared false (VStr "_on_acceleration") false speed)
             (VStr "_on_acceleration") false eq_refl eq_refl false 1
             empty_state (VInt 0) empty_state); reflexivity.
  - apply (read_declared meta Car speed
             (declared false (VStr "_on_acceleration") false speed)
             (VStr "_on_acceleration") false eq_refl eq_refl false 1
             (instance [("_speed", VInt 50)]) (VInt 0)
             (instance [("_speed", VInt 50)])); reflexivity.
Defined.

Lemma read_default_raises_witness :
  read Fragile 2 "ratio" (instance [("_ratio", VInt 2)]) =
  Raised (AttributeError "total") (instance [("_ratio", VInt 2)]).
Proof.
  apply (read_default_raises meta Fragile ratio
           (declared false VNone false ratio) VNone false eq_refl false 1
           (instance [("_ratio", VInt 2)]) (AttributeError "total")
           (instance [("_ratio", VInt 2)])); reflexivity.
Defined.

Lemma assign_twice_witness :
  (run! assign Tracked 1 "speed" (VInt 50) in
   assign Tracked 1 "speed" (VInt 50)) empty_state =
  assign Tracked 1 "speed" (VInt 50) empty_state.
Proof.
  apply (assign_twice meta Tracked speed0
           (declared false VNone true speed0) VNone true);
    first [reflexivity|discriminate].
Defined.

Lemma assign_read_roundtrip_witness :
  exists v s',
    (run! assign Tracked 2 "speed" (VInt 1) in read Tracked 2 "speed")
      (instance [("_speed", VBool true)]) = Done v s' /\
    (v = VInt 1 \/ value_equiv v (VInt 1)).
Proof.
  apply (assign_read_roundtrip meta Tracked speed0
           (declared false VNone true speed0) VNone true eq_refl eq_refl
           1 (VInt 1) (instance [("_speed", VBool true)]) (VInt 0));
    first [reflexivity|discriminate|by right].
Defined.

Lemma assign_dirty_witness :
  exists s',
    assign Tracked 1 "speed" (VInt 50) empty_state = Done tt s' /\
    (is_dirty empty_state -> is_dirty s') /\
    (true = true ->
     py_ne (current "_speed" empty_state) (VInt 50) = true -> is_dirty s').
Proof.
  apply (assign_dirty meta Tracked speed0
           (declared false VNone true speed0) VNone true);
    first [reflexivity|discriminate].
Defined.

Lemma assign_nan_changes_witness :
  assign Tracked 1 "speed" nan (instance [("_speed", nan)]) =
  Done tt (set_dirty true (set_attr "_speed" nan (instance [("_speed", nan)]))).
Proof.
  apply (assign_nan_changes meta Tracked speed0
           (declared false VNone true speed0) VNone true); reflexivity.
Defined.

Lemma delete_declared_witness :
  delete Car 0 "speed" (instance [("_speed", VInt 50)]) =
  Raised (AttributeError "speed") (instance [("_speed", VInt 50)]).
Proof.
  apply (delete_declared meta Car speed
           (declared false (VStr "_on_acceleration") false speed)
           (VStr "_on_acceleration") false eq_refl false).
  reflexivity.
Defined.

Lemma delete_backing_field_witness :
  (run! delete Car 1 "_speed" in read Car 2 "speed")
    (instance [("_speed", VInt 50)]) =
  Done (VInt 0) (del_attr "_speed" (instance [("_speed", VInt 50)])) /\
  current "_speed" (del_attr "_speed" (instance [("_speed", VInt 50)])) = VNone.
Proof.
  apply (delete_backing_field meta Car speed
           (declared false (VStr "_on_acceleration") false speed)
           (VStr "_on_acceleration") false eq_refl eq_refl false 1
           (instance [("_speed", VInt 50)]) (VInt 50) (VInt 0));
    reflexivity.
Defined.

Lemma read_terminates_witness :
  terminated (read Car 2 "speed" (instance [("_speed", VInt 50)])) = true.
Proof.
  apply (read_terminates meta Car speed
           (declared false (VStr "_on_acceleration") false speed)
           (VStr "_on_acceleration") false eq_refl eq_refl false);
    reflexivity.
Defined.

(** ** Witnesses: [Properties] *)

Lemma prop_config_error_witness :
  prop meta true (VStr "_on_change") false speed0 =
  inl (config_error "_speed").
Proof. apply (prop_config_error meta (VStr "_on_change")). reflexivity. Defined.

Lemma prop_read_only_iff_witness :
  is_read_only (declared true VNone false brand) = true.
Proof. apply (prop_read_only_iff meta true VNone false brand). reflexivity. Defined.

Lemma prop_read_only_falsy_listener_witness :
  prop meta true (VStr "") false speed0 =
  inr {| fget := Some (CGetter "_speed" speed0); fset := None;
         fdel := None; doc := None |}.
Proof.
  apply (prop_read_only_falsy_listener meta (VStr "")). reflexivity.
Defined.

(** ** Witnesses: [SelfProperties] *)

(** The scope of the specification's example, with one excluded name. *)
Definition example_scope : list (string * value) :=
  [("self", VObj 0); ("x", VInt 10); ("y", VInt 20); ("tmp", VInt 0)].

Lemma self_properties_reads_back_witness :
  exists s',
    @self_properties ∅ (invoke_fuel ∅ 0) example_scope
      (VTuple [VStr "tmp"]) true empty_state = Done tt s' /\
    attrs s' !! "_y" = Some (VInt 20).
Proof.
  apply (self_properties_reads_back ∅ example_scope (VTuple [VStr "tmp"]) true
           empty_state "y" (VInt 20));
    first [reflexivity|discriminate|by repeat constructor|idtac].
  apply (bool_decide_unpack (NoDup example_scope.*1)). vm_compute. exact I.
Defined.

Lemma self_properties_skips_witness :
  exists s',
    @self_properties ∅ (invoke_fuel ∅ 0) example_scope
      (VTuple [VStr "tmp"]) true (instance [("_tmp", VInt 9)]) = Done tt s' /\
    attrs s' !! "_tmp" = Some (VInt 9).
Proof.
  apply (self_properties_skips ∅ example_scope (VTuple [VStr "tmp"]) true
           (instance [("_tmp", VInt 9)]) "tmp");
    first [reflexivity|discriminate|by repeat constructor|by right].
Defined.

Lemma self_properties_save_args_witness :
  @self_properties ∅ (invoke_fuel ∅ 0) example_scope (VTuple [VStr "tmp"])
    true empty_state =
  (run! @self_properties ∅ (invoke_fuel ∅ 0) example_scope
          (VTuple [VStr "tmp"]) false
   in @setattr ∅ (invoke_fuel ∅ 0) "_args" (VTuple [VInt 10; VInt 20]))
    empty_state.
Proof.
  apply (@self_properties_save_args ∅ (invoke_fuel ∅ 0) example_scope
           (VTuple [VStr "tmp"]) empty_state).
Defined.

Lemma self_properties_spec_witness :
  exists s',
    @self_properties ∅ (invoke_fuel ∅ 0)
      [("self", VObj 0); ("x", VInt 10); ("y", VInt 20)] (VTuple []) true
      empty_state
    = Done tt s' /\
    output s' = [] /\
    forall a, attrs s' !! a =
      expected_attr [("self", VObj 0); ("x", VInt 10); ("y", VInt 20)]
        (VTuple []) true empty_state a.
Proof.
  apply (@self_properties_spec ∅ (invoke_fuel ∅ 0)
           [("self", VObj 0); ("x", VInt 10); ("y", VInt 20)] (VTuple []) true
           empty_state); [reflexivity| |reflexivity].
  repeat constructor.
Defined.

Lemma self_properties_type_error_witness :
  @self_properties ∅ (invoke_fuel ∅ 0) example_scope VNone true empty_state =
  if only_self example_scope
  then (if true then @setattr ∅ (invoke_fuel ∅ 0) "_args" (VTuple [])
                       empty_state
        else Done tt empty_state)
  else Raised (TypeError "argument is not iterable") empty_state.
Proof.
  apply (@self_properties_type_error ∅ (invoke_fuel ∅ 0) example_scope VNone
           true empty_state).
  intros k. reflexivity.
Defined.

(** ** The lifecycle and the classes it builds *)

Lemma class_of_wf read_only listener auto_dirty f methods :
  wf_class (class_of read_only listener auto_dirty f methods).
Proof.
  unfold class_of. induction methods as [|m methods IH]; simpl.
  - apply run_block_wf, wf_class_empty.
  - by apply def_method_wf.
Qed.

(** The labels of the block of [Car]. *)
Definition Car_labels : list label := (LDeclare <$> Car_block) ++ [LExit].

Lemma lifecycle_invariant_witness :
  wf_class (c_ns Car_with) /\ holds_references Car_with.
Proof.
  apply (lifecycle_invariant ClassLocals "meta" false
           {["meta" := AValue (VObj 0)]} Car_labels Car_with).
  - by apply wf_class_insert; [apply wf_class_empty|].
  - apply run_labels_sound. reflexivity.
Defined.

(** ** Class bodies *)

(** The class body when the block of [Car] has been left. *)
Definition Car_after_block : body_state :=
  {| b_ns := c_ns Car_with; b_objs := [Properties None None false] |}.

(** [def meta(self): return 0]. *)
Definition meta0 : func :=
  {| f_name := "meta"; f_doc := None; f_params := [];
     f_body := SReturn (EConst (VInt 0)) |}.

(** A class that declares a property called like its builder, then
    another property. *)
Definition Hidden_body : list cstmt :=
  [CWith "meta" false "meta"
     [BProp "meta" false VNone false meta0;
      BProp "meta" false VNone false speed0]].

(** A class that declares a property after the block, through the builder
    the block has left bound. *)
Definition Late_body : list cstmt :=
  [CWith "meta" true "meta" [];
   CStmt (BProp "meta" false VNone false speed0)].

Lemma exec_with_refines_witness :
  exec_with "meta" false "meta" Car_stmts new_body =
  block_outcome [] Car_with.
Proof.
  apply (exec_with_refines "meta" false "meta" Car_stmts Car_block new_body).
  - reflexivity.
  - apply (bool_decide_unpack _). vm_compute. exact I.
Defined.

Lemma exec_body_invariant_witness :
  exists st', body_inv st' /\
    (exec_body Car_body new_body = Done tt st' \/
     exists e, exec_body Car_body new_body = Raised e st').
Proof. apply (exec_body_invariant Car_body new_body), body_inv_new. Defined.

Lemma builder_stays_bound_witness :
  b_ns Car_after_block !! "meta" = Some (AValue (VObj 0)) /\
  b_objs Car_after_block !! 0 = Some (Properties None None false) /\
  exec_bstmt (BProp "meta" false VNone true speed0) Car_after_block =
    match prop (__init__ ClassLocals "meta" false) false VNone true speed0 with
    | inl e => Raised e Car_after_block
    | inr p => Done tt (bind_name "speed" (AProperty p) Car_after_block)
    end.
Proof.
  apply (builder_stays_bound "meta" false "meta" Car_stmts new_body
           Car_after_block false VNone true speed0).
  - apply (bool_decide_unpack _). vm_compute. exact I.
  - reflexivity.
Defined.


(** The class statement of [Hidden_body] fails: the second decorator finds
    the property [meta] where the builder was. The builder has been
    released all the same. *)
Lemma Hidden_class_def :
  exec_body Hidden_body new_body =
  Raised (AttributeError "prop")
    {| b_ns := {["meta" := AProperty (declared false VNone false meta0)]};
       b_objs := [Properties None None false] |}.
Proof. reflexivity. Qed.

(** The class of [Late_body] has the property declared after the block,
    with the builder's [auto_dirty] default. *)
Lemma Late_class_def :
  class_def Late_body =
  Done tt (<["speed" := AProperty (declared false VNone true speed0)]>
             {["meta" := AValue (VObj 0)]}).
Proof. reflexivity. Qed.

(** A class body that goes through [meta] without a block of its own
    raises [NameError]: the builder another class has kept as an attribute
    is no name of this body. *)
Lemma unbound_builder :
  class_def [CStmt (BProp "meta" false VNone false speed0)] =
  Raised (NameError "meta") ∅.
Proof. reflexivity. Qed.

(** The builder can be read through every car that has no attribute
    [meta] of its own. *)
Lemma Car_reads_builder n s :
  attrs s !! "meta" = None -> read Car n "meta" s = Done (VObj 0) s.
Proof.
  intros Hs. unfold read, getattr.
  change (Car !! "meta") with (Some (AValue (VObj 0))).
  unfold bind, get_state. by rewrite Hs.
Qed.

Lemma assign_frame_witness :
  exists s', changes_only ["_speed"; "_is_dirty"] empty_state s' /\
    (assign Tracked 1 "speed" (VInt 50) empty_state = Done tt s' \/
     fset (declared false VNone true speed0) = None /\ s' = empty_state /\
     assign Tracked 1 "speed" (VInt 50) empty_state =
     Raised (AttributeError "speed") empty_state).
Proof.
  apply (assign_frame Tracked (class_of_wf false VNone true speed0 [])
           (proj1 (backing_freeb_spec Tracked) eq_refl)
           "speed" (declared false VNone true speed0) 0 (VInt 50)
           empty_state); [reflexivity|reflexivity|].
  intros field lname b. discriminate.
Defined.

Lemma init_then_read_spec_witness :
  (run! @self_properties Car (invoke_fuel Car 1)
          [("self", VObj 0); ("brand", VStr "Ford"); ("max_speed", VInt 200)]
          (VTuple []) false in
   read Car 2 "brand") empty_state =
  Done (VStr "Ford")
    (initialised
       [("self", VObj 0); ("brand", VStr "Ford"); ("max_speed", VInt 200)]
       (VTuple []) false empty_state).
Proof.
  apply (init_then_read_spec Car Car_wf Car_backing_free "brand"
           (declared true VNone false brand) 1
           [("self", VObj 0); ("brand", VStr "Ford"); ("max_speed", VInt 200)]
           (VTuple []) (VStr "Ford") empty_state).
  - reflexivity.
  - reflexivity.
  - repeat constructor.
  - apply (bool_decide_unpack _). vm_compute. exact I.
  - apply (bool_decide_unpack _). vm_compute. exact I.
  - reflexivity.
  - intros f s [= _ <-]. by exists VNone.
Defined.

Lemma instantiate_then_read_witness :
  (run! @instantiate Car (invoke_fuel Car 1) (VObj 0) [VStr "Ford"] in
   read Car 2 "max_speed") empty_state =
  Done (VInt 200)
    (initialised [("brand", VStr "Ford"); ("max_speed", VInt 200)]
       (VTuple []) false empty_state).
Proof.
  apply (instantiate_then_read Car_body Car Car_class_def Car_backing_free
           Car_init eq_refl "max_speed" (declared true VNone false max_speed)
           1 (VObj 0) [VStr "Ford"]
           [("brand", VStr "Ford"); ("max_speed", VInt 200)] (VInt 200)
           empty_state).
  - reflexivity.
  - reflexivity.
  - by repeat constructor.
  - reflexivity.
  - apply (bool_decide_unpack _). vm_compute. exact I.
  - reflexivity.
  - apply (bool_decide_unpack _). vm_compute. exact I.
  - reflexivity.
  - discriminate.
  - intros f s [= _ <-]. by exists VNone.
Defined.

(** ** Constructors *)

(** The constructor of [Car] with [save_args=True]. *)
Definition Saved_init : init :=
  {| i_params := [Param "brand" None; Param "max_speed" (Some (VInt 200))];
     i_exclude := VTuple []; i_save_args := true |}.

(** A constructor without defaults that excludes [brand]. *)
Definition Partial_init : init :=
  {| i_params := [Param "brand" None; Param "max_speed" None];
     i_exclude := VTuple [VStr "brand"]; i_save_args := true |}.

(** The same signature with the default of [Car]. *)
Definition Shifted_init : init :=
  {| i_params := [Param "brand" None; Param "max_speed" (Some (VInt 200))];
     i_exclude := VTuple [VStr "brand"]; i_save_args := true |}.

(** The instance [Car("Ford")] of a constructor that saves its arguments. *)
Definition Ford_saved : state :=
  instance [("_brand", VStr "Ford"); ("_max_speed", VInt 200);
            ("_args", VTuple [VStr "Ford"; VInt 200])].

Lemma construct_stores_witness :
  exists s', @construct Car (invoke_fuel Car 0) Car_init (VObj 0)
               [VStr "Ford"] empty_state = Done tt s' /\
    output s' = [] /\ attrs s' !! "_max_speed" = Some (VInt 200).
Proof.
  apply (@construct_stores Car (invoke_fuel Car 0) Car_init eq_refl
           ltac:(by repeat constructor) eq_refl (VObj 0) [VStr "Ford"]
           [("brand", VStr "Ford"); ("max_speed", VInt 200)] empty_state
           "max_speed" (VInt 200)).
  - reflexivity.
  - apply (bool_decide_unpack _). vm_compute. exact I.
  - apply (bool_decide_unpack _). vm_compute. exact I.
  - reflexivity.
  - discriminate.
Defined.

Lemma clone_roundtrip_witness :
  @clone Car (invoke_fuel Car 0) Saved_init (VObj 1) Ford_saved =
  Done tt Ford_saved.
Proof.
  apply (@clone_roundtrip Car (invoke_fuel Car 0) Saved_init eq_refl
           ltac:(by repeat constructor) eq_refl (VObj 0) (VObj 1)
           [VStr "Ford"] Ford_saved).
  - reflexivity.
  - by repeat constructor.
  - reflexivity.
Defined.

Lemma clone_excluded_witness :
  @clone Car (invoke_fuel Car 0) Partial_init (VObj 1)
    (instance [("_max_speed", VInt 180); ("_args", VTuple [VInt 180])]) =
  Raised (TypeError "missing a required positional argument") empty_state.
Proof.
  apply (@clone_excluded Car (invoke_fuel Car 0) Partial_init eq_refl
           ltac:(by repeat constructor) eq_refl (VObj 0) (VObj 1)
           [VStr "Ford"; VInt 180]).
  - reflexivity.
  - by left.
  - by repeat constructor.
  - reflexivity.
Defined.

(** With a default the clone is made, and is another car: the saved
    maximum speed is taken for the brand, which is excluded, and the
    maximum speed is the default. *)
Lemma clone_shifted :
  @construct Car (invoke_fuel Car 0) Shifted_init (VObj 0)
    [VStr "Ford"; VInt 180] empty_state =
  Done tt (instance [("_max_speed", VInt 180); ("_args", VTuple [VInt 180])]) /\
  @clone Car (invoke_fuel Car 0) Shifted_init (VObj 1)
    (instance [("_max_speed", VInt 180); ("_args", VTuple [VInt 180])]) =
  Done tt (instance [("_max_speed", VInt 200); ("_args", VTuple [VInt 200])]).
Proof. split; reflexivity. Qed.

(** ** Witnesses: [Termination] *)

Lemma assignments_terminate_witness :
  terminated
    (for_each (fun nv => assign Car 6 nv.1 nv.2)
       [("speed", VInt 250); ("speed", VInt 250); ("on", VBool true)]
       running_car) = true /\
  forall s',
    final_state
      (for_each (fun nv => assign Car 6 nv.1 nv.2)
         [("speed", VInt 250); ("speed", VInt 250); ("on", VBool true)]
         running_car) = Some s' ->
    no_shadow Car_listeners s'.
Proof.
  apply (assignments_terminate Car Car_listeners 6 Car_properties
           [("speed", VInt 250); ("speed", VInt 250); ("on", VBool true)]
           running_car).
  - apply Car_bounded.
  - apply (bool_decide_unpack _). vm_compute. exact I.
  - apply no_shadowb_spec. reflexivity.
Defined.

(** ** Threads on one instance (specification, section 5) *)

(** Two threads assign [speed] on one fresh [Observed]. *)
Definition writer (v : value) : thread :=
  Thread "_speed" (Some "_on_change") false v AtRead.

Definition writers (v w : value) : list thread := [writer v; writer w].



(** Both threads read before either writes; thread 1 notifies first. *)
Definition interleaved : list nat := [0; 1; 0; 1; 0; 1; 0; 1; 1; 0].

(** The two threads taking turns, statement by statement. *)
Definition alternating : list nat := [0; 1; 0; 1; 0; 1; 0; 1; 0; 1].

Definition race (sched : list nat) (v w : value) : outcome exn state pool :=
  @run_schedule Observed (invoke_fuel Observed 1) sched
    (fresh_pool (writers v w)) empty_state.


(** *** Two properties, two threads *)

(** [def gear(self): return 1]. *)
Definition gear1 : func :=
  {| f_name := "gear"; f_doc := None; f_params := [];
     f_body := SReturn (EConst (VInt 1)) |}.

(** A class with the properties [speed] and [gear], no listener, and a
    builder that marks every change. *)
Definition Dashboard : gmap string class_attr :=
  c_ns (with_properties (∅ : gmap string class_attr) "meta" true
          [DProp false VNone false speed0; DProp false VNone false gear1] ∅).

(** The threads of [speed = 50] and [gear = 3]. *)
Definition drivers : list thread :=
  [Thread "_speed" None true (VInt 50) AtRead;
   Thread "_gear" None true (VInt 3) AtRead].

Lemma drivers_assignments :
  assignments Dashboard [("speed", VInt 50); ("gear", VInt 3)] = Some drivers.
Proof. by vm_compute. Qed.

(** ** Witnesses: [Threads] *)

Lemma run_steps_refines_witness :
  @run_steps Observed (invoke_fuel Observed 1) 5
    (Thread "_speed" (Some "_on_change") false (VInt 50) AtRead) empty_state =
  (run! @run_callable Observed (invoke_fuel Observed 1)
          (CSetterListener "_speed" "_on_change" false) [VInt 50] in
   ret Finished) empty_state.
Proof.
  apply (@run_steps_refines Observed (invoke_fuel Observed 1)
           (CSetterListener "_speed" "_on_change" false) (VInt 50)).
  reflexivity.
Defined.

Lemma serial_assignments_witness :
  (run! @run_schedule Observed (invoke_fuel Observed 1)
          (sequential (seq 0 (length (writers (VInt 1) (VInt 2)))))
          (fresh_pool (writers (VInt 1) (VInt 2))) in
   ret tt) empty_state =
  script_of Observed 1 [("speed", VInt 1); ("speed", VInt 2)] empty_state.
Proof.
  apply (serial_assignments Observed 1 [("speed", VInt 1); ("speed", VInt 2)]
           (writers (VInt 1) (VInt 2)) empty_state).
  vm_compute. reflexivity.
Defined.

Lemma fair_schedule_finishes_witness :
  terminated (race interleaved (VInt 1) (VInt 2)) = true /\
  forall P' s', race interleaved (VInt 1) (VInt 2) = Done P' s' ->
    Forall (fun t => enabled t = false) (threads P').
Proof.
  apply (fair_schedule_finishes Observed ["_on_change"] 1 interleaved
           (fresh_pool (writers (VInt 1) (VInt 2))) empty_state).
  - repeat (constructor; [vm_compute; reflexivity|]). constructor.
  - apply no_shadowb_spec. vm_compute. reflexivity.
  - intros i Hi. vm_compute in Hi.
    destruct i as [|[|i]]; [vm_compute; lia..|lia].
Defined.



(** ** Witnesses: [Independence] *)

Lemma drivers_independent : independent Dashboard drivers.
Proof.
  split_and!; [|by apply (bool_decide_unpack _)|reflexivity].
  repeat (constructor; [by split_and!|]). constructor.
Qed.

Lemma drivers_fair sched :
  Nat.leb 5 (occurrences 0 sched) && Nat.leb 5 (occurrences 1 sched) = true ->
  fair drivers sched.
Proof.
  intros [H0 H1]%andb_true_iff i Hi. simpl in Hi.
  destruct i as [|[|i]]; [by apply Nat.leb_le..|lia].
Qed.

Lemma independent_confluent_witness :
  exists P P' s',
    @run_schedule Dashboard (invoke_fuel Dashboard 0) alternating
      (fresh_pool drivers) empty_state = Done P s' /\
    @run_schedule Dashboard (invoke_fuel Dashboard 0) (sequential [1; 0])
      (fresh_pool drivers) empty_state = Done P' s' /\
    threads P = at_pc Finished <$> drivers /\
    threads P' = at_pc Finished <$> drivers.
Proof.
  apply (@independent_confluent Dashboard (invoke_fuel Dashboard 0)
           empty_state drivers alternating (sequential [1; 0])).
  - apply drivers_independent.
  - by apply drivers_fair.
  - by apply drivers_fair.
Defined.

(** ** Subclasses of [Car] *)

(** [def _on_acceleration(self, prop, old, speed): print(f"{speed} vroom")]. *)
Definition vroom : func :=
  {| f_name := "_on_acceleration"; f_doc := None;
     f_params := ["prop"; "old"; "speed"];
     f_body := SPrint (ECat (EStr (EVar "speed")) (EConst (VStr " vroom"))) |}.

(** [class SportsCar(Car)], which overrides the listener of [speed]. *)
Definition SportsCar : gmap string class_attr :=
  subclass (def_method vroom ∅) Car.

(** [def open_roof(self): self.roof = "open"]. *)
Definition open_roof : func :=
  {| f_name := "open_roof"; f_doc := None; f_params := [];
     f_body := SSetAttr "roof" (EConst (VStr "open")) |}.

(** [class Convertible(Car)], with a method and a class attribute of its
    own. *)
Definition Convertible : gmap string class_attr :=
  subclass (<["seats" := AValue (VInt 2)]> (def_method open_roof ∅)) Car.

(** [class Parked(Car): speed = 0]. *)
Definition Parked : gmap string class_attr :=
  subclass {["speed" := AValue (VInt 0)]} Car.

(** The order of [Convertible] flattens to the class. *)
Lemma Convertible_flatten :
  flatten [<["seats" := AValue (VInt 2)]> (def_method open_roof ∅); Car] =
  Convertible.
Proof. unfold flatten, Convertible, subclass. simpl. by rewrite map_union_empty. Qed.

(** ** Witnesses: [Inheritance] *)

Lemma override_listener_witness :
  assign SportsCar 2 "speed" (VInt 50) running_car =
  (run! @run_func SportsCar (invoke_fuel SportsCar 0) vroom
          [VStr "_speed"; VInt 100; VInt 50] in ret tt)
    (set_dirty false (set_attr "_speed" (VInt 50) running_car)).
Proof.
  apply (override_listener meta Car (def_method vroom ∅) speed
           (declared false (VStr "_on_acceleration") false speed)
           (VStr "_on_acceleration") false); reflexivity.
Defined.

Lemma override_hides_property_witness :
  assign Parked 0 "speed" (VInt 50) running_car =
  Done tt (set_attr "speed" (VInt 50) running_car).
Proof.
  apply (override_hides_property Car {["speed" := AValue (VInt 0)]} speed 0
           (VInt 50) running_car (AValue (VInt 0))); [reflexivity|].
  intros q. discriminate.
Defined.

Lemma extension_conservative_witness :
  for_each (fun nv => assign Convertible 6 nv.1 nv.2)
    [("speed", VInt 250); ("on", VBool true); ("speed", VInt 90)]
    running_car =
  for_each (fun nv => assign Car 6 nv.1 nv.2)
    [("speed", VInt 250); ("on", VBool true); ("speed", VInt 90)]
    running_car.
Proof.
  apply (extension_conservative Car Convertible Car_listeners 6
           ["speed"; "on"]).
  - repeat (constructor; [vm_compute; reflexivity|]). constructor.
  - apply (bool_decide_unpack _). vm_compute. exact I.
  - apply no_shadowb_spec. reflexivity.
Defined.

Lemma assign_listener_rebound_witness :
  assign Car 3 "speed" (VInt 50)
    (set_attr "_on_acceleration" (VMethod "_on_off_listener") running_car) =
  (run! @run_func Car (invoke_fuel Car 1) _on_off_listener
          [VStr "_speed"; VInt 100; VInt 50] in ret tt)
    (set_dirty false
       (set_attr "_speed" (VInt 50)
          (set_attr "_on_acceleration" (VMethod "_on_off_listener")
             running_car))).
Proof.
  apply (assign_listener_rebound meta Car speed
           (declared false (VStr "_on_acceleration") false speed)
           (VStr "_on_acceleration") false eq_refl eq_refl 1 (VInt 50)
           (set_attr "_on_acceleration" (VMethod "_on_off_listener")
              running_car)
           (VMethod "_on_off_listener")); reflexivity.
Defined.

(** [class Bike(Tracked)] and [class Tandem(Bike)]: the property [speed] is
    declared two classes up. *)
Definition Tandem_mro : list (gmap string class_attr) :=
  [{["seats" := AValue (VInt 2)]}; def_method open_roof ∅; Tracked].

Lemma inherited_property_witness :
  assign (flatten Tandem_mro) 1 "speed" (VInt 50) empty_state =
  Done tt (set_dirty true (set_attr "_speed" (VInt 50) empty_state)).
Proof.
  apply (inherited_property meta Tandem_mro speed0
           (declared false VNone true speed0) VNone true 0 (VInt 50)
           empty_state); try reflexivity.
  apply mro_lookup_defines. reflexivity.
Defined.

(** ** Witnesses: [Frames] *)

(** Whatever a car is told about its speed and its engine, it keeps its
    brand and its maximum speed. The frame of [speed] alone does not hold
    of [_speed]: the listener may turn the engine off, whose listener sets
    [_speed] to 0. *)
Lemma assignments_frame_witness :
  terminated
    (for_each (fun nv => assign Car 6 nv.1 nv.2)
       [("speed", VInt 250); ("on", VBool false)] running_car) = true /\
  forall s',
    final_state
      (for_each (fun nv => assign Car 6 nv.1 nv.2)
         [("speed", VInt 250); ("on", VBool false)] running_car) = Some s' ->
    unchanged ["_brand"; "_max_speed"] running_car s'.
Proof.
  apply (assignments_frame Car Car_listeners ["_brand"; "_max_speed"] 6
           ["speed"; "on"]).
  - repeat (constructor; [vm_compute; reflexivity|]). constructor.
  - apply (bool_decide_unpack _). vm_compute. exact I.
  - apply no_shadowb_spec. reflexivity.
Defined.

Lemma Car_speed_not_framed :
  set_ok Car (["_speed"] ++ Car_listeners)
    (framed Car Car_listeners ["_speed"] 6) "on" = false.
Proof. vm_compute. reflexivity. Qed.

Lemma assign_stores_witness :
  terminated (assign Observed 2 "speed" (VInt 50) empty_state) = true /\
  forall s',
    final_state (assign Observed 2 "speed" (VInt 50) empty_state) = Some s' ->
    attrs s' !! "_speed" = Some (VInt 50).
Proof.
  apply (assign_stores meta Observed ["_on_change"] speed0
           (declared false (VStr "_on_change") false speed0)
           (VStr "_on_change") false);
    first [reflexivity
          |apply (bool_decide_unpack _); vm_compute; exact I
          |apply no_shadowb_spec; reflexivity].
Defined.

(** The listener of [Unheard] is missing: the first assignment raises after
    the write, the second is silent. *)
Lemma assign_again_silent_witness :
  assign Unheard 1 "speed" (VInt 50)
    (set_attr "_speed" (VInt 50) empty_state) =
  Done tt (set_attr "_speed" (VInt 50) empty_state).
Proof.
  apply (assign_again_silent meta Unheard ["_changed"] speed0
           (declared false (VBool true) false speed0) (VBool true) false)
    with (s := empty_state);
    first [reflexivity
          |apply (bool_decide_unpack _); vm_compute; exact I
          |apply no_shadowb_spec; reflexivity].
Defined.

(** [speed] declared with [listener="_on_change"] and [auto_dirty=True]. *)
Definition Audited : gmap string class_attr :=
  class_of false (VStr "_on_change") true speed0 [_on_change].

Lemma dirty_never_cleared_witness :
  terminated
    (for_each (fun nv => assign Audited 2 nv.1 nv.2)
       [("speed", VInt 1); ("speed", VInt 2)]
       (instance [("_is_dirty", VBool true)])) = true /\
  forall s',
    final_state
      (for_each (fun nv => assign Audited 2 nv.1 nv.2)
         [("speed", VInt 1); ("speed", VInt 2)]
         (instance [("_is_dirty", VBool true)])) = Some s' ->
    is_dirty s'.
Proof.
  apply (dirty_never_cleared Audited ["_on_change"] 2 ["speed"]).
  - repeat (constructor; [vm_compute; reflexivity|]). constructor.
  - apply (bool_decide_unpack _). vm_compute. exact I.
  - apply no_shadowb_spec. reflexivity.
  - reflexivity.
Defined.

Lemma assign_sets_flag_witness :
  terminated (assign Audited 2 "speed" (VInt 50) empty_state) = true /\
  forall s',
    final_state (assign Audited 2 "speed" (VInt 50) empty_state) = Some s' ->
    is_dirty s'.
Proof.
  apply (assign_sets_flag meta Audited ["_on_change"] speed0
           (declared false (VStr "_on_change") true speed0)
           (VStr "_on_change") true);
    first [reflexivity
          |apply (bool_decide_unpack _); vm_compute; exact I
          |apply no_shadowb_spec; reflexivity].
Defined.

Lemma script_is_chain_witness :
  for_each (fun new => assign Observed 2 "speed" new)
    [VInt 1; VInt 1; VInt 2] empty_state =
  chain meta Observed speed0 (VStr "_on_change") false 1 VNone
    [VInt 1; VInt 1; VInt 2] empty_state.
Proof.
  apply (script_is_chain meta Observed ["_on_change"] speed0
           (declared false (VStr "_on_change") false speed0)
           (VStr "_on_change") false);
    first [reflexivity
          |apply (bool_decide_unpack _); vm_compute; exact I
          |apply no_shadowb_spec; reflexivity].
Defined.

(** Two threads on one car: [speed = 250] and [on = False], whose listeners
    assign [on] and write [_speed]. *)
Definition car_threads : list thread :=
  [Thread "_speed" (Some "_on_acceleration") false (VInt 250) AtRead;
   Thread "_on" (Some "_on_off_listener") false (VBool false) AtRead].

Lemma schedule_frame_witness :
  terminated
    (@run_schedule Car (invoke_fuel Car 6) [0; 1; 0; 1; 1; 0; 0; 1; 1; 0]
       (fresh_pool car_threads) running_car) = true /\
  forall s',
    final_state
      (@run_schedule Car (invoke_fuel Car 6) [0; 1; 0; 1; 1; 0; 0; 1; 1; 0]
         (fresh_pool car_threads) running_car) = Some s' ->
    unchanged ["_brand"; "_max_speed"] running_car s'.
Proof.
  apply (schedule_frame Car Car_listeners ["_brand"; "_max_speed"] 6).
  - repeat (constructor; [vm_compute; reflexivity|]). constructor.
  - apply no_shadowb_spec. reflexivity.
Defined.
